(** * Dynamic Mask filter (source/filters/filter-dynamic-mask.cpp)

    A shallow embedding of [dynamic_mask_instance]: its parameter store
    ([update], [save], [get_defaults2]), its secondary-source binding
    ([acquire], [release], [show], [hide], [activate], [deactivate]), the
    per-tick negotiation ([video_tick]) and the capture/composite pipeline
    ([video_render]).  The host (libobs graphics and source API) is modelled
    as an explicit state plus the answers it gives during one call. *)

From Stdlib Require Import ZArith Lia Bool List String.
From stdpp Require Import base option list gmap strings.

Local Open Scope Z_scope.

(** ** IEEE-754 conversions behind [static_cast<float_t>] and [static_cast<double_t>]

    The settings store holds binary64 numbers; [channel_data] and [vec4] hold
    binary32 numbers.  A datum is kept in its interchange encoding: sign bit,
    biased exponent field, trailing significand field. *)
Module IEEE.

Record binary32 := B32 { sign32 : bool; exp32 : Z; man32 : Z }.
Record binary64 := B64 { sign64 : bool; exp64 : Z; man64 : Z }.

(** Neither infinity nor NaN, and both fields within their widths. *)
Definition is_finite32 (f : binary32) : bool :=
  (0 <=? exp32 f) && (exp32 f <? 255) && (0 <=? man32 f) && (man32 f <? 2 ^ 23).

(** Round the non-negative real [sig * 2^ex] to binary32, ties to even.
    Returns the exponent and significand fields. *)
Definition round_binary32 (sig ex : Z) : Z * Z :=
  if sig =? 0 then (0, 0)
  else
    let u := Z.log2 sig + ex in
    let q := Z.max u (-126) - 23 in
    let shift := q - ex in
    let mant :=
      if shift <=? 0 then sig * 2 ^ (- shift)
      else
        let t := sig / 2 ^ shift in
        let r := sig mod 2 ^ shift in
        let half := 2 ^ (shift - 1) in
        if (half <? r) || ((r =? half) && Z.odd t) then t + 1 else t in
    let pattern := (q + 149) * 2 ^ 23 + mant in
    if 255 * 2 ^ 23 <=? pattern then (255, 0)
    else (pattern / 2 ^ 23, pattern mod 2 ^ 23).

(** [static_cast<float_t>(double)]: narrowing, round to nearest even.  A
    NaN keeps the top of its payload and comes out quiet. *)
Definition to_float (d : binary64) : binary32 :=
  let 'B64 s E M := d in
  if E =? 2047 then B32 s 255 (if M =? 0 then 0 else Z.lor (2 ^ 22) (M / 2 ^ 29))
  else
    let sig := if E =? 0 then M else M + 2 ^ 52 in
    let '(e, m) := round_binary32 sig (Z.max E 1 - 1075) in
    B32 s e m.

(** [static_cast<double_t>(float)]: widening, always exact. *)
Definition to_double (f : binary32) : binary64 :=
  let 'B32 s e m := f in
  if e =? 255 then B64 s 2047 (m * 2 ^ 29)
  else if e =? 0 then
    if m =? 0 then B64 s 0 0
    else let k := Z.log2 m in B64 s (k + 874) ((m - 2 ^ k) * 2 ^ (52 - k))
  else B64 s (e + 896) (m * 2 ^ 29).

(** [static_cast<float>(n)] for an unsigned integer [n]: the nearest
    binary32 number, ties to even; exact below [2 ^ 24]. *)
Definition uint_to_float (n : Z) : binary32 :=
  let '(e, m) := round_binary32 n 0 in B32 false e m.

(** The literal [1] where a [float] is expected. *)
Definition f_one : binary32 := B32 false 127 0.

(** The literals [0.0] and [1.0]. *)
Definition d_zero : binary64 := B64 false 0 0.
Definition d_one : binary64 := B64 false 1023 0.

End IEEE.
Export IEEE.

(** ** libobs vocabulary used by the filter *)

(** [enum gs_color_space] of libobs (graphics/graphics.h), by its
    enumerator values: plain sRGB, high-precision sRGB, then the two extended
    (HDR) spaces.  The filter compares them with [<=] and has a [default:]
    arm, so the type stays numeric. *)
Definition gs_color_space := Z.
Definition GS_CS_SRGB : gs_color_space := 0.
Definition GS_CS_SRGB_16F : gs_color_space := 1.
Definition GS_CS_709_EXTENDED : gs_color_space := 2.
Definition GS_CS_709_SCRGB : gs_color_space := 3.

(** The three [enum gs_color_format] values the filter ever selects. *)
Inductive gs_color_format := GS_RGBA | GS_RGBA16F | GS_RGBA_UNORM.

Global Instance gs_color_format_eq_dec : EqDecision gs_color_format.
Proof. solve_decision. Defined.

(** [OBS_SOURCE_SRGB] of libobs (obs-source.h) is bit 15 of a source's
    output flags. *)
Definition OBS_SOURCE_SRGB : Z := Z.shiftl 1 15.

(** An [obs_source_t] is known by its handle. *)
Definition source := nat.

(** [streamfx::obs::gs::texture] wraps a [gs_texture_t*]; 0 is the null
    object.  A [std::shared_ptr<texture>] member is an [option texture]. *)
Definition texture := Z.

(** Modelled from the spec: [streamfx::obs::gs::rendertarget], whose code is
    not in this file, is the "backing render target" of a capture; what the
    filter reads back from it is the colour format it was created with and,
    after a render, its texture. *)
Record rendertarget := { get_color_format : gs_color_format }.

(** ** Channels and the mixing parameters *)

(** Modelled from the spec: the enumeration [channel] of
    filter-dynamic-mask.hpp, "one of Red, Green, Blue, Alpha; used purely as
    an index (0..3)". *)
Inductive channel := Red | Green | Blue | Alpha.

Definition channel_index (c : channel) : nat :=
  match c with Red => 0 | Green => 1 | Blue => 2 | Alpha => 3 end%nat.

Global Instance channel_eq_dec : EqDecision channel.
Proof. solve_decision. Defined.

Global Instance channel_countable : Countable channel.
Proof.
  refine (inj_countable' channel_index
            (fun n => match n with
                      | 0 => Red | 1 => Green | 2 => Blue | _ => Alpha
                      end%nat) _).
  intros []; reflexivity.
Defined.

(** libobs [struct vec4], addressed through its [ptr] array. *)
Record vec4 := { vx : binary32; vy : binary32; vz : binary32; vw : binary32 }.

Definition vec4_ptr (v : vec4) (n : nat) : binary32 :=
  match n with 0 => vx v | 1 => vy v | 2 => vz v | _ => vw v end%nat.

(** [v.ptr[n] = f].  The filter only indexes with a channel, so [n <= 3]. *)
Definition vec4_ptr_set (n : nat) (f : binary32) (v : vec4) : vec4 :=
  match n with
  | 0 => {| vx := f; vy := vy v; vz := vz v; vw := vw v |}
  | 1 => {| vx := vx v; vy := f; vz := vz v; vw := vw v |}
  | 2 => {| vx := vx v; vy := vy v; vz := f; vw := vw v |}
  | _ => {| vx := vx v; vy := vy v; vz := vz v; vw := f |}
  end%nat.

(** libobs [struct matrix4]: four rows [x], [y], [z], [t]. *)
Record matrix4 := { mx : vec4; my : vec4; mz : vec4; mt : vec4 }.

(** [channel_data]: offset, scale and the four input weights. *)
Record channel_data := { value : binary32; scale : binary32; values : vec4 }.

Definition set_value (f : binary32) (d : channel_data) : channel_data :=
  {| value := f; scale := scale d; values := values d |}.
Definition set_scale (f : binary32) (d : channel_data) : channel_data :=
  {| value := value d; scale := f; values := values d |}.
Definition set_values (v : vec4) (d : channel_data) : channel_data :=
  {| value := value d; scale := scale d; values := v |}.

(** The [_precalc] member: what the mask effect receives. *)
Record precalc_data := { p_base : vec4; p_scale : vec4; p_matrix : matrix4 }.

Definition set_p_base (v : vec4) (p : precalc_data) : precalc_data :=
  {| p_base := v; p_scale := p_scale p; p_matrix := p_matrix p |}.
Definition set_p_scale (v : vec4) (p : precalc_data) : precalc_data :=
  {| p_base := p_base p; p_scale := v; p_matrix := p_matrix p |}.
Definition set_p_matrix (m : matrix4) (p : precalc_data) : precalc_data :=
  {| p_base := p_base p; p_scale := p_scale p; p_matrix := m |}.

(** The row of [_precalc.matrix] the [switch] in [update] selects. *)
Definition matrix_row (c : channel) (m : matrix4) : vec4 :=
  match c with Red => mx m | Green => my m | Blue => mz m | Alpha => mt m end.

Definition set_matrix_row (c : channel) (v : vec4) (m : matrix4) : matrix4 :=
  match c with
  | Red => {| mx := v; my := my m; mz := mz m; mt := mt m |}
  | Green => {| mx := mx m; my := v; mz := mz m; mt := mt m |}
  | Blue => {| mx := mx m; my := my m; mz := v; mt := mt m |}
  | Alpha => {| mx := mx m; my := my m; mz := mz m; mt := v |}
  end.

(** ** The filter instance

    The members of [dynamic_mask_instance] the code below reads or writes.
    A reference-holding member ([_input], [_input_child], [_input_vs],
    [_input_ac]) is [Some s] while it refers to source [s]. *)
Record dynamic_mask_instance := {
  _input : option source;
  _input_child : option source;
  _input_vs : option source;
  _input_ac : option source;
  _have_base : bool;
  _base_rt : option rendertarget;
  _base_tex : option texture;
  _base_color_space : gs_color_space;
  _base_color_format : gs_color_format;
  _base_srgb : bool;
  _have_input : bool;
  _input_rt : option rendertarget;
  _input_tex : option texture;
  _input_color_space : gs_color_space;
  _input_color_format : gs_color_format;
  _input_srgb : bool;
  _have_final : bool;
  _final_rt : option rendertarget;
  _final_tex : option texture;
  _final_srgb : bool;
  _channels : gmap channel channel_data;
  _precalc : precalc_data;
  _debug_texture : Z
}.

(** Field assignment, one setter per member. *)
Definition set_input (v : option source) (i : dynamic_mask_instance) :=
  {| _input := v; _input_child := _input_child i; _input_vs := _input_vs i;
     _input_ac := _input_ac i; _have_base := _have_base i;
     _base_rt := _base_rt i; _base_tex := _base_tex i;
     _base_color_space := _base_color_space i;
     _base_color_format := _base_color_format i; _base_srgb := _base_srgb i;
     _have_input := _have_input i; _input_rt := _input_rt i;
     _input_tex := _input_tex i; _input_color_space := _input_color_space i;
     _input_color_format := _input_color_format i;
     _input_srgb := _input_srgb i; _have_final := _have_final i;
     _final_rt := _final_rt i; _final_tex := _final_tex i;
     _final_srgb := _final_srgb i; _channels := _channels i;
     _precalc := _precalc i; _debug_texture := _debug_texture i |}.
Definition set_input_child (v : option source) (i : dynamic_mask_instance) :=
  {| _input := _input i; _input_child := v; _input_vs := _input_vs i;
     _input_ac := _input_ac i; _have_base := _have_base i;
     _base_rt := _base_rt i; _base_tex := _base_tex i;
     _base_color_space := _base_color_space i;
     _base_color_format := _base_color_format i; _base_srgb := _base_srgb i;
     _have_input := _have_input i; _input_rt := _input_rt i;
     _input_tex := _input_tex i; _input_color_space := _input_color_space i;
     _input_color_format := _input_color_format i;
     _input_srgb := _input_srgb i; _have_final := _have_final i;
     _final_rt := _final_rt i; _final_tex := _final_tex i;
     _final_srgb := _final_srgb i; _channels := _channels i;
     _precalc := _precalc i; _debug_texture := _debug_texture i |}.
Definition set_input_vs (v : option source) (i : dynamic_mask_instance) :=
  {| _input := _input i; _input_child := _input_child i; _input_vs := v;
     _input_ac := _input_ac i; _have_base := _have_base i;
     _base_rt := _base_rt i; _base_tex := _base_tex i;
     _base_color_space := _base_color_space i;
     _base_color_format := _base_color_format i; _base_srgb := _base_srgb i;
     _have_input := _have_input i; _input_rt := _input_rt i;
     _input_tex := _input_tex i; _input_color_space := _input_color_space i;
     _input_color_format := _input_color_format i;
     _input_srgb := _input_srgb i; _have_final := _have_final i;
     _final_rt := _final_rt i; _final_tex := _final_tex i;
     _final_srgb := _final_srgb i; _channels := _channels i;
     _precalc := _precalc i; _debug_texture := _debug_texture i |}.
Definition set_input_ac (v : option source) (i : dynamic_mask_instance) :=
  {| _input := _input i; _input_child := _input_child i;
     _input_vs := _input_vs i; _input_ac := v; _have_base := _have_base i;
     _base_rt := _base_rt i; _base_tex := _base_tex i;
     _base_color_space := _base_color_space i;
     _base_color_format := _base_color_format i; _base_srgb := _base_srgb i;
     _have_input := _have_input i; _input_rt := _input_rt i;
     _input_tex := _input_tex i; _input_color_space := _input_color_space i;
     _input_color_format := _input_color_format i;
     _input_srgb := _input_srgb i; _have_final := _have_final i;
     _final_rt := _final_rt i; _final_tex := _final_tex i;
     _final_srgb := _final_srgb i; _channels := _channels i;
     _precalc := _precalc i; _debug_texture := _debug_texture i |}.
Definition set_have_base (v : bool) (i : dynamic_mask_instance) :=
  {| _input := _input i; _input_child := _input_child i;
     _input_vs := _input_vs i; _input_ac := _input_ac i; _have_base := v;
     _base_rt := _base_rt i; _base_tex := _base_tex i;
     _base_color_space := _base_color_space i;
     _base_color_format := _base_color_format i; _base_srgb := _base_srgb i;
     _have_input := _have_input i; _input_rt := _input_rt i;
     _input_tex := _input_tex i; _input_color_space := _input_color_space i;
     _input_color_format := _input_color_format i;
     _input_srgb := _input_srgb i; _have_final := _have_final i;
     _final_rt := _final_rt i; _final_tex := _final_tex i;
     _final_srgb := _final_srgb i; _channels := _channels i;
     _precalc := _precalc i; _debug_texture := _debug_texture i |}.
Definition set_base_rt (v : option rendertarget) (i : dynamic_mask_instance) :=
  {| _input := _input i; _input_child := _input_child i;
     _input_vs := _input_vs i; _input_ac := _input_ac i;
     _have_base := _have_base i; _base_rt := v; _base_tex := _base_tex i;
     _base_color_space := _base_color_space i;
     _base_color_format := _base_color_format i; _base_srgb := _base_srgb i;
     _have_input := _have_input i; _input_rt := _input_rt i;
     _input_tex := _input_tex i; _input_color_space := _input_color_space i;
     _input_color_format := _input_color_format i;
     _input_srgb := _input_srgb i; _have_final := _have_final i;
     _final_rt := _final_rt i; _final_tex := _final_tex i;
     _final_srgb := _final_srgb i; _channels := _channels i;
     _precalc := _precalc i; _debug_texture := _debug_texture i |}.
Definition set_base_tex (v : option texture) (i : dynamic_mask_instance) :=
  {| _input := _input i; _input_child := _input_child i;
     _input_vs := _input_vs i; _input_ac := _input_ac i;
     _have_base := _have_base i; _base_rt := _base_rt i; _base_tex := v;
     _base_color_space := _base_color_space i;
     _base_color_format := _base_color_format i; _base_srgb := _base_srgb i;
     _have_input := _have_input i; _input_rt := _input_rt i;
     _input_tex := _input_tex i; _input_color_space := _input_color_space i;
     _input_color_format := _input_color_format i;
     _input_srgb := _input_srgb i; _have_final := _have_final i;
     _final_rt := _final_rt i; _final_tex := _final_tex i;
     _final_srgb := _final_srgb i; _channels := _channels i;
     _precalc := _precalc i; _debug_texture := _debug_texture i |}.
Definition set_base_color_space (v : gs_color_space) (i : dynamic_mask_instance) :=
  {| _input := _input i; _input_child := _input_child i;
     _input_vs := _input_vs i; _input_ac := _input_ac i;
     _have_base := _have_base i; _base_rt := _base_rt i;
     _base_tex := _base_tex i; _base_color_space := v;
     _base_color_format := _base_color_format i; _base_srgb := _base_srgb i;
     _have_input := _have_input i; _input_rt := _input_rt i;
     _input_tex := _input_tex i; _input_color_space := _input_color_space i;
     _input_color_format := _input_color_format i;
     _input_srgb := _input_srgb i; _have_final := _have_final i;
     _final_rt := _final_rt i; _final_tex := _final_tex i;
     _final_srgb := _final_srgb i; _channels := _channels i;
     _precalc := _precalc i; _debug_texture := _debug_texture i |}.
Definition set_base_color_format (v : gs_color_format) (i : dynamic_mask_instance) :=
  {| _input := _input i; _input_child := _input_child i;
     _input_vs := _input_vs i; _input_ac := _input_ac i;
     _have_base := _have_base i; _base_rt := _base_rt i;
     _base_tex := _base_tex i; _base_color_space := _base_color_space i;
     _base_color_format := v; _base_srgb := _base_srgb i;
     _have_input := _have_input i; _input_rt := _input_rt i;
     _input_tex := _input_tex i; _input_color_space := _input_color_space i;
     _input_color_format := _input_color_format i;
     _input_srgb := _input_srgb i; _have_final := _have_final i;
     _final_rt := _final_rt i; _final_tex := _final_tex i;
     _final_srgb := _final_srgb i; _channels := _channels i;
     _precalc := _precalc i; _debug_texture := _debug_texture i |}.
Definition set_base_srgb (v : bool) (i : dynamic_mask_instance) :=
  {| _input := _input i; _input_child := _input_child i;
     _input_vs := _input_vs i; _input_ac := _input_ac i;
     _have_base := _have_base i; _base_rt := _base_rt i;
     _base_tex := _base_tex i; _base_color_space := _base_color_space i;
     _base_color_format := _base_color_format i; _base_srgb := v;
     _have_input := _have_input i; _input_rt := _input_rt i;
     _input_tex := _input_tex i; _input_color_space := _input_color_space i;
     _input_color_format := _input_color_format i;
     _input_srgb := _input_srgb i; _have_final := _have_final i;
     _final_rt := _final_rt i; _final_tex := _final_tex i;
     _final_srgb := _final_srgb i; _channels := _channels i;
     _precalc := _precalc i; _debug_texture := _debug_texture i |}.
Definition set_have_input (v : bool) (i : dynamic_mask_instance) :=
  {| _input := _input i; _input_child := _input_child i;
     _input_vs := _input_vs i; _input_ac := _input_ac i;
     _have_base := _have_base i; _base_rt := _base_rt i;
     _base_tex := _base_tex i; _base_color_space := _base_color_space i;
     _base_color_format := _base_color_format i; _base_srgb := _base_srgb i;
     _have_input := v; _input_rt := _input_rt i; _input_tex := _input_tex i;
     _input_color_space := _input_color_space i;
     _input_color_format := _input_color_format i;
     _input_srgb := _input_srgb i; _have_final := _have_final i;
     _final_rt := _final_rt i; _final_tex := _final_tex i;
     _final_srgb := _final_srgb i; _channels := _channels i;
     _precalc := _precalc i; _debug_texture := _debug_texture i |}.
Definition set_input_rt (v : option rendertarget) (i : dynamic_mask_instance) :=
  {| _input := _input i; _input_child := _input_child i;
     _input_vs := _input_vs i; _input_ac := _input_ac i;
     _have_base := _have_base i; _base_rt := _base_rt i;
     _base_tex := _base_tex i; _base_color_space := _base_color_space i;
     _base_color_format := _base_color_format i; _base_srgb := _base_srgb i;
     _have_input := _have_input i; _input_rt := v;
     _input_tex := _input_tex i; _input_color_space := _input_color_space i;
     _input_color_format := _input_color_format i;
     _input_srgb := _input_srgb i; _have_final := _have_final i;
     _final_rt := _final_rt i; _final_tex := _final_tex i;
     _final_srgb := _final_srgb i; _channels := _channels i;
     _precalc := _precalc i; _debug_texture := _debug_texture i |}.
Definition set_input_tex (v : option texture) (i : dynamic_mask_instance) :=
  {| _input := _input i; _input_child := _input_child i;
     _input_vs := _input_vs i; _input_ac := _input_ac i;
     _have_base := _have_base i; _base_rt := _base_rt i;
     _base_tex := _base_tex i; _base_color_space := _base_color_space i;
     _base_color_format := _base_color_format i; _base_srgb := _base_srgb i;
     _have_input := _have_input i; _input_rt := _input_rt i; _input_tex := v;
     _input_color_space := _input_color_space i;
     _input_color_format := _input_color_format i;
     _input_srgb := _input_srgb i; _have_final := _have_final i;
     _final_rt := _final_rt i; _final_tex := _final_tex i;
     _final_srgb := _final_srgb i; _channels := _channels i;
     _precalc := _precalc i; _debug_texture := _debug_texture i |}.
Definition set_input_color_space (v : gs_color_space) (i : dynamic_mask_instance) :=
  {| _input := _input i; _input_child := _input_child i;
     _input_vs := _input_vs i; _input_ac := _input_ac i;
     _have_base := _have_base i; _base_rt := _base_rt i;
     _base_tex := _base_tex i; _base_color_space := _base_color_space i;
     _base_color_format := _base_color_format i; _base_srgb := _base_srgb i;
     _have_input := _have_input i; _input_rt := _input_rt i;
     _input_tex := _input_tex i; _input_color_space := v;
     _input_color_format := _input_color_format i;
     _input_srgb := _input_srgb i; _have_final := _have_final i;
     _final_rt := _final_rt i; _final_tex := _final_tex i;
     _final_srgb := _final_srgb i; _channels := _channels i;
     _precalc := _precalc i; _debug_texture := _debug_texture i |}.
Definition set_input_color_format (v : gs_color_format) (i : dynamic_mask_instance) :=
  {| _input := _input i; _input_child := _input_child i;
     _input_vs := _input_vs i; _input_ac := _input_ac i;
     _have_base := _have_base i; _base_rt := _base_rt i;
     _base_tex := _base_tex i; _base_color_space := _base_color_space i;
     _base_color_format := _base_color_format i; _base_srgb := _base_srgb i;
     _have_input := _have_input i; _input_rt := _input_rt i;
     _input_tex := _input_tex i; _input_color_space := _input_color_space i;
     _input_color_format := v; _input_srgb := _input_srgb i;
     _have_final := _have_final i; _final_rt := _final_rt i;
     _final_tex := _final_tex i; _final_srgb := _final_srgb i;
     _channels := _channels i; _precalc := _precalc i;
     _debug_texture := _debug_texture i |}.
Definition set_input_srgb (v : bool) (i : dynamic_mask_instance) :=
  {| _input := _input i; _input_child := _input_child i;
     _input_vs := _input_vs i; _input_ac := _input_ac i;
     _have_base := _have_base i; _base_rt := _base_rt i;
     _base_tex := _base_tex i; _base_color_space := _base_color_space i;
     _base_color_format := _base_color_format i; _base_srgb := _base_srgb i;
     _have_input := _have_input i; _input_rt := _input_rt i;
     _input_tex := _input_tex i; _input_color_space := _input_color_space i;
     _input_color_format := _input_color_format i; _input_srgb := v;
     _have_final := _have_final i; _final_rt := _final_rt i;
     _final_tex := _final_tex i; _final_srgb := _final_srgb i;
     _channels := _channels i; _precalc := _precalc i;
     _debug_texture := _debug_texture i |}.
Definition set_have_final (v : bool) (i : dynamic_mask_instance) :=
  {| _input := _input i; _input_child := _input_child i;
     _input_vs := _input_vs i; _input_ac := _input_ac i;
     _have_base := _have_base i; _base_rt := _base_rt i;
     _base_tex := _base_tex i; _base_color_space := _base_color_space i;
     _base_color_format := _base_color_format i; _base_srgb := _base_srgb i;
     _have_input := _have_input i; _input_rt := _input_rt i;
     _input_tex := _input_tex i; _input_color_space := _input_color_space i;
     _input_color_format := _input_color_format i;
     _input_srgb := _input_srgb i; _have_final := v;
     _final_rt := _final_rt i; _final_tex := _final_tex i;
     _final_srgb := _final_srgb i; _channels := _channels i;
     _precalc := _precalc i; _debug_texture := _debug_texture i |}.
Definition set_final_rt (v : option rendertarget) (i : dynamic_mask_instance) :=
  {| _input := _input i; _input_child := _input_child i;
     _input_vs := _input_vs i; _input_ac := _input_ac i;
     _have_base := _have_base i; _base_rt := _base_rt i;
     _base_tex := _base_tex i; _base_color_space := _base_color_space i;
     _base_color_format := _base_color_format i; _base_srgb := _base_srgb i;
     _have_input := _have_input i; _input_rt := _input_rt i;
     _input_tex := _input_tex i; _input_color_space := _input_color_space i;
     _input_color_format := _input_color_format i;
     _input_srgb := _input_srgb i; _have_final := _have_final i;
     _final_rt := v; _final_tex := _final_tex i;
     _final_srgb := _final_srgb i; _channels := _channels i;
     _precalc := _precalc i; _debug_texture := _debug_texture i |}.
Definition set_final_tex (v : option texture) (i : dynamic_mask_instance) :=
  {| _input := _input i; _input_child := _input_child i;
     _input_vs := _input_vs i; _input_ac := _input_ac i;
     _have_base := _have_base i; _base_rt := _base_rt i;
     _base_tex := _base_tex i; _base_color_space := _base_color_space i;
     _base_color_format := _base_color_format i; _base_srgb := _base_srgb i;
     _have_input := _have_input i; _input_rt := _input_rt i;
     _input_tex := _input_tex i; _input_color_space := _input_color_space i;
     _input_color_format := _input_color_format i;
     _input_srgb := _input_srgb i; _have_final := _have_final i;
     _final_rt := _final_rt i; _final_tex := v; _final_srgb := _final_srgb i;
     _channels := _channels i; _precalc := _precalc i;
     _debug_texture := _debug_texture i |}.
Definition set_final_srgb (v : bool) (i : dynamic_mask_instance) :=
  {| _input := _input i; _input_child := _input_child i;
     _input_vs := _input_vs i; _input_ac := _input_ac i;
     _have_base := _have_base i; _base_rt := _base_rt i;
     _base_tex := _base_tex i; _base_color_space := _base_color_space i;
     _base_color_format := _base_color_format i; _base_srgb := _base_srgb i;
     _have_input := _have_input i; _input_rt := _input_rt i;
     _input_tex := _input_tex i; _input_color_space := _input_color_space i;
     _input_color_format := _input_color_format i;
     _input_srgb := _input_srgb i; _have_final := _have_final i;
     _final_rt := _final_rt i; _final_tex := _final_tex i; _final_srgb := v;
     _channels := _channels i; _precalc := _precalc i;
     _debug_texture := _debug_texture i |}.
Definition set_channels (v : gmap channel channel_data) (i : dynamic_mask_instance) :=
  {| _input := _input i; _input_child := _input_child i;
     _input_vs := _input_vs i; _input_ac := _input_ac i;
     _have_base := _have_base i; _base_rt := _base_rt i;
     _base_tex := _base_tex i; _base_color_space := _base_color_space i;
     _base_color_format := _base_color_format i; _base_srgb := _base_srgb i;
     _have_input := _have_input i; _input_rt := _input_rt i;
     _input_tex := _input_tex i; _input_color_space := _input_color_space i;
     _input_color_format := _input_color_format i;
     _input_srgb := _input_srgb i; _have_final := _have_final i;
     _final_rt := _final_rt i; _final_tex := _final_tex i;
     _final_srgb := _final_srgb i; _channels := v; _precalc := _precalc i;
     _debug_texture := _debug_texture i |}.
Definition set_precalc (v : precalc_data) (i : dynamic_mask_instance) :=
  {| _input := _input i; _input_child := _input_child i;
     _input_vs := _input_vs i; _input_ac := _input_ac i;
     _have_base := _have_base i; _base_rt := _base_rt i;
     _base_tex := _base_tex i; _base_color_space := _base_color_space i;
     _base_color_format := _base_color_format i; _base_srgb := _base_srgb i;
     _have_input := _have_input i; _input_rt := _input_rt i;
     _input_tex := _input_tex i; _input_color_space := _input_color_space i;
     _input_color_format := _input_color_format i;
     _input_srgb := _input_srgb i; _have_final := _have_final i;
     _final_rt := _final_rt i; _final_tex := _final_tex i;
     _final_srgb := _final_srgb i; _channels := _channels i; _precalc := v;
     _debug_texture := _debug_texture i |}.
Definition set_debug_texture (v : Z) (i : dynamic_mask_instance) :=
  {| _input := _input i; _input_child := _input_child i;
     _input_vs := _input_vs i; _input_ac := _input_ac i;
     _have_base := _have_base i; _base_rt := _base_rt i;
     _base_tex := _base_tex i; _base_color_space := _base_color_space i;
     _base_color_format := _base_color_format i; _base_srgb := _base_srgb i;
     _have_input := _have_input i; _input_rt := _input_rt i;
     _input_tex := _input_tex i; _input_color_space := _input_color_space i;
     _input_color_format := _input_color_format i;
     _input_srgb := _input_srgb i; _have_final := _have_final i;
     _final_rt := _final_rt i; _final_tex := _final_tex i;
     _final_srgb := _final_srgb i; _channels := _channels i;
     _precalc := _precalc i; _debug_texture := v |}.

(** ** The host

    The part of libobs' state the filter observes or changes: the two
    sRGB-related render flags, the showing/active counts and the active-child
    registrations it adds to other sources, and a log of the graphics and
    source calls it issues (newest first). *)

Inductive slot := Base | Input | Final.

Inductive gs_call :=
| gs_blend_state_push
| gs_blend_state_pop
| gs_reset_blend_state
| gs_enable_blending (b : bool)
| gs_blend_function_one_zero
| gs_enable_color_all
| gs_set_cull_mode_neither
| gs_enable_depth_test (b : bool)
| gs_depth_function_always
| gs_enable_stencil_test (b : bool)
| gs_enable_stencil_write (b : bool)
| gs_stencil_function_always
| gs_stencil_op_keep
| gs_stencil_op_zero
| gs_ortho (right bottom : binary32)
| gs_clear
| texrender_begin (s : slot) (w h : Z)
| texrender_end (s : slot)
| process_filter_begin (fmt : gs_color_format) (space : gs_color_space)
| process_filter_end (w h : Z)
| obs_source_video_render (src : source)
| effect_set_texture (name : string) (t : option texture) (srgb : bool)
| effect_set_float4 (name : string) (v : vec4)
| effect_set_matrix (name : string) (m : matrix4)
| effect_loop_mask
| effect_set_image (object : Z) (srgb : bool)
| effect_loop_draw (w h : Z)
| skip_video_filter
| log_error (msg : string).

Record host := {
  framebuffer_srgb : bool;
  linear_srgb : bool;
  showing_refs : gmap source Z;
  active_refs : gmap source Z;
  active_children : list source;
  calls : list gs_call
}.

Definition set_framebuffer_srgb (b : bool) (h : host) : host :=
  {| framebuffer_srgb := b; linear_srgb := linear_srgb h;
     showing_refs := showing_refs h; active_refs := active_refs h;
     active_children := active_children h; calls := calls h |}.
Definition set_linear_srgb (b : bool) (h : host) : host :=
  {| framebuffer_srgb := framebuffer_srgb h; linear_srgb := b;
     showing_refs := showing_refs h; active_refs := active_refs h;
     active_children := active_children h; calls := calls h |}.
Definition set_showing_refs (m : gmap source Z) (h : host) : host :=
  {| framebuffer_srgb := framebuffer_srgb h; linear_srgb := linear_srgb h;
     showing_refs := m; active_refs := active_refs h;
     active_children := active_children h; calls := calls h |}.
Definition set_active_refs (m : gmap source Z) (h : host) : host :=
  {| framebuffer_srgb := framebuffer_srgb h; linear_srgb := linear_srgb h;
     showing_refs := showing_refs h; active_refs := m;
     active_children := active_children h; calls := calls h |}.
Definition set_active_children (l : list source) (h : host) : host :=
  {| framebuffer_srgb := framebuffer_srgb h; linear_srgb := linear_srgb h;
     showing_refs := showing_refs h; active_refs := active_refs h;
     active_children := l; calls := calls h |}.
Definition set_calls (l : list gs_call) (h : host) : host :=
  {| framebuffer_srgb := framebuffer_srgb h; linear_srgb := linear_srgb h;
     showing_refs := showing_refs h; active_refs := active_refs h;
     active_children := active_children h; calls := l |}.

(** A reference count; a source never touched counts 0. *)
Definition refs (m : gmap source Z) (s : source) : Z := default 0 (m !! s).

(** Remove one registration of [s], as [obs_source_remove_active_child]. *)
Fixpoint remove_child (s : source) (l : list source) : list source :=
  match l with
  | [] => []
  | x :: l' => if decide (x = s) then l' else x :: remove_child s l'
  end.

(** ** Computations: host and instance state, C++ exceptions, undefined behaviour

    A computation returns, throws, or runs into undefined behaviour (the
    filter calls a member through an empty [shared_ptr] in one place).
    Undefined behaviour is no exception: no handler catches it and no scope
    guard runs after it; the state kept with it is the one in which it
    happened. *)

Inductive result (A : Type) := Return (a : A) | Throw | Undefined.
Arguments Return {A} a.
Arguments Throw {A}.
Arguments Undefined {A}.

Definition state : Type := host * dynamic_mask_instance.

Definition M (A : Type) : Type := state -> result A * state.

Global Instance M_ret : MRet M := fun A a s => (Return a, s).
Global Instance M_bind : MBind M := fun A B f m s =>
  match m s with
  | (Return a, s') => f a s'
  | (Throw, s') => (Throw, s')
  | (Undefined, s') => (Undefined, s')
  end.

Definition throw {A} : M A := fun s => (Throw, s).
Definition undefined {A} : M A := fun s => (Undefined, s).

(** [try { m } catch (...) { handler }]; both [catch] clauses of the filter
    run the same handler up to the text they log. *)
Definition try_catch {A} (m handler : M A) : M A := fun s =>
  match m s with
  | (Return a, s') => (Return a, s')
  | (Throw, s') => handler s'
  | (Undefined, s') => (Undefined, s')
  end.

(** A scope guard: [cleanup] runs when [m] leaves, normally or by an
    exception. *)
Definition finally {A} (m : M A) (cleanup : M unit) : M A := fun s =>
  match m s with
  | (Undefined, s') => (Undefined, s')
  | (r, s') => (r, snd (cleanup s'))
  end.

Definition get_inst : M dynamic_mask_instance := fun s => (Return (snd s), s).
Definition get_host : M host := fun s => (Return (fst s), s).
Definition modify_inst (f : dynamic_mask_instance -> dynamic_mask_instance) : M unit :=
  fun s => (Return tt, (fst s, f (snd s))).
Definition modify_host (f : host -> host) : M unit :=
  fun s => (Return tt, (f (fst s), snd s)).

Definition when (b : bool) (m : M unit) : M unit := if b then m else mret tt.

Definition call (c : gs_call) : M unit :=
  modify_host (fun h => set_calls (c :: calls h) h).

Definition gs_framebuffer_srgb_enabled : M bool :=
  h ← get_host; mret (framebuffer_srgb h).
Definition gs_get_linear_srgb : M bool :=
  h ← get_host; mret (linear_srgb h).
Definition gs_enable_framebuffer_srgb (b : bool) : M unit :=
  modify_host (set_framebuffer_srgb b).
Definition gs_set_linear_srgb (b : bool) : M unit :=
  modify_host (set_linear_srgb b).

(** ** Secondary source binding *)

(** What the host answers while the binding changes. *)
Record bind_env := {
  get_source_by_name : string -> option source;
  add_active_child : source -> bool;
  source_alive : source -> bool;
  source_name : source -> string;
  self_active : bool;
  parent_active : bool;
  self_showing : bool;
  parent_showing : bool
}.

(** [weak.lock()]: the source, if the reference is set and not expired. *)
Definition lock (alive : source -> bool) (weak : option source) : option source :=
  match weak with
  | Some s => if alive s then Some s else None
  | None => None
  end.

(** Modelled from the spec: [streamfx::obs::source_active_reference] and
    [streamfx::obs::source_showing_reference], whose code is not in this
    file, are the "visibility/activity references" forwarded to the bound
    source: creating one increments the count of its target, dropping it
    decrements the count if the target still exists. *)
Definition increment_active (s : source) : M unit :=
  modify_host (fun h => set_active_refs (<[s := refs (active_refs h) s + 1]> (active_refs h)) h).
Definition decrement_active (s : source) : M unit :=
  modify_host (fun h => set_active_refs (<[s := refs (active_refs h) s - 1]> (active_refs h)) h).
Definition increment_showing (s : source) : M unit :=
  modify_host (fun h => set_showing_refs (<[s := refs (showing_refs h) s + 1]> (showing_refs h)) h).
Definition decrement_showing (s : source) : M unit :=
  modify_host (fun h => set_showing_refs (<[s := refs (showing_refs h) s - 1]> (showing_refs h)) h).

(** Destructor of a held reference. *)
Definition drop_reference (alive : source -> bool) (decrement : source -> M unit)
    (held : option source) : M unit :=
  match lock alive held with
  | Some s => decrement s
  | None => mret tt
  end.

Section Binding.
Variable e : bind_env.

Definition deactivate : M unit :=
  i ← get_inst;
  drop_reference (source_alive e) decrement_active (_input_ac i);;
  modify_inst (set_input_ac None).

Definition hide : M unit :=
  i ← get_inst;
  drop_reference (source_alive e) decrement_showing (_input_vs i);;
  modify_inst (set_input_vs None).

Definition activate : M unit :=
  i ← get_inst;
  match lock (source_alive e) (_input i) with
  | None => mret tt
  | Some input =>
      if negb (self_active e) || negb (parent_active e) then mret tt
      else
        increment_active input;;
        drop_reference (source_alive e) decrement_active (_input_ac i);;
        modify_inst (set_input_ac (Some input))
  end.

Definition show : M unit :=
  i ← get_inst;
  match lock (source_alive e) (_input i) with
  | None => mret tt
  | Some input =>
      if negb (self_showing e) || negb (parent_showing e) then mret tt
      else
        increment_showing input;;
        drop_reference (source_alive e) decrement_showing (_input_vs i);;
        modify_inst (set_input_vs (Some input))
  end.

(** Modelled from the spec: [streamfx::obs::source_active_child], whose
    code is not in this file, "constructs a child relationship that the
    host's cycle-detection mechanism can use to reject self-reference
    (acquisition fails if this would create a render cycle)"; its
    destructor removes the relationship again. *)
Definition source_active_child (child : option source) : M source :=
  match child with
  | None => throw
  | Some c =>
      if add_active_child e c then
        modify_host (fun h => set_active_children (c :: active_children h) h);;
        mret c
      else throw
  end.

Definition drop_active_child (held : option source) : M unit :=
  match lock (source_alive e) held with
  | Some c => modify_host (fun h => set_active_children (remove_child c (active_children h)) h)
  | None => mret tt
  end.

(** Modelled from the spec: [streamfx::obs::weak_source(name)], whose
    code is not in this file, "resolves name to a live source reference"
    and throws when there is none. *)
Definition weak_source (name : string) : M source :=
  match get_source_by_name e name with
  | Some s => mret s
  | None => throw
  end.

Definition release : M unit :=
  (* Handle the active and showing stuff. *)
  deactivate;;
  hide;;
  (* Release any references. *)
  i ← get_inst;
  drop_active_child (_input_child i);;
  modify_inst (set_input_child None);;
  modify_inst (set_input None).

Definition acquire (name : string) : M bool :=
  try_catch
    ((* Try and acquire the source. *)
     s ← weak_source name;
     modify_inst (set_input (Some s));;
     (* Ensure that this wouldn't cause recursion. *)
     i ← get_inst;
     c ← source_active_child (lock (source_alive e) (_input i));
     drop_active_child (_input_child i);;
     modify_inst (set_input_child (Some c));;
     (* Handle the active and showing stuff. *)
     activate;;
     show;;
     mret true)
    (release;; mret false).
End Binding.

(** ** The settings object

    [obs_data_t] as the filter uses it: string, double and integer items
    under string keys, each read falling back to the registered default and
    then to the empty string or zero.  Every key of the filter is used under
    one type only, so the items are kept per type. *)

Record obs_data := {
  d_strings : gmap string string;
  d_doubles : gmap string binary64;
  d_ints : gmap string Z;
  d_default_doubles : gmap string binary64;
  d_default_ints : gmap string Z
}.

Definition obs_data_get_string (d : obs_data) (k : string) : string :=
  default EmptyString (d_strings d !! k).

Definition obs_data_get_double (d : obs_data) (k : string) : binary64 :=
  match d_doubles d !! k with
  | Some v => v
  | None => default d_zero (d_default_doubles d !! k)
  end.

Definition obs_data_get_int (d : obs_data) (k : string) : Z :=
  match d_ints d !! k with
  | Some v => v
  | None => default 0 (d_default_ints d !! k)
  end.

Definition obs_data_set_string (d : obs_data) (k v : string) : obs_data :=
  {| d_strings := <[k := v]> (d_strings d); d_doubles := d_doubles d;
     d_ints := d_ints d; d_default_doubles := d_default_doubles d;
     d_default_ints := d_default_ints d |}.

Definition obs_data_set_double (d : obs_data) (k : string) (v : binary64) : obs_data :=
  {| d_strings := d_strings d; d_doubles := <[k := v]> (d_doubles d);
     d_ints := d_ints d; d_default_doubles := d_default_doubles d;
     d_default_ints := d_default_ints d |}.

Definition obs_data_set_default_double (d : obs_data) (k : string) (v : binary64) : obs_data :=
  {| d_strings := d_strings d; d_doubles := d_doubles d;
     d_ints := d_ints d; d_default_doubles := <[k := v]> (d_default_doubles d);
     d_default_ints := d_default_ints d |}.

Definition obs_data_set_default_int (d : obs_data) (k : string) (v : Z) : obs_data :=
  {| d_strings := d_strings d; d_doubles := d_doubles d;
     d_ints := d_ints d; d_default_doubles := d_default_doubles d;
     d_default_ints := <[k := v]> (d_default_ints d) |}.

Definition ST_KEY_INPUT : string := "Filter.DynamicMask.Input".
Definition ST_KEY_CHANNEL : string := "Filter.DynamicMask.Channel".
Definition ST_KEY_CHANNEL_VALUE : string := "Filter.DynamicMask.Channel.Value".
Definition ST_KEY_CHANNEL_MULTIPLIER : string := "Filter.DynamicMask.Channel.Multiplier".
Definition ST_KEY_CHANNEL_INPUT : string := "Filter.DynamicMask.Channel.Input".
Definition ST_KEY_DEBUG_TEXTURE : string := "Debug.Texture".

(** [for (auto x : l) body] *)
Fixpoint for_each {A} (l : list A) (body : A -> M unit) : M unit :=
  match l with
  | [] => mret tt
  | x :: l' => body x;; for_each l' body
  end.

(** The same loop over a local that the body rebinds. *)
Fixpoint for_each_with {A B} (l : list A) (body : B -> A -> M B) (b : B) : M B :=
  match l with
  | [] => mret b
  | x :: l' => b' ← body b x; for_each_with l' body b'
  end.

Section Parameters.
(** The channel names [S_CHANNEL_RED] ... [S_CHANNEL_ALPHA] and the value
    of a default-constructed [channel_data] are defined outside this file;
    everything below holds for any choice of them. *)
Variables S_CHANNEL_RED S_CHANNEL_GREEN S_CHANNEL_BLUE S_CHANNEL_ALPHA : string.
Variable channel_data_init : channel_data.

Definition channel_translations : list (channel * string) :=
  [ (Red, S_CHANNEL_RED); (Green, S_CHANNEL_GREEN);
    (Blue, S_CHANNEL_BLUE); (Alpha, S_CHANNEL_ALPHA) ].

Definition chv_key (name : string) : string :=
  ST_KEY_CHANNEL_VALUE +:+ "." +:+ name.
Definition chm_key (name : string) : string :=
  ST_KEY_CHANNEL_MULTIPLIER +:+ "." +:+ name.
Definition ab_key (name1 name2 : string) : string :=
  ST_KEY_CHANNEL_INPUT +:+ "." +:+ name1 +:+ "." +:+ name2.

(** [found = _channels.find(c)], inserting a fresh element when there is
    none, and throwing if the element is still missing afterwards. *)
Definition find_or_insert (c : channel) : M unit :=
  i ← get_inst;
  match _channels i !! c with
  | Some _ => mret tt
  | None =>
      modify_inst (set_channels (<[c := channel_data_init]> (_channels i)));;
      i' ← get_inst;
      match _channels i' !! c with
      | Some _ => mret tt
      | None => throw
      end
  end.

(** [found->second], read through the iterator [find_or_insert] left
    valid. *)
Definition found_second (c : channel) (i : dynamic_mask_instance) : channel_data :=
  default channel_data_init (_channels i !! c).

Definition update_found (c : channel) (f : channel_data -> channel_data) : M unit :=
  modify_inst (fun i => set_channels (alter f c (_channels i)) i).

Definition update_precalc (f : precalc_data -> precalc_data) : M unit :=
  modify_inst (fun i => set_precalc (f (_precalc i)) i).

(** The body of the loop over [channel_translations] in [update]. *)
Definition update_channel (settings : obs_data) (kv1 : channel * string) : M unit :=
  find_or_insert kv1.1;;
  update_found kv1.1
    (set_value (to_float (obs_data_get_double settings (chv_key kv1.2))));;
  i ← get_inst;
  update_precalc (fun p =>
    set_p_base (vec4_ptr_set (channel_index kv1.1)
                  (value (found_second kv1.1 i)) (p_base p)) p);;
  update_found kv1.1
    (set_scale (to_float (obs_data_get_double settings (chm_key kv1.2))));;
  i ← get_inst;
  update_precalc (fun p =>
    set_p_scale (vec4_ptr_set (channel_index kv1.1)
                   (scale (found_second kv1.1 i)) (p_scale p)) p);;
  for_each channel_translations (fun kv2 =>
    update_found kv1.1 (fun d =>
      set_values (vec4_ptr_set (channel_index kv2.1)
                    (to_float (obs_data_get_double settings (ab_key kv1.2 kv2.2)))
                    (values d)) d);;
    i ← get_inst;
    update_precalc (fun p =>
      set_p_matrix
        (set_matrix_row kv1.1
           (vec4_ptr_set (channel_index kv2.1)
              (vec4_ptr (values (found_second kv1.1 i)) (channel_index kv2.1))
              (matrix_row kv1.1 (p_matrix p)))
           (p_matrix p)) p)).

Definition update (e : bind_env) (settings : obs_data) : M unit :=
  (* Update source. *)
  (let v := obs_data_get_string settings ST_KEY_INPUT in
   if negb (String.eqb v "") then
     acquired ← acquire e v;
     when (negb acquired) (call (log_error "Failed to acquire Input source."))
   else release e);;
  (* Update data store *)
  for_each channel_translations (update_channel settings);;
  modify_inst (set_debug_texture (obs_data_get_int settings ST_KEY_DEBUG_TEXTURE)).

(** The body of the loop over [channel_translations] in [save]. *)
Definition save_channel (settings : obs_data) (kv1 : channel * string) : M obs_data :=
  find_or_insert kv1.1;;
  i ← get_inst;
  let settings :=
    obs_data_set_double settings (chv_key kv1.2)
      (to_double (value (found_second kv1.1 i))) in
  let settings :=
    obs_data_set_double settings (chm_key kv1.2)
      (to_double (scale (found_second kv1.1 i))) in
  for_each_with channel_translations (fun settings kv2 =>
    mret (obs_data_set_double settings (ab_key kv1.2 kv2.2)
            (to_double (vec4_ptr (values (found_second kv1.1 i))
                          (channel_index kv2.1)))))
    settings.

Definition save (e : bind_env) (settings : obs_data) : M obs_data :=
  i ← get_inst;
  let settings :=
    match lock (source_alive e) (_input i) with
    | Some source => obs_data_set_string settings ST_KEY_INPUT (source_name e source)
    | None => settings
    end in
  for_each_with channel_translations save_channel settings.

Definition get_defaults2 (data : obs_data) : obs_data :=
  let data := obs_data_set_default_int data ST_KEY_CHANNEL (Z.of_nat (channel_index Red)) in
  let data :=
    fold_left (fun data kv =>
      let data := obs_data_set_default_double data (chv_key kv.2) d_one in
      let data := obs_data_set_default_double data (chm_key kv.2) d_one in
      fold_left (fun data kv2 =>
        obs_data_set_default_double data (ab_key kv.2 kv2.2) d_zero)
        channel_translations data)
      channel_translations data in
  obs_data_set_default_int data ST_KEY_DEBUG_TEXTURE (-1).
(** *** What the parameter code is expected to compute *)

(** What [update] stores for the channel called [name]. *)
Definition read_channel (settings : obs_data) (name : string) : channel_data :=
  {| value := to_float (obs_data_get_double settings (chv_key name));
     scale := to_float (obs_data_get_double settings (chm_key name));
     values :=
       {| vx := to_float (obs_data_get_double settings (ab_key name S_CHANNEL_RED));
          vy := to_float (obs_data_get_double settings (ab_key name S_CHANNEL_GREEN));
          vz := to_float (obs_data_get_double settings (ab_key name S_CHANNEL_BLUE));
          vw := to_float (obs_data_get_double settings (ab_key name S_CHANNEL_ALPHA)) |} |}.

(** What [update] leaves in [_precalc] for one channel. *)
Definition precalc_channel (c : channel) (d : channel_data) (p : precalc_data) : precalc_data :=
  {| p_base := vec4_ptr_set (channel_index c) (value d) (p_base p);
     p_scale := vec4_ptr_set (channel_index c) (scale d) (p_scale p);
     p_matrix := set_matrix_row c (values d) (p_matrix p) |}.

(** The transform [update] leaves in [_precalc]: offsets, scales, and
    one matrix row per output channel. *)
Definition stored_precalc (settings : obs_data) : precalc_data :=
  {| p_base := {| vx := value (read_channel settings S_CHANNEL_RED);
                  vy := value (read_channel settings S_CHANNEL_GREEN);
                  vz := value (read_channel settings S_CHANNEL_BLUE);
                  vw := value (read_channel settings S_CHANNEL_ALPHA) |};
     p_scale := {| vx := scale (read_channel settings S_CHANNEL_RED);
                   vy := scale (read_channel settings S_CHANNEL_GREEN);
                   vz := scale (read_channel settings S_CHANNEL_BLUE);
                   vw := scale (read_channel settings S_CHANNEL_ALPHA) |};
     p_matrix := {| mx := values (read_channel settings S_CHANNEL_RED);
                    my := values (read_channel settings S_CHANNEL_GREEN);
                    mz := values (read_channel settings S_CHANNEL_BLUE);
                    mt := values (read_channel settings S_CHANNEL_ALPHA) |} |}.

Definition stored_channels (settings : obs_data) (m : gmap channel channel_data) :
    gmap channel channel_data :=
  <[Alpha := read_channel settings S_CHANNEL_ALPHA]>
    (<[Blue := read_channel settings S_CHANNEL_BLUE]>
       (<[Green := read_channel settings S_CHANNEL_GREEN]>
          (<[Red := read_channel settings S_CHANNEL_RED]> m))).

(** What [save] writes for the channel called [name] holding [d]. *)
Definition channel_writes (name : string) (d : channel_data) : list (string * binary64) :=
  [ (chv_key name, to_double (value d));
    (chm_key name, to_double (scale d));
    (ab_key name S_CHANNEL_RED, to_double (vx (values d)));
    (ab_key name S_CHANNEL_GREEN, to_double (vy (values d)));
    (ab_key name S_CHANNEL_BLUE, to_double (vz (values d)));
    (ab_key name S_CHANNEL_ALPHA, to_double (vw (values d))) ].

(** The keys [update] reads as numbers for one channel, and for all. *)
Definition channel_keys (name : string) : list string :=
  [ chv_key name; chm_key name;
    ab_key name S_CHANNEL_RED; ab_key name S_CHANNEL_GREEN;
    ab_key name S_CHANNEL_BLUE; ab_key name S_CHANNEL_ALPHA ].

Definition numeric_keys : list string :=
  channel_keys S_CHANNEL_RED ++ channel_keys S_CHANNEL_GREEN ++
  channel_keys S_CHANNEL_BLUE ++ channel_keys S_CHANNEL_ALPHA.

(** The default registrations of [get_defaults2], in order. *)
Definition channel_defaults (name : string) : list (string * binary64) :=
  [ (chv_key name, d_one); (chm_key name, d_one);
    (ab_key name S_CHANNEL_RED, d_zero); (ab_key name S_CHANNEL_GREEN, d_zero);
    (ab_key name S_CHANNEL_BLUE, d_zero); (ab_key name S_CHANNEL_ALPHA, d_zero) ].

Definition registered_defaults : list (string * binary64) :=
  channel_defaults S_CHANNEL_RED ++ channel_defaults S_CHANNEL_GREEN ++
  channel_defaults S_CHANNEL_BLUE ++ channel_defaults S_CHANNEL_ALPHA.
End Parameters.

(** ** Per-tick negotiation *)

(** What the host answers during one [video_tick]. *)
Record tick_env := {
  tick_alive : source -> bool;
  target_color_space : gs_color_space;
  target_output_flags : Z;
  input_color_space : source -> gs_color_space;
  input_output_flags : source -> Z
}.

Definition video_tick (e : tick_env) : M unit :=
  (* Base Information *)
  modify_inst (set_have_base false);;
  modify_inst (set_base_color_space (target_color_space e));;
  i ← get_inst;
  modify_inst (set_base_color_format
    (if _base_color_space i =? GS_CS_SRGB then GS_RGBA
     else if (_base_color_space i =? GS_CS_SRGB_16F)
             || (_base_color_space i =? GS_CS_709_EXTENDED)
             || (_base_color_space i =? GS_CS_709_SCRGB) then GS_RGBA16F
     else GS_RGBA_UNORM));;
  (if Z.land (target_output_flags e) OBS_SOURCE_SRGB =? OBS_SOURCE_SRGB then
     modify_inst (set_base_srgb (_base_color_space i <=? GS_CS_SRGB_16F))
   else
     modify_inst (set_base_srgb false));;
  match lock (tick_alive e) (_input i) with
  | Some input =>
      (* Input Information *)
      modify_inst (set_have_input false);;
      modify_inst (set_input_color_space (input_color_space e input));;
      i ← get_inst;
      modify_inst (set_input_color_format
        (if _input_color_space i =? GS_CS_SRGB then GS_RGBA
         else if (_input_color_space i =? GS_CS_SRGB_16F)
                 || (_input_color_space i =? GS_CS_709_EXTENDED)
                 || (_input_color_space i =? GS_CS_709_SCRGB) then GS_RGBA16F
         else GS_RGBA_UNORM));;
      (if Z.land (input_output_flags e input) OBS_SOURCE_SRGB =? OBS_SOURCE_SRGB then
         modify_inst (set_input_srgb (_base_color_space i <=? GS_CS_SRGB_16F))
       else
         modify_inst (set_input_srgb false))
  | None =>
      modify_inst (set_have_input false)
  end;;
  modify_inst (set_have_final false);;
  i ← get_inst;
  modify_inst (set_final_srgb (_base_srgb i)).

(** ** Rendering *)

(** What the host answers during one [video_render]: the sizes it reports,
    which of the steps inside the [try] blocks succeed, what foreign drawing
    leaves in the sRGB flags, and the texture each render target hands out
    ([None]: [get_texture] throws).  Only what the code wraps in a [try] is
    taken to be able to throw. *)
Record render_env := {
  render_alive : source -> bool;
  context_ok : bool;
  width : Z;
  height : Z;
  input_width : Z;
  input_height : Z;
  filter_begin : bool;
  render_begun : slot -> bool;
  draw_succeeds : slot -> bool;
  foreign_framebuffer_srgb : slot -> bool -> bool;
  foreign_linear_srgb : slot -> bool -> bool;
  rendertarget_texture : slot -> option texture;
  image_param : bool
}.

Inductive render_result := Drawn (t : texture) | Skipped.

(** [tex->get_object()]: the call goes through the pointer, so on an empty
    [shared_ptr] the behaviour is undefined. *)
Definition get_object (t : option texture) : M Z :=
  match t with
  | Some object => mret object
  | None => undefined
  end.

Section Render.
Variable e : render_env.

(** Drawing done by somebody else (the filter chain below the filter, the
    input source): it may leave the sRGB flags changed. *)
Definition foreign (s : slot) : M unit :=
  modify_host (fun h =>
    set_linear_srgb (foreign_linear_srgb e s (linear_srgb h))
      (set_framebuffer_srgb (foreign_framebuffer_srgb e s (framebuffer_srgb h)) h)).

(** [std::make_shared<rendertarget>(format, GS_ZS_NONE)] *)
Definition make_rendertarget (format : gs_color_format) : rendertarget :=
  {| get_color_format := format |}.

Definition needs_rendertarget (rt : option rendertarget) (format : gs_color_format) : bool :=
  match rt with
  | None => true
  | Some r => negb (bool_decide (get_color_format r = format))
  end.

(** [{ auto op = rt->render(w, h); body }]: beginning the render may
    throw; the operation object ends it when the block is left, normally
    or not. *)
Definition render_into (s : slot) (w h : Z) (body : M unit) : M unit :=
  if render_begun e s then
    call (texrender_begin s w h);;
    finally body (call (texrender_end s))
  else throw.

(** The state block the three captures share: a fresh blend state,
    everything that could mask the draw switched off, an orthographic
    projection, a clear, then [draw]. *)
Definition isolated (right bottom : binary32) (draw : M unit) : M unit :=
  (* Push a new blend state to stack. *)
  call gs_blend_state_push;;
  call gs_reset_blend_state;;
  call (gs_enable_blending false);;
  call gs_blend_function_one_zero;;
  try_catch
    ((* Enable all channels. *)
     call gs_enable_color_all;;
     (* Disable culling. *)
     call gs_set_cull_mode_neither;;
     (* Disable depth testing. *)
     call (gs_enable_depth_test false);;
     call gs_depth_function_always;;
     (* Disable stencil testing *)
     call (gs_enable_stencil_test false);;
     call (gs_enable_stencil_write false);;
     call gs_stencil_function_always;;
     call gs_stencil_op_keep;;
     (* Set up rendering matrix. *)
     call (gs_ortho right bottom);;
     (* Clear to black. *)
     call gs_clear;;
     draw;;
     (* Pop the old blend state. *)
     call gs_blend_state_pop)
    (call gs_blend_state_pop;; throw).

Definition process_filter_end_default : M unit :=
  call (process_filter_end (width e) (height e));;
  foreign Base.

(** Capture the base texture for later rendering. *)
Definition capture_base : M unit :=
  i ← get_inst;
  when (negb (_have_base i))
    ((* Ensure the Render Target matches the expected format. *)
     when (needs_rendertarget (_base_rt i) (_base_color_format i))
       (modify_inst (set_base_rt (Some (make_rendertarget (_base_color_format i)))));;
     previous_srgb ← gs_framebuffer_srgb_enabled;
     previous_lsrgb ← gs_get_linear_srgb;
     gs_set_linear_srgb (_base_srgb i);;
     gs_enable_framebuffer_srgb false;;
     (* Begin rendering the source with a certain color space. *)
     call (process_filter_begin (_base_color_format i) (_base_color_space i));;
     foreign Base;;
     when (filter_begin e)
       (try_catch
          (render_into Base (width e) (height e)
             (isolated (uint_to_float (width e)) (uint_to_float (height e))
                ((* Render the source. *)
                 if draw_succeeds e Base then process_filter_end_default else throw));;
           modify_inst (set_have_base true);;
           match rendertarget_texture e Base with
           | Some t => modify_inst (set_base_tex (Some t))
           | None => throw
           end)
          (process_filter_end_default;;
           call (log_error "Failed to capture base texture.")));;
     gs_set_linear_srgb previous_lsrgb;;
     gs_enable_framebuffer_srgb previous_srgb).

(** Capture the input texture for later rendering. *)
Definition capture_input (input : option source) : M unit :=
  i ← get_inst;
  when (negb (_have_input i))
    match input with
    | None =>
        (* Treat no selection as selecting the target filter. *)
        modify_inst (set_have_input (_have_base i));;
        modify_inst (set_input_tex (_base_tex i));;
        modify_inst (set_input_color_format (_base_color_format i));;
        modify_inst (set_input_color_space (_base_color_space i))
    | Some input =>
        (* Ensure the Render Target matches the expected format. *)
        when (needs_rendertarget (_input_rt i) (_input_color_format i))
          (modify_inst (set_input_rt (Some (make_rendertarget (_input_color_format i)))));;
        previous_lsrgb ← gs_get_linear_srgb;
        gs_set_linear_srgb (_input_srgb i);;
        previous_srgb ← gs_framebuffer_srgb_enabled;
        gs_enable_framebuffer_srgb false;;
        try_catch
          (render_into Input (input_width e) (input_height e)
             (isolated (uint_to_float (input_width e)) (uint_to_float (input_height e))
                ((* Render the source. *)
                 if draw_succeeds e Input then
                   call (obs_source_video_render input);; foreign Input
                 else throw));;
           modify_inst (set_have_input true);;
           match rendertarget_texture e Input with
           | Some t => modify_inst (set_input_tex (Some t))
           | None => throw
           end)
          (call (log_error "Failed to capture input texture."));;
        gs_enable_framebuffer_srgb previous_srgb;;
        gs_set_linear_srgb previous_lsrgb
    end.

(** Capture the final texture. *)
Definition capture_final : M unit :=
  i ← get_inst;
  when (negb (_have_final i) && _have_base i)
    ((* Ensure the Render Target matches the expected format. *)
     when (needs_rendertarget (_final_rt i) (_base_color_format i))
       (modify_inst (set_final_rt (Some (make_rendertarget (_base_color_format i)))));;
     previous_srgb ← gs_framebuffer_srgb_enabled;
     previous_lsrgb ← gs_get_linear_srgb;
     gs_enable_framebuffer_srgb (_final_srgb i);;
     gs_set_linear_srgb (_final_srgb i);;
     try_catch
       (render_into Final (width e) (height e)
          (isolated f_one f_one
             (if draw_succeeds e Final then
                call (effect_set_texture "pMaskInputA" (_base_tex i) (_base_srgb i));;
                call (effect_set_texture "pMaskInputB" (_input_tex i) (_input_srgb i));;
                call (effect_set_float4 "pMaskBase" (p_base (_precalc i)));;
                call (effect_set_matrix "pMaskMatrix" (p_matrix (_precalc i)));;
                call (effect_set_float4 "pMaskMultiplier" (p_scale (_precalc i)));;
                call effect_loop_mask
              else throw));;
        match rendertarget_texture e Final with
        | Some t => modify_inst (set_final_tex (Some t))
        | None => throw
        end;;
        modify_inst (set_have_final true))
       (call (log_error "Failed to render final texture."));;
     gs_set_linear_srgb previous_lsrgb;;
     gs_enable_framebuffer_srgb previous_srgb).

(** Enable texture debugging *)
Definition debug_texture_override : M unit :=
  i ← get_inst;
  if _debug_texture i =? 0 then
    modify_inst (set_have_final (_have_base i));;
    modify_inst (set_final_tex (_base_tex i))
  else if _debug_texture i =? 1 then
    modify_inst (set_have_final (_have_input i));;
    modify_inst (set_final_tex (_input_tex i))
  else mret tt.

(** Abort if there is no final render, else draw it. *)
Definition draw_final : M render_result :=
  i ← get_inst;
  (* !_have_final || !_final_tex->get_object(), evaluated left to right *)
  abort ← (if negb (_have_final i) then mret true
           else object ← get_object (_final_tex i); mret (object =? 0));
  if abort : bool then
    call skip_video_filter;;
    mret Skipped
  else
    call gs_set_cull_mode_neither;;
    call gs_enable_color_all;;
    call (gs_enable_depth_test false);;
    call gs_depth_function_always;;
    call (gs_enable_stencil_test false);;
    call (gs_enable_stencil_write false);;
    call gs_stencil_function_always;;
    call gs_stencil_op_zero;;
    previous_srgb ← gs_framebuffer_srgb_enabled;
    linear ← gs_get_linear_srgb;
    gs_enable_framebuffer_srgb linear;;
    if negb (image_param e) then
      call (log_error "Failed to set image param.");;
      gs_enable_framebuffer_srgb previous_srgb;;
      call skip_video_filter;;
      mret Skipped
    else
      linear ← gs_get_linear_srgb;
      object ← get_object (_final_tex i);
      call (effect_set_image object linear);;
      call (effect_loop_draw (width e) (height e));;
      gs_enable_framebuffer_srgb previous_srgb;;
      mret (Drawn object).

(** The guard at the head of [video_render]. *)
Definition nothing_to_render (input : option source) : bool :=
  if negb (context_ok e) || (width e =? 0) || (height e =? 0) then true
  else if bool_decide (is_Some input) && ((input_width e =? 0) || (input_height e =? 0))
  then true
  else false.

Definition video_render : M render_result :=
  i ← get_inst;
  let input := lock (render_alive e) (_input i) in
  (* If there's some issue acquiring information, skip rendering entirely. *)
  if nothing_to_render input then
    call skip_video_filter;;
    mret Skipped
  else
    capture_base;;
    capture_input input;;
    capture_final;;
    debug_texture_override;;
    draw_final.
End Render.

(** ** A freshly constructed filter

    The member initialisers of the constructor (the three [_srgb] flags, which
    it leaves out, start cleared) and a host that holds nothing yet. *)
Definition zero_vec4 : vec4 :=
  {| vx := B32 false 0 0; vy := B32 false 0 0; vz := B32 false 0 0; vw := B32 false 0 0 |}.

Definition initial_instance : dynamic_mask_instance :=
  {| _input := None; _input_child := None; _input_vs := None; _input_ac := None;
     _have_base := false; _base_rt := None; _base_tex := None;
     _base_color_space := GS_CS_SRGB; _base_color_format := GS_RGBA;
     _base_srgb := false;
     _have_input := false; _input_rt := None; _input_tex := None;
     _input_color_space := GS_CS_SRGB; _input_color_format := GS_RGBA;
     _input_srgb := false;
     _have_final := false; _final_rt := None; _final_tex := None;
     _final_srgb := false;
     _channels := ∅;
     _precalc := {| p_base := zero_vec4; p_scale := zero_vec4;
                    p_matrix := {| mx := zero_vec4; my := zero_vec4;
                                   mz := zero_vec4; mt := zero_vec4 |} |};
     _debug_texture := -1 |}.

Definition initial_host : host :=
  {| framebuffer_srgb := false; linear_srgb := false;
     showing_refs := ∅; active_refs := ∅; active_children := []; calls := [] |}.

Definition empty_data : obs_data :=
  {| d_strings := ∅; d_doubles := ∅; d_ints := ∅;
     d_default_doubles := ∅; d_default_ints := ∅ |}.

(** ** Vocabulary of the statements, and the inputs they are tried on *)

(** The flag test of [video_tick]. *)
Definition declares_srgb (flags : Z) : bool :=
  Z.land flags OBS_SOURCE_SRGB =? OBS_SOURCE_SRGB.

(** A base in plain sRGB and a bound input that declares sRGB output but
    delivers the extended (HDR) space. *)
Definition hdr_input_tick : tick_env :=
  {| tick_alive := fun _ => true;
     target_color_space := GS_CS_SRGB;
     target_output_flags := OBS_SOURCE_SRGB;
     input_color_space := fun _ => GS_CS_709_EXTENDED;
     input_output_flags := fun _ => OBS_SOURCE_SRGB |}.

(** A host in which every step succeeds except the ones named. *)
Definition render_answers (begun drawn : slot -> bool)
    (tex : slot -> option texture) : render_env :=
  {| render_alive := fun _ => true;
     context_ok := true;
     width := 1920; height := 1080;
     input_width := 1280; input_height := 720;
     filter_begin := true;
     render_begun := begun;
     draw_succeeds := drawn;
     foreign_framebuffer_srgb := fun _ b => b;
     foreign_linear_srgb := fun _ b => b;
     rendertarget_texture := tex;
     image_param := true |}.

Definition all_slots (_ : slot) : bool := true.

(** The upstream chain is drawn, then [_base_rt->get_texture(_base_tex)]
    throws; likewise for the input. *)
Definition get_texture_throws : render_env :=
  render_answers all_slots all_slots
    (fun s => match s with Final => Some 13 | _ => None end).

(** The upstream filter chain reports a width of zero. *)
Definition zero_width_render : render_env :=
  {| render_alive := fun _ => true; context_ok := true;
     width := 0; height := 1080; input_width := 1280; input_height := 720;
     filter_begin := true; render_begun := all_slots; draw_succeeds := all_slots;
     foreign_framebuffer_srgb := fun _ b => b;
     foreign_linear_srgb := fun _ b => b;
     rendertarget_texture := fun _ => Some 11; image_param := true |}.

(** The log grows at its head; [log_extends P old l] says that [l] is [old]
    with further calls in front, each satisfying [P]. *)
Inductive log_extends (P : gs_call -> bool) (old : list gs_call) : list gs_call -> Prop :=
| log_same : log_extends P old old
| log_more c l : P c = true -> log_extends P old l -> log_extends P old (c :: l).

(** A call that renders the secondary source in a pass of its own. *)
Definition renders_input (c : gs_call) : bool :=
  match c with
  | obs_source_video_render _ => true
  | texrender_begin Input _ _ => true
  | _ => false
  end.

Definition no_input_pass (c : gs_call) : bool := negb (renders_input c).

(** How the last stage ends, by what the final slot holds: with nothing to
    show the host is asked to skip the filter; a texture is drawn; and a slot
    flagged valid with no texture in it sends [get_object] through the empty
    pointer. *)
Definition presented (e : render_env) (i : dynamic_mask_instance) : result render_result :=
  if negb (_have_final i) then Return Skipped
  else match _final_tex i with
       | None => Undefined
       | Some object =>
           if (object =? 0) || negb (image_param e) then Return Skipped
           else Return (Drawn object)
       end.

(** The state the capture stages leave, with the mixing pass done. *)
Definition after_captures (e : render_env) (s : state) : state :=
  (capture_final e
     (capture_input e (lock (render_alive e) (_input s.2)) (capture_base e s).2).2).2.

(** A host in which both captures and the mixing pass succeed. *)
Definition smooth_render : render_env :=
  render_answers all_slots all_slots
    (fun s => match s with Base => Some 11 | Input => Some 12 | Final => Some 13 end).

Definition debug_base_state : state :=
  (initial_host, set_debug_texture 0 initial_instance).

(** The calls by which a render call hands something, or nothing, to the
    host. *)
Definition presents (c : gs_call) : bool :=
  match c with
  | effect_set_image _ _ | effect_loop_draw _ _ | skip_video_filter => true
  | _ => false
  end.

(** [logged_since old c l]: [c] is among the calls [l] has in front of
    [old]. *)
Inductive logged_since (old : list gs_call) (c : gs_call) : list gs_call -> Prop :=
| logged_here l : log_extends (fun _ => true) old l -> logged_since old c (c :: l)
| logged_earlier c' l : logged_since old c l -> logged_since old c (c' :: l).

(** The base is captured, the draw of the bound input throws, the mixing
    pass succeeds. *)
Definition input_draw_throws : render_env :=
  render_answers all_slots
    (fun s => match s with Input => false | _ => true end)
    (fun s => match s with Base => Some 11 | Input => Some 12 | Final => Some 13 end).

Definition bound_state : state :=
  (initial_host, set_input (Some 7%nat) initial_instance).

(** The secondary slot is the base slot under another name. *)
Definition aliases_base (i : dynamic_mask_instance) : Prop :=
  _input_tex i = _base_tex i /\
  _input_color_space i = _base_color_space i /\
  _input_color_format i = _base_color_format i.

(** What holds between the tick and every render call of an unbound
    filter: the two validity flags agree, and once they are set the
    secondary slot aliases the base slot. *)
Definition unbound_tick (i : dynamic_mask_instance) : Prop :=
  _input i = None /\
  _have_input i = _have_base i /\
  (_have_base i = true -> aliases_base i).

(** The render calls of one tick, in order. *)
Definition render_calls (es : list render_env) : M unit :=
  for_each es (fun e => video_render e;; mret tt).

Definition srgb_tick : tick_env :=
  {| tick_alive := fun _ => true;
     target_color_space := GS_CS_SRGB;
     target_output_flags := OBS_SOURCE_SRGB;
     input_color_space := fun _ => GS_CS_SRGB;
     input_output_flags := fun _ => OBS_SOURCE_SRGB |}.

(** Nothing is bound and no reference is held. *)
Definition unbound (i : dynamic_mask_instance) : Prop :=
  _input i = None /\ _input_child i = None /\ _input_vs i = None /\ _input_ac i = None.

(** The count [m] after dropping the reference [held]. *)
Definition dropped (alive : source -> bool) (held : option source)
    (m : gmap source Z) : gmap source Z :=
  match lock alive held with
  | Some a => <[a := refs m a - 1]> m
  | None => m
  end.

Definition released_host (e : bind_env) (i : dynamic_mask_instance) (h : host) : host :=
  {| framebuffer_srgb := framebuffer_srgb h;
     linear_srgb := linear_srgb h;
     showing_refs := dropped (source_alive e) (_input_vs i) (showing_refs h);
     active_refs := dropped (source_alive e) (_input_ac i) (active_refs h);
     active_children :=
       match lock (source_alive e) (_input_child i) with
       | Some c => remove_child c (active_children h)
       | None => active_children h
       end;
     calls := calls h |}.

Definition released_instance (i : dynamic_mask_instance) : dynamic_mask_instance :=
  set_input None (set_input_child None (set_input_vs None (set_input_ac None i))).

(** The attempt cannot succeed: the name resolves to nothing, or the
    resolved source is gone again, or the host refuses it as a child because
    it would render the filter's own parent. *)
Definition acquisition_fails (e : bind_env) (name : string) : Prop :=
  match get_source_by_name e name with
  | None => True
  | Some c => source_alive e c && add_active_child e c = false
  end.

(** A source at handle 7 that the filter can bind, then shows and keeps
    active. *)
Definition camera_env : bind_env :=
  {| get_source_by_name := fun _ => Some 7%nat;
     add_active_child := fun _ => true;
     source_alive := fun _ => true;
     source_name := fun _ => "Camera";
     self_active := true; parent_active := true;
     self_showing := true; parent_showing := true |}.

(** The same host once the name no longer resolves. *)
Definition gone_env : bind_env :=
  {| get_source_by_name := fun _ => None;
     add_active_child := fun _ => true;
     source_alive := fun _ => true;
     source_name := fun _ => "Camera";
     self_active := true; parent_active := true;
     self_showing := true; parent_showing := true |}.

Definition camera_bound : state :=
  (acquire camera_env "Camera" (initial_host, initial_instance)).2.

(** A run of [obs_data_set_double] calls. *)
Definition obs_data_set_doubles (ws : list (string * binary64)) (d : obs_data) : obs_data :=
  fold_left (fun d kv => obs_data_set_double d kv.1 kv.2) ws d.

(** Channel names and a default-constructed entry to run the code on. *)
Definition fresh_channel_data : channel_data :=
  {| value := B32 false 0 0; scale := B32 false 127 0; values := zero_vec4 |}.

Definition update_named : bind_env -> obs_data -> M unit :=
  update "Red" "Green" "Blue" "Alpha" fresh_channel_data.
Definition save_named : bind_env -> obs_data -> M obs_data :=
  save "Red" "Green" "Blue" "Alpha" fresh_channel_data.
Definition get_defaults2_named : obs_data -> obs_data :=
  get_defaults2 "Red" "Green" "Blue" "Alpha".

(** Settings that put the red offset at 1000.0, far outside the slider
    range; every other key is left at zero. *)
Definition offset_1000 : obs_data :=
  obs_data_set_double empty_data (chv_key "Red") (B64 false 1032 4292493394837504).

(** ** Further vocabulary: the remaining entry points and what is said about them *)

(** [video_get_color_space]: the filter reports the space negotiated for the
    base, whatever the host prefers. *)
Definition video_get_color_space (count : nat) (preferred_spaces : list gs_color_space) :
    M gs_color_space :=
  i ← get_inst; mret (_base_color_space i).

(** Two instances agree on everything a render call has no business
    changing: the binding, the parameters, the debug selector, and what the
    tick negotiated for the base. *)
Definition same_configuration (i i' : dynamic_mask_instance) : Prop :=
  _input i' = _input i /\ _input_child i' = _input_child i /\
  _input_vs i' = _input_vs i /\ _input_ac i' = _input_ac i /\
  _base_color_space i' = _base_color_space i /\
  _base_color_format i' = _base_color_format i /\
  _base_srgb i' = _base_srgb i /\ _input_srgb i' = _input_srgb i /\
  _final_srgb i' = _final_srgb i /\
  _channels i' = _channels i /\ _precalc i' = _precalc i /\
  _debug_texture i' = _debug_texture i.

(** The calls that belong to the capture of one slot. *)
Definition touches (s : slot) (c : gs_call) : bool :=
  match c with
  | process_filter_begin _ _ | process_filter_end _ _ =>
      match s with Base => true | _ => false end
  | obs_source_video_render _ =>
      match s with Input => true | _ => false end
  | effect_set_texture _ _ _ | effect_set_float4 _ _ | effect_set_matrix _ _
  | effect_loop_mask =>
      match s with Final => true | _ => false end
  | texrender_begin s' _ _ | texrender_end s' =>
      match s, s' with
      | Base, Base | Input, Input | Final, Final => true
      | _, _ => false
      end
  | _ => false
  end.

Definition leaves_alone (s : slot) (c : gs_call) : bool := negb (touches s c).

(** What a call adds to the depth of the blend-state stack, and to the
    number of texture renders in progress. *)
Definition blend_depth (c : gs_call) : Z :=
  match c with
  | gs_blend_state_push => 1
  | gs_blend_state_pop => -1
  | _ => 0
  end.

Definition render_depth (c : gs_call) : Z :=
  match c with
  | texrender_begin _ _ _ => 1
  | texrender_end _ => -1
  | _ => 0
  end.

(** [log_sum w old l n]: [l] is [old] with further calls in front whose
    weights add up to [n]. *)
Inductive log_sum (w : gs_call -> Z) (old : list gs_call) : list gs_call -> Z -> Prop :=
| sum_same : log_sum w old old 0
| sum_more c l n m : log_sum w old l n -> m = w c + n -> log_sum w old (c :: l) m.

(** Almost everything a render call tells the host goes into the log:
    [render_step P s s'] says that between [s] and [s'] the host changed in
    its log only, that every call added satisfies [P], and that the calls
    added leave the blend-state stack and the texture renders in progress as
    deep as they were. *)
Definition render_step (P : gs_call -> bool) (s s' : state) : Prop :=
  s'.1 = set_calls (calls s'.1) s.1 /\
  log_extends P (calls s.1) (calls s'.1) /\
  log_sum blend_depth (calls s.1) (calls s'.1) 0 /\
  log_sum render_depth (calls s.1) (calls s'.1) 0.

(** The sum of the weights of a run of calls. *)
Definition net (w : gs_call -> Z) (l : list gs_call) : Z :=
  fold_right (fun c n => w c + n) 0 l.

(** The three members that make up one captured frame. *)
Definition base_slot (i : dynamic_mask_instance) :=
  (_have_base i, _base_rt i, _base_tex i).
Definition input_slot (i : dynamic_mask_instance) :=
  (_have_input i, _input_rt i, _input_tex i).
Definition final_slot (i : dynamic_mask_instance) :=
  (_have_final i, _final_rt i, _final_tex i).


(** A final slot that says it is valid has a texture in it. *)
Definition final_sound (i : dynamic_mask_instance) : Prop :=
  _have_final i = true -> is_Some (_final_tex i).

(** The count [m] after taking one more reference to [c]. *)
Definition taken (c : source) (m : gmap source Z) : gmap source Z :=
  <[c := refs m c + 1]> m.

(** The filter is allowed to forward activity, or visibility, to its
    input. *)
Definition forwards_active (e : bind_env) : bool := self_active e && parent_active e.
Definition forwards_showing (e : bind_env) : bool := self_showing e && parent_showing e.

(** What a successful [acquire] of [c] leaves in the host and in the
    filter. *)
Definition acquired_host (e : bind_env) (c : source) (i : dynamic_mask_instance)
    (h : host) : host :=
  {| framebuffer_srgb := framebuffer_srgb h;
     linear_srgb := linear_srgb h;
     showing_refs :=
       if forwards_showing e
       then dropped (source_alive e) (_input_vs i) (taken c (showing_refs h))
       else showing_refs h;
     active_refs :=
       if forwards_active e
       then dropped (source_alive e) (_input_ac i) (taken c (active_refs h))
       else active_refs h;
     active_children :=
       match lock (source_alive e) (_input_child i) with
       | Some o => remove_child o (c :: active_children h)
       | None => c :: active_children h
       end;
     calls := calls h |}.

Definition acquired_instance (e : bind_env) (c : source) (i : dynamic_mask_instance) :
    dynamic_mask_instance :=
  let i1 := set_input_child (Some c) (set_input (Some c) i) in
  let i2 := if forwards_active e then set_input_ac (Some c) i1 else i1 in
  if forwards_showing e then set_input_vs (Some c) i2 else i2.

(** The name resolves to a live source the host accepts as a child. *)
Definition acquisition_succeeds (e : bind_env) (name : string) (c : source) : Prop :=
  get_source_by_name e name = Some c /\ source_alive e c = true /\
  add_active_child e c = true.

(** Two hosts agree on every count and on the child registrations. *)
Definition same_references (h h' : host) : Prop :=
  (forall x, refs (active_refs h') x = refs (active_refs h) x) /\
  (forall x, refs (showing_refs h') x = refs (showing_refs h) x) /\
  active_children h' = active_children h.

(** ** Construction, loading and destruction *)

Section Lifecycle.
Variables S_CHANNEL_RED S_CHANNEL_GREEN S_CHANNEL_BLUE S_CHANNEL_ALPHA : string.
Variable channel_data_init : channel_data.

(** The member initialisers of the constructor.  [_base_srgb],
    [_input_srgb] and [_final_srgb] are not among them: they keep what
    their declaration, which is not in this file, gives them, and the state
    before the call stands for that. *)
Definition members_initialised (i : dynamic_mask_instance) : dynamic_mask_instance :=
  {| _input := None; _input_child := None; _input_vs := None; _input_ac := None;
     _have_base := false; _base_rt := None; _base_tex := None;
     _base_color_space := GS_CS_SRGB; _base_color_format := GS_RGBA;
     _base_srgb := _base_srgb i;
     _have_input := false; _input_rt := None; _input_tex := None;
     _input_color_space := GS_CS_SRGB; _input_color_format := GS_RGBA;
     _input_srgb := _input_srgb i;
     _have_final := false; _final_rt := None; _final_tex := None;
     _final_srgb := _final_srgb i;
     _channels := ∅;
     _precalc := {| p_base := zero_vec4; p_scale := zero_vec4;
                    p_matrix := {| mx := zero_vec4; my := zero_vec4;
                                   mz := zero_vec4; mt := zero_vec4 |} |};
     _debug_texture := -1 |}.

(** [dynamic_mask_instance::dynamic_mask_instance(settings, self)] *)
Definition dynamic_mask_instance_ctor (e : bind_env) (settings : obs_data) : M unit :=
  modify_inst members_initialised;;
  update S_CHANNEL_RED S_CHANNEL_GREEN S_CHANNEL_BLUE S_CHANNEL_ALPHA
    channel_data_init e settings.

(** [dynamic_mask_instance::~dynamic_mask_instance()] *)
Definition dynamic_mask_instance_dtor (e : bind_env) : M unit :=
  release e.

Definition load (e : bind_env) (settings : obs_data) : M unit :=
  update S_CHANNEL_RED S_CHANNEL_GREEN S_CHANNEL_BLUE S_CHANNEL_ALPHA
    channel_data_init e settings.

Definition migrate (data : obs_data) (version : Z) : M unit := mret tt.

(** What [update] leaves of the binding: the result of [acquire] for a
    name that is not empty, of [release] otherwise. *)
Definition rebound (e : bind_env) (settings : obs_data) (s : state) : state :=
  if negb (String.eqb (obs_data_get_string settings ST_KEY_INPUT) "")
  then (acquire e (obs_data_get_string settings ST_KEY_INPUT) s).2
  else (release e s).2.

(** What the host may call on a filter between its construction and its
    destruction.  The filter, its parent and the sources come and go, so each
    call brings the host's answers of its own. *)
Inductive host_call :=
| call_update (e : bind_env) (settings : obs_data)
| call_load (e : bind_env) (settings : obs_data)
| call_migrate (data : obs_data) (version : Z)
| call_show (e : bind_env)
| call_hide (e : bind_env)
| call_activate (e : bind_env)
| call_deactivate (e : bind_env)
| call_video_tick (e : tick_env)
| call_video_render (e : render_env).

Definition run_call (c : host_call) : M unit :=
  match c with
  | call_update e settings =>
      update S_CHANNEL_RED S_CHANNEL_GREEN S_CHANNEL_BLUE S_CHANNEL_ALPHA
        channel_data_init e settings
  | call_load e settings => load e settings
  | call_migrate data version => migrate data version
  | call_show e => show e
  | call_hide e => hide e
  | call_activate e => activate e
  | call_deactivate e => deactivate e
  | call_video_tick e => video_tick e
  | call_video_render e => video_render e;; mret tt
  end.

End Lifecycle.

(** The answers a call brings about which sources still exist. *)
Definition call_alive (c : host_call) : option (source -> bool) :=
  match c with
  | call_update e _ | call_load e _ | call_show e | call_hide e
  | call_activate e | call_deactivate e => Some (source_alive e)
  | _ => None
  end.

(** No source disappears: every call sees the sources [alive] says. *)
Definition sources_stay (alive : source -> bool) (c : host_call) : Prop :=
  match call_alive c with
  | Some a => forall x, a x = alive x
  | None => True
  end.

(** [holds alive held x]: the reference [held] counts for [x]. *)
Definition holds (alive : source -> bool) (held : option source) (x : source) : Z :=
  if bool_decide (lock alive held = Some x) then 1 else 0.

(** Every count the filter added to the host [h0] is backed by a reference
    it holds, and so is every child registration. *)
Definition references_accounted (alive : source -> bool) (h0 : host) (s : state) : Prop :=
  (forall x, refs (active_refs s.1) x =
             refs (active_refs h0) x + holds alive (_input_ac s.2) x) /\
  (forall x, refs (showing_refs s.1) x =
             refs (showing_refs h0) x + holds alive (_input_vs s.2) x) /\
  active_children s.1 =
    match lock alive (_input_child s.2) with
    | Some c => c :: active_children h0
    | None => active_children h0
    end.

(** A life of the filter on the channel names used for the examples: it is
    bound to the camera, ticked, rendered, shown, and then finds the camera
    gone from the settings. *)
Definition camera_calls : list host_call :=
  [ call_video_tick srgb_tick; call_video_render smooth_render;
    call_show camera_env; call_activate camera_env;
    call_update gone_env (obs_data_set_string empty_data ST_KEY_INPUT "Camera");
    call_video_render smooth_render; call_hide camera_env ].

Definition camera_settings : obs_data :=
  obs_data_set_string empty_data ST_KEY_INPUT "Camera".

(** Every number a channel entry holds is finite. *)
Definition finite_channel (d : channel_data) : bool :=
  is_finite32 (value d) && is_finite32 (scale d) &&
  is_finite32 (vx (values d)) && is_finite32 (vy (values d)) &&
  is_finite32 (vz (values d)) && is_finite32 (vw (values d)).

(** A filter after [update] on the settings with the red offset at
    1000.0. *)
Definition offset_1000_state : state :=
  (update_named gone_env offset_1000 (initial_host, initial_instance)).2.

(** * Properties *)

(** ** Conversions *)

Lemma round_binary32_exact (mant shift q : Z) :
  0 < mant -> 0 < shift ->
  q = Z.max (Z.log2 mant + q) (-126) - 23 ->
  round_binary32 (mant * 2 ^ shift) (q - shift) =
    (let p := (q + 149) * 2 ^ 23 + mant in
     if 255 * 2 ^ 23 <=? p then (255, 0) else (p / 2 ^ 23, p mod 2 ^ 23)).
Proof.
  intros Hm Hs Hq. unfold round_binary32.
  assert (Hp : 0 < 2 ^ shift) by (apply Z.pow_pos_nonneg; lia).
  destruct (Z.eqb_spec (mant * 2 ^ shift) 0) as [E|_]; [nia|].
  rewrite Z.log2_mul_pow2 by lia.
  replace (shift + Z.log2 mant + (q - shift)) with (Z.log2 mant + q) by lia.
  rewrite <- Hq.
  replace (q - (q - shift)) with shift by lia.
  destruct (Z.leb_spec shift 0) as [?|_]; [lia|].
  rewrite Z.div_mul by lia. rewrite Z.mod_mul by lia.
  assert (Hh : 0 < 2 ^ (shift - 1)) by (apply Z.pow_pos_nonneg; lia).
  destruct (Z.ltb_spec (2 ^ (shift - 1)) 0) as [?|_]; [lia|].
  destruct (Z.eqb_spec 0 (2 ^ (shift - 1))) as [?|_]; [lia|].
  reflexivity.
Qed.

(** Widening a finite binary32 number and narrowing it again gives it back. *)
Lemma to_float_to_double (f : binary32) :
  is_finite32 f = true -> to_float (to_double f) = f.
Proof.
  destruct f as [s e m]. unfold is_finite32; cbn [exp32 man32].
  rewrite !andb_true_iff, !Z.leb_le, !Z.ltb_lt.
  change (2 ^ 23) with 8388608. intros [[[He0 He1] Hm0] Hm1].
  unfold to_double.
  destruct (Z.eqb_spec e 255) as [?|_]; [lia|].
  destruct (Z.eqb_spec e 0) as [->|He].
  - (* zero and subnormal numbers *)
    destruct (Z.eqb_spec m 0) as [->|Hm]; [reflexivity|].
    assert (Hk : 0 <= Z.log2 m < 23).
    { split; [apply Z.log2_nonneg|]. apply Z.log2_lt_pow2; lia. }
    assert (Hk2 : 2 ^ Z.log2 m <= m) by (apply Z.log2_spec; lia).
    set (k := Z.log2 m) in *.
    unfold to_float.
    destruct (Z.eqb_spec (k + 874) 2047) as [?|_]; [lia|].
    destruct (Z.eqb_spec (k + 874) 0) as [?|_]; [lia|].
    assert (Hp : 0 < 2 ^ (52 - k)) by (apply Z.pow_pos_nonneg; lia).
    replace ((m - 2 ^ k) * 2 ^ (52 - k) + 2 ^ 52) with (m * 2 ^ (52 - k)).
    2:{ replace (2 ^ 52) with (2 ^ k * 2 ^ (52 - k)); [ring|].
        rewrite <- Z.pow_add_r by lia. f_equal; lia. }
    replace (Z.max (k + 874) 1 - 1075) with (-149 - (52 - k)) by lia.
    rewrite round_binary32_exact by (fold k; lia).
    cbv zeta. change (2 ^ 23) with 8388608.
    destruct (Z.leb_spec (255 * 8388608) ((-149 + 149) * 8388608 + m)) as [?|_]; [lia|].
    f_equal.
    + apply Z.div_small; lia.
    + apply Z.mod_small; lia.
  - (* normal numbers *)
    unfold to_float.
    destruct (Z.eqb_spec (e + 896) 2047) as [?|_]; [lia|].
    destruct (Z.eqb_spec (e + 896) 0) as [?|_]; [lia|].
    change (2 ^ 52) with (8388608 * 2 ^ 29).
    rewrite <- Z.mul_add_distr_r.
    replace (Z.max (e + 896) 1 - 1075) with (e - 150 - 29) by lia.
    assert (Hl : Z.log2 (m + 8388608) = 23) by (apply Z.log2_unique; lia).
    rewrite round_binary32_exact by lia.
    cbv zeta. change (2 ^ 23) with 8388608.
    destruct (Z.leb_spec (255 * 8388608) ((e - 150 + 149) * 8388608 + (m + 8388608))) as [?|_]; [lia|].
    f_equal.
    + symmetry; apply (Z.div_unique _ _ _ m); lia.
    + symmetry; apply (Z.mod_unique _ _ e m); lia.
Qed.

Example to_float_one : to_float d_one = B32 false 127 0.
Proof. reflexivity. Qed.

Example to_float_zero : to_float d_zero = B32 false 0 0.
Proof. reflexivity. Qed.

(** 0.1 is not a binary32 number: narrowing rounds it (here upwards). *)
Example to_float_tenth :
  to_float (B64 false 1019 2702159776422298) = B32 false 123 5033165.
Proof. vm_compute. reflexivity. Qed.

(** A width as the projection matrix gets it: exact for every size a
    texture can have, rounded above [2 ^ 24]. *)
Example uint_to_float_1920 : uint_to_float 1920 = B32 false 137 7340032.
Proof. vm_compute. reflexivity. Qed.

Example uint_to_float_one : uint_to_float 1 = f_one.
Proof. vm_compute. reflexivity. Qed.

Example uint_to_float_rounds : uint_to_float (2 ^ 24 + 1) = uint_to_float (2 ^ 24).
Proof. vm_compute. reflexivity. Qed.

(** ** Per-tick negotiation *)

(** The base half of the negotiation: eligibility follows the base's own
    flags and the base's own space. *)
Lemma video_tick_base e s :
  let i' := (video_tick e s).2.2 in
  _base_color_space i' = target_color_space e /\
  _base_srgb i' =
    declares_srgb (target_output_flags e) && (target_color_space e <=? GS_CS_SRGB_16F).
Proof.
  destruct s as [h i]; destruct i.
  cbv -[Z.land Z.eqb Z.leb lock OBS_SOURCE_SRGB GS_CS_SRGB_16F tick_alive
        target_color_space target_output_flags input_color_space input_output_flags].
  match goal with |- context [lock ?a ?w] => destruct (lock a w) end;
    repeat match goal with
           | |- context [if ?b then _ else _] => destruct b
           end; split; reflexivity.
Qed.

(** The input half: the space and format follow the input, but the
    eligibility is computed from [_base_color_space]. *)
Lemma video_tick_input e s src :
  lock (tick_alive e) (_input s.2) = Some src ->
  let i' := (video_tick e s).2.2 in
  _input_color_space i' = input_color_space e src /\
  _input_srgb i' =
    declares_srgb (input_output_flags e src) && (target_color_space e <=? GS_CS_SRGB_16F).
Proof.
  destruct s as [h i]; destruct i. cbn [snd _input]. intros Hl.
  cbv -[Z.land Z.eqb Z.leb lock OBS_SOURCE_SRGB GS_CS_SRGB_16F tick_alive
        target_color_space target_output_flags input_color_space input_output_flags].
  rewrite Hl.
  repeat match goal with
         | |- context [if ?b then _ else _] => destruct b
         end; split; reflexivity.
Qed.

(** C1, evaluated on the code: the eligibility of the secondary source is
    not computed from its own space.  With the base in [GS_CS_SRGB] and the
    input in [GS_CS_709_EXTENDED], an extended space outside the
    8-bit-equivalent range, [video_tick] still marks the input sRGB-eligible,
    because line 294 tests [_base_color_space]. *)
Theorem video_tick_input_srgb_from_base_space :
  let i' := (video_tick hdr_input_tick
               (initial_host, set_input (Some 7%nat) initial_instance)).2.2 in
  _input_color_space i' = GS_CS_709_EXTENDED /\
  (_input_color_space i' <=? GS_CS_SRGB_16F) = false /\
  _input_color_format i' = GS_RGBA16F /\
  _input_srgb i' = true.
Proof. vm_compute. repeat split; reflexivity. Qed.

(** ** Rendering: symbolic execution *)

(** Fix the host's answers about one slot, then the fields of the state the
    capture branches on, and evaluate. *)
Ltac hide_floats :=
  repeat match goal with
         | |- context [uint_to_float ?n] =>
             let f := fresh "f" in generalize (uint_to_float n); intros f
         end.

Ltac fix_slot e s :=
  hide_floats;
  destruct (render_begun e s); destruct (draw_succeeds e s);
  destruct (rendertarget_texture e s).

Ltac fix_base_slot :=
  match goal with |- context [ {| _have_base := ?b |} ] => destruct b end;
  match goal with |- context [ {| _base_rt := ?r |} ] => destruct r as [[[]]|] end;
  match goal with |- context [ {| _base_color_format := ?f |} ] => destruct f end.

Ltac fix_input_slot :=
  match goal with |- context [ {| _have_input := ?b |} ] => destruct b end;
  match goal with |- context [ {| _input_rt := ?r |} ] => destruct r as [[[]]|] end;
  match goal with |- context [ {| _input_color_format := ?f |} ] => destruct f end.

Ltac fix_final_slot :=
  match goal with |- context [ {| _have_final := ?b |} ] => destruct b end;
  match goal with |- context [ {| _final_rt := ?r |} ] => destruct r as [[[]]|] end.

Ltac open_state s :=
  let h := fresh "h" in let i := fresh "i" in
  destruct s as [h i]; destruct h, i.

(** What one attempt to capture the base leaves in the slot. *)
Lemma capture_base_outcome e s :
  _have_base s.2 = false ->
  let s' := (capture_base e s).2 in
  if filter_begin e && render_begun e Base && draw_succeeds e Base then
    _have_base s'.2 = true /\
    _base_tex s'.2 = match rendertarget_texture e Base with
                     | Some t => Some t
                     | None => _base_tex s.2
                     end
  else
    _have_base s'.2 = false /\ _base_tex s'.2 = _base_tex s.2.
Proof.
  unfold capture_base, render_into, isolated, process_filter_end_default, foreign.
  destruct (filter_begin e); fix_slot e Base; open_state s;
    fix_base_slot; cbn [snd _have_base]; intros Hv; try discriminate Hv;
    vm_compute; split; reflexivity.
Qed.

(** The same for the bound input. *)
Lemma capture_input_outcome e src s :
  _have_input s.2 = false ->
  let s' := (capture_input e (Some src) s).2 in
  if render_begun e Input && draw_succeeds e Input then
    _have_input s'.2 = true /\
    _input_tex s'.2 = match rendertarget_texture e Input with
                      | Some t => Some t
                      | None => _input_tex s.2
                      end
  else
    _have_input s'.2 = false /\ _input_tex s'.2 = _input_tex s.2.
Proof.
  unfold capture_input, render_into, isolated, foreign.
  fix_slot e Input; open_state s;
    fix_input_slot; cbn [snd _have_input]; intros Hv; try discriminate Hv;
    vm_compute; split; reflexivity.
Qed.

(** C4, evaluated on the code: when the failure is in retrieving the texture
    from the render target, the slot is left marked valid although no
    texture was recorded.  Lines 394-395 (and 477-478) set the flag before
    [get_texture]; the final slot (lines 559-560) does it in the other
    order. *)
Theorem capture_valid_without_texture :
  let s0 := (initial_host, set_input (Some 7%nat) initial_instance) in
  let s' := (video_render get_texture_throws s0).2 in
  (_have_base s0.2 = false /\ _base_tex s0.2 = None /\
   _have_base s'.2 = true /\ _base_tex s'.2 = None) /\
  (_have_input s0.2 = false /\ _input_tex s0.2 = None /\
   _have_input s'.2 = true /\ _input_tex s'.2 = None).
Proof. vm_compute. repeat split; reflexivity. Qed.

(** C9: whatever happens during a capture of the base or of the input -- it
    succeeds, the begin step returns false, or something throws -- the
    framebuffer-sRGB enable and the linear-sRGB mode are afterwards what
    they were before the capture began, also when the foreign drawing
    changed them on the way. *)
Theorem capture_restores_srgb_flags e input s :
  (framebuffer_srgb (capture_base e s).2.1 = framebuffer_srgb s.1 /\
   linear_srgb (capture_base e s).2.1 = linear_srgb s.1) /\
  (framebuffer_srgb (capture_input e input s).2.1 = framebuffer_srgb s.1 /\
   linear_srgb (capture_input e input s).2.1 = linear_srgb s.1).
Proof.
  split.
  - unfold capture_base, render_into, isolated, process_filter_end_default, foreign.
    destruct (filter_begin e); fix_slot e Base; open_state s;
      fix_base_slot; vm_compute; split; reflexivity.
  - unfold capture_input, render_into, isolated, foreign.
    destruct input; fix_slot e Input; open_state s;
      fix_input_slot; vm_compute; split; reflexivity.
Qed.

(** Neither capture lets an exception escape. *)
Lemma captures_return e input s :
  (capture_base e s).1 = Return tt /\
  (capture_input e input s).1 = Return tt /\
  (capture_final e s).1 = Return tt.
Proof.
  repeat split.
  - unfold capture_base, render_into, isolated, process_filter_end_default, foreign.
    destruct (filter_begin e); fix_slot e Base; open_state s;
      fix_base_slot; vm_compute; reflexivity.
  - unfold capture_input, render_into, isolated, foreign.
    destruct input; fix_slot e Input; open_state s;
      fix_input_slot; vm_compute; reflexivity.
  - unfold capture_final, render_into, isolated, foreign.
    fix_slot e Final; open_state s;
      match goal with |- context [ {| _have_base := ?b |} ] => destruct b end;
      match goal with |- context [ {| _base_color_format := ?f |} ] => destruct f end;
      fix_final_slot; vm_compute; reflexivity.
Qed.

(** The guard closed: the call asks the host to skip the filter and does
    nothing else. *)
Lemma video_render_guarded e s :
  nothing_to_render e (lock (render_alive e) (_input s.2)) = true ->
  video_render e s =
    (Return Skipped, (set_calls (skip_video_filter :: calls s.1) s.1, s.2)).
Proof.
  intros Hg. destruct s as [h i]. unfold video_render.
  unfold mbind at 1. unfold M_bind, get_inst. cbn [snd] in *. rewrite Hg.
  reflexivity.
Qed.

(** C7: a render call that finds the base output with zero width or height,
    or a bound secondary source with zero width or height, returns the
    skipped result, throws nothing, and leaves the filter exactly as it was:
    the three validity flags and every other member are unchanged, and so is
    the host apart from the skip it was asked for. *)
Theorem video_render_zero_size_skips e s :
  width e = 0 \/ height e = 0 \/
  (is_Some (lock (render_alive e) (_input s.2)) /\
   (input_width e = 0 \/ input_height e = 0)) ->
  video_render e s =
    (Return Skipped, (set_calls (skip_video_filter :: calls s.1) s.1, s.2)).
Proof.
  intros H. apply video_render_guarded.
  unfold nothing_to_render.
  destruct (negb (context_ok e) || (width e =? 0) || (height e =? 0)) eqn:Hb;
    [reflexivity|].
  apply orb_false_iff in Hb as [Hb Hh]. apply orb_false_iff in Hb as [_ Hw].
  apply Z.eqb_neq in Hw, Hh.
  destruct H as [?|[?|[Hs Hz]]]; [lia|lia|].
  rewrite (bool_decide_eq_true_2 _ Hs).
  destruct Hz as [->| ->]; cbn [Z.eqb andb orb]; [reflexivity|].
  rewrite orb_true_r. reflexivity.
Qed.

Lemma video_render_zero_size_skips_witness :
  video_render zero_width_render (initial_host, initial_instance) =
    (Return Skipped,
     (set_calls (skip_video_filter :: calls initial_host) initial_host,
      initial_instance)).
Proof.
  apply (video_render_zero_size_skips zero_width_render (initial_host, initial_instance)).
  left. reflexivity.
Defined.

(** ** Rendering: the stages of one call *)

(** Sequencing after a computation that returns. *)
Lemma bind_returns {A} (m : M unit) (k : M A) s :
  (m s).1 = Return tt -> (m;; k) s = k (m s).2.
Proof.
  unfold mbind, M_bind. destruct (m s) as [[[]| |] s']; cbn; [reflexivity|discriminate|discriminate].
Qed.

(** Past the guard, a render call is the five stages in a row. *)
Lemma video_render_stages e s :
  let input := lock (render_alive e) (_input s.2) in
  nothing_to_render e input = false ->
  video_render e s =
    draw_final e
      (debug_texture_override
         (capture_final e (capture_input e input (capture_base e s).2).2).2).2.
Proof.
  intros input Hg. destruct s as [h i]. unfold video_render.
  unfold mbind at 1. unfold M_bind at 1. unfold get_inst at 1. cbn [snd] in *.
  fold input. rewrite Hg.
  rewrite bind_returns by apply (captures_return e input).
  rewrite bind_returns by apply (captures_return e input).
  rewrite bind_returns by apply (captures_return e input).
  rewrite bind_returns; [reflexivity|].
  match goal with |- (debug_texture_override ?s).1 = _ => destruct s as [h' i'] end.
  unfold debug_texture_override, mbind, M_bind, get_inst, modify_inst, mret, M_ret.
  cbn [snd]. destruct (_debug_texture i' =? 0), (_debug_texture i' =? 1); reflexivity.
Qed.

Lemma log_extends_trans P l1 l2 l3 :
  log_extends P l1 l2 -> log_extends P l2 l3 -> log_extends P l1 l3.
Proof.
  intros H12 H23. induction H23 as [|c l Hc _ IH]; [assumption|].
  apply log_more; assumption.
Qed.

Lemma log_extends_app P old l :
  log_extends P old l <-> exists new, l = new ++ old /\ forallb P new = true.
Proof.
  split.
  - induction 1 as [|c l Hc _ (new & -> & Hn)].
    + exists []. split; reflexivity.
    + exists (c :: new). split; [reflexivity|]. cbn. rewrite Hc, Hn. reflexivity.
  - intros (new & -> & Hn). induction new as [|c new IH]; [apply log_same|].
    cbn in Hn. apply andb_true_iff in Hn as [Hc Hn].
    apply log_more; [assumption|apply IH; assumption].
Qed.

Ltac log_steps :=
  repeat first [ apply log_same | apply log_more; [reflexivity|] ].

(** Capturing the base writes the base slot only, and never draws the
    input. *)
Lemma capture_base_frame e s :
  let s' := (capture_base e s).2 in
  s'.2 = set_base_rt (_base_rt s'.2)
           (set_base_tex (_base_tex s'.2) (set_have_base (_have_base s'.2) s.2)) /\
  (_have_base s.2 = true -> s' = s) /\
  log_extends no_input_pass (calls s.1) (calls s'.1).
Proof.
  unfold capture_base, render_into, isolated, process_filter_end_default, foreign.
  destruct (filter_begin e); fix_slot e Base; open_state s; fix_base_slot;
    vm_compute; (split; [reflexivity|split; [try reflexivity; discriminate|log_steps]]).
Qed.

(** With nothing bound, the input slot becomes a copy of the base slot. *)
Lemma capture_input_alias e s :
  capture_input e None s =
    (Return tt,
     if _have_input s.2 then s
     else (s.1, set_input_color_space (_base_color_space s.2)
                  (set_input_color_format (_base_color_format s.2)
                     (set_input_tex (_base_tex s.2)
                        (set_have_input (_have_base s.2) s.2))))).
Proof.
  unfold capture_input. open_state s.
  match goal with |- context [ {| _have_input := ?b |} ] => destruct b end;
    reflexivity.
Qed.

(** Capturing a bound input writes the input slot only. *)
Lemma capture_input_frame e src s :
  let s' := (capture_input e (Some src) s).2 in
  s'.2 = set_input_rt (_input_rt s'.2)
           (set_input_tex (_input_tex s'.2) (set_have_input (_have_input s'.2) s.2)) /\
  (_have_input s.2 = true -> s' = s).
Proof.
  unfold capture_input, render_into, isolated, foreign.
  fix_slot e Input; open_state s; fix_input_slot;
    vm_compute; (split; [reflexivity|try reflexivity; discriminate]).
Qed.

(** The mixing pass writes the final slot only, and never draws the input. *)
Lemma capture_final_frame e s :
  let s' := (capture_final e s).2 in
  s'.2 = set_final_rt (_final_rt s'.2)
           (set_final_tex (_final_tex s'.2) (set_have_final (_have_final s'.2) s.2)) /\
  log_extends no_input_pass (calls s.1) (calls s'.1).
Proof.
  unfold capture_final, render_into, isolated, foreign.
  fix_slot e Final; open_state s;
    match goal with |- context [ {| _have_base := ?b |} ] => destruct b end;
    match goal with |- context [ {| _base_color_format := ?f |} ] => destruct f end;
    fix_final_slot; vm_compute; (split; [reflexivity|log_steps]).
Qed.

(** The debug selector replaces what the final slot presents, and nothing
    else. *)
Lemma debug_texture_override_spec s :
  let s' := (debug_texture_override s).2 in
  s'.1 = s.1 /\
  s'.2 = set_final_tex (_final_tex s'.2) (set_have_final (_have_final s'.2) s.2) /\
  (_debug_texture s.2 = 0 ->
     _have_final s'.2 = _have_base s.2 /\ _final_tex s'.2 = _base_tex s.2) /\
  (_debug_texture s.2 = 1 ->
     _have_final s'.2 = _have_input s.2 /\ _final_tex s'.2 = _input_tex s.2) /\
  (_debug_texture s.2 <> 0 -> _debug_texture s.2 <> 1 ->
     _have_final s'.2 = _have_final s.2 /\ _final_tex s'.2 = _final_tex s.2).
Proof.
  unfold debug_texture_override. open_state s. cbn [snd _debug_texture].
  unfold mbind, M_bind, get_inst, modify_inst, mret, M_ret. cbn [snd _debug_texture].
  destruct (Z.eqb_spec _debug_texture0 0) as [->|H0]; cbn.
  { repeat split; try reflexivity; intros; congruence. }
  destruct (Z.eqb_spec _debug_texture0 1) as [->|H1]; cbn.
  { repeat split; try reflexivity; intros; congruence. }
  repeat split; try reflexivity; intros; congruence.
Qed.

Lemma draw_final_spec e s :
  (draw_final e s).1 = presented e s.2 /\
  (draw_final e s).2.2 = s.2 /\
  log_extends no_input_pass (calls s.1) (calls (draw_final e s).2.1).
Proof.
  unfold draw_final, presented. destruct (image_param e); open_state s.
  all: match goal with |- context [ {| _have_final := ?b |} ] => destruct b end.
  all: match goal with |- context [ {| _final_tex := ?t |} ] => destruct t end.
  all: cbv -[Z.eqb width height].
  all: try match goal with |- context [?x =? 0] => destruct (x =? 0) end.
  all: (split; [reflexivity|split; [reflexivity|log_steps]]).
Qed.

(** Members a capture of the input leaves alone. *)
Lemma capture_input_keeps e input s :
  let s' := (capture_input e input s).2 in
  _have_base s'.2 = _have_base s.2 /\ _base_tex s'.2 = _base_tex s.2 /\
  _have_final s'.2 = _have_final s.2 /\ _final_tex s'.2 = _final_tex s.2 /\
  _debug_texture s'.2 = _debug_texture s.2 /\ _input s'.2 = _input s.2 /\
  _base_color_space s'.2 = _base_color_space s.2 /\
  _base_color_format s'.2 = _base_color_format s.2.
Proof.
  destruct input as [src|].
  - destruct (capture_input_frame e src s) as [Hf _]. cbv zeta.
    rewrite Hf. repeat split; reflexivity.
  - rewrite capture_input_alias. destruct (_have_input s.2); repeat split; reflexivity.
Qed.

(** A render call past the guard: the captures, then the debug selector,
    then the draw, which hands over the final slot and changes no member. *)
Lemma video_render_after_captures e s :
  nothing_to_render e (lock (render_alive e) (_input s.2)) = false ->
  let chosen := (debug_texture_override (after_captures e s)).2 in
  (video_render e s).1 = presented e chosen.2 /\
  (video_render e s).2.2 = chosen.2 /\
  _debug_texture (after_captures e s).2 = _debug_texture s.2.
Proof.
  intros Hg chosen. subst chosen.
  rewrite (video_render_stages e s Hg). fold (after_captures e s).
  destruct (draw_final_spec e (debug_texture_override (after_captures e s)).2)
    as (Hr & Hi & _).
  split; [exact Hr|]. split; [exact Hi|].
  unfold after_captures.
  destruct (capture_final_frame e
              (capture_input e (lock (render_alive e) (_input s.2))
                 (capture_base e s).2).2) as [Hf _].
  rewrite Hf. cbn [_debug_texture set_final_rt set_final_tex set_have_final].
  destruct (capture_input_keeps e (lock (render_alive e) (_input s.2))
              (capture_base e s).2) as (_ & _ & _ & _ & -> & _).
  destruct (capture_base_frame e s) as [Hb _]. rewrite Hb. reflexivity.
Qed.


(** The debug selector in a render call that gets past the size guard: a
    selector of 0 (base) or 1 (secondary) puts that slot's validity and
    texture into the final slot, whatever the mixing pass produced; any other
    selector leaves the mixed result in place.  The override changes the
    final slot only.  The call then ends as the final slot so chosen makes
    it end. *)
Lemma debug_override_chooses_slot e s :
  nothing_to_render e (lock (render_alive e) (_input s.2)) = false ->
  let mixed := after_captures e s in
  let r := (video_render e s).1 in
  let s' := (video_render e s).2 in
  (_have_base s'.2 = _have_base mixed.2 /\ _base_tex s'.2 = _base_tex mixed.2 /\
   _have_input s'.2 = _have_input mixed.2 /\ _input_tex s'.2 = _input_tex mixed.2) /\
  (_debug_texture s.2 = 0 ->
     _have_final s'.2 = _have_base mixed.2 /\ _final_tex s'.2 = _base_tex mixed.2) /\
  (_debug_texture s.2 = 1 ->
     _have_final s'.2 = _have_input mixed.2 /\ _final_tex s'.2 = _input_tex mixed.2) /\
  (_debug_texture s.2 <> 0 -> _debug_texture s.2 <> 1 ->
     _have_final s'.2 = _have_final mixed.2 /\ _final_tex s'.2 = _final_tex mixed.2) /\
  r = presented e s'.2.
Proof.
  intros Hg mixed r s'. subst r s'.
  destruct (video_render_after_captures e s Hg) as (Hr & Hi & Hd).
  fold mixed in Hr, Hi, Hd. rewrite Hr, Hi, <- Hd.
  destruct (debug_texture_override_spec mixed) as (_ & Hf & H0 & H1 & Hn).
  split; [|repeat split; solve [apply H0; assumption | apply H1; assumption
                              | apply Hn; assumption ]].
  rewrite Hf. repeat split; reflexivity.
Qed.

(** With the selector on the base and both captures and the mixing pass
    succeeding, the call draws the base texture, not the mixed one. *)
Example debug_override_presents_base :
  _final_tex (after_captures smooth_render debug_base_state).2 = Some 13 /\
  _final_tex (video_render smooth_render debug_base_state).2.2 = Some 11 /\
  (video_render smooth_render debug_base_state).1 = Return (Drawn 11) /\
  exists l, calls (video_render smooth_render debug_base_state).2.1 =
              effect_loop_draw 1920 1080 :: effect_set_image 11 false :: l.
Proof. vm_compute. repeat split; try reflexivity. eexists. reflexivity. Qed.

(** C5, evaluated on the code: the override does not always present the
    selected slot.  With the selector on the base, in a render call where the
    upstream chain is drawn and [_base_rt->get_texture(_base_tex)] throws,
    the captures leave the base slot flagged valid with no texture in it
    while the mixing pass succeeds; the override copies the base slot into the
    final slot, and line 584 then calls [_final_tex->get_object()] through
    the empty pointer.  The call does not return, and it has presented
    nothing: neither a texture nor a request to skip the filter. *)
Theorem debug_override_dereferences_empty_texture :
  let e := get_texture_throws in
  let s := debug_base_state in
  let mixed := after_captures e s in
  let r := (video_render e s).1 in
  let s' := (video_render e s).2 in
  nothing_to_render e (lock (render_alive e) (_input s.2)) = false /\
  _debug_texture s.2 = 0 /\
  (_have_base mixed.2 = true /\ _base_tex mixed.2 = None) /\
  (_have_final mixed.2 = true /\ _final_tex mixed.2 = Some 13) /\
  (_have_final s'.2 = true /\ _final_tex s'.2 = None) /\
  r = Undefined /\
  exists new, calls s'.1 = new ++ calls s.1 /\ existsb presents new = false.
Proof.
  cbv zeta. repeat split; try (vm_compute; reflexivity).
  exists (calls (video_render get_texture_throws debug_base_state).2.1).
  split; vm_compute; reflexivity.
Qed.

(** ** The mixing pass and the secondary slot *)

Lemma log_extends_weaken (P Q : gs_call -> bool) old l :
  (forall c, P c = true -> Q c = true) -> log_extends P old l -> log_extends Q old l.
Proof.
  intros HPQ. induction 1 as [|c l Hc _ IH]; [apply log_same|].
  apply log_more; auto.
Qed.

Lemma logged_since_app old c l :
  logged_since old c l <-> exists new, l = new ++ old /\ In c new.
Proof.
  split.
  - induction 1 as [l Hl|c' l _ (new & -> & Hin)].
    + apply log_extends_app in Hl as (new & -> & _).
      exists (c :: new). split; [reflexivity|left; reflexivity].
    + exists (c' :: new). split; [reflexivity|right; assumption].
  - intros (new & -> & Hin). induction new as [|c' new IH]; [destruct Hin|].
    destruct Hin as [->|Hin].
    + apply logged_here. apply log_extends_app. exists new.
      split; [reflexivity|]. clear. induction new; [reflexivity|assumption].
    + apply logged_earlier. apply IH. assumption.
Qed.

(** Calls added before the stage that logs [c] do not hide it. *)
Lemma logged_since_earlier P old mid c l :
  log_extends P old mid -> logged_since mid c l -> logged_since old c l.
Proof.
  intros Hold. induction 1 as [l Hl|c' l _ IH].
  - apply logged_here. eapply log_extends_trans; [|exact Hl].
    eapply log_extends_weaken; [|exact Hold]. reflexivity.
  - apply logged_earlier. exact IH.
Qed.

Ltac logged_steps :=
  solve [ repeat first [ apply logged_here; solve [log_steps] | apply logged_earlier ] ].

(** Members a capture of the base leaves alone. *)
Lemma capture_base_keeps e s :
  let s' := (capture_base e s).2 in
  _have_input s'.2 = _have_input s.2 /\ _input_tex s'.2 = _input_tex s.2 /\
  _input_srgb s'.2 = _input_srgb s.2 /\ _base_srgb s'.2 = _base_srgb s.2 /\
  _have_final s'.2 = _have_final s.2 /\ _final_tex s'.2 = _final_tex s.2 /\
  _debug_texture s'.2 = _debug_texture s.2 /\ _input s'.2 = _input s.2 /\
  _input_color_space s'.2 = _input_color_space s.2 /\
  _input_color_format s'.2 = _input_color_format s.2 /\
  _base_color_space s'.2 = _base_color_space s.2 /\
  _base_color_format s'.2 = _base_color_format s.2.
Proof.
  destruct (capture_base_frame e s) as [Hf _]. cbv zeta.
  rewrite Hf. repeat split; reflexivity.
Qed.

(** A capture of a bound input adds to the log and keeps the sRGB choices. *)
Lemma capture_input_log e src s :
  let s' := (capture_input e (Some src) s).2 in
  log_extends (fun _ => true) (calls s.1) (calls s'.1) /\
  _input_srgb s'.2 = _input_srgb s.2 /\ _base_srgb s'.2 = _base_srgb s.2.
Proof.
  destruct (capture_input_frame e src s) as [Hf _]. cbv zeta.
  split; [|rewrite Hf; split; reflexivity]. clear Hf.
  unfold capture_input, render_into, isolated, foreign.
  fix_slot e Input; open_state s; fix_input_slot; vm_compute; log_steps.
Qed.

(** The gate of the mixing pass, and what the pass does once it is open. *)
Lemma capture_final_closed e s :
  negb (_have_final s.2) && _have_base s.2 = false -> capture_final e s = (Return tt, s).
Proof.
  unfold capture_final. open_state s. cbn [snd _have_final _have_base].
  unfold mbind, M_bind, get_inst, when. cbn [snd _have_final _have_base].
  intros ->. reflexivity.
Qed.

Lemma capture_final_open e s :
  _have_final s.2 = false -> _have_base s.2 = true ->
  render_begun e Final = true -> draw_succeeds e Final = true ->
  let s' := (capture_final e s).2 in
  logged_since (calls s.1)
    (effect_set_texture "pMaskInputA" (_base_tex s.2) (_base_srgb s.2)) (calls s'.1) /\
  logged_since (calls s.1)
    (effect_set_texture "pMaskInputB" (_input_tex s.2) (_input_srgb s.2)) (calls s'.1) /\
  logged_since (calls s.1) effect_loop_mask (calls s'.1) /\
  (forall t, rendertarget_texture e Final = Some t ->
     _have_final s'.2 = true /\ _final_tex s'.2 = Some t).
Proof.
  intros Hf Hb Hr Hd.
  unfold capture_final, render_into, isolated, foreign. rewrite Hr, Hd.
  destruct (rendertarget_texture e Final); open_state s;
    cbn [snd _have_final _have_base] in Hf, Hb; subst;
    match goal with |- context [ {| _base_color_format := ?f |} ] => destruct f end;
    match goal with |- context [ {| _final_rt := ?r |} ] => destruct r as [[[]]|] end;
    vm_compute;
    (split; [logged_steps|split; [logged_steps|split; [logged_steps|]]]);
    intros t' Ht'; try discriminate Ht'; injection Ht' as <-; split; reflexivity.
Qed.

(** The pass reads the secondary slot's texture but not its validity. *)
Lemma capture_final_ignores_have_input e h i b :
  capture_final e (h, set_have_input b i) =
    ((capture_final e (h, i)).1,
     ((capture_final e (h, i)).2.1, set_have_input b (capture_final e (h, i)).2.2)).
Proof.
  unfold capture_final, render_into, isolated, foreign.
  fix_slot e Final; destruct h, i;
    match goal with |- context [ {| _have_base := ?b |} ] => destruct b end;
    match goal with |- context [ {| _base_color_format := ?f |} ] => destruct f end;
    fix_final_slot; vm_compute; reflexivity.
Qed.

(** C10: the mixing pass is gated on the final slot being invalid and the
    base slot being valid, and on nothing else: it stays closed when that
    test fails, and its outcome does not depend on the validity of the
    secondary slot.  In a render call where the base capture succeeds and
    the capture of the bound secondary source fails, the pass therefore still
    runs: it binds the base texture and whatever texture the secondary slot
    held before the call, runs the "Mask" technique, and, when the render
    target hands out its texture, marks the final slot valid. *)
Theorem mixing_pass_gated_on_base_only e s src t :
  lock (render_alive e) (_input s.2) = Some src ->
  nothing_to_render e (Some src) = false ->
  _have_base s.2 = false -> _have_input s.2 = false -> _have_final s.2 = false ->
  filter_begin e = true -> render_begun e Base = true ->
  draw_succeeds e Base = true -> rendertarget_texture e Base = Some t ->
  render_begun e Input && draw_succeeds e Input
    && bool_decide (is_Some (rendertarget_texture e Input)) = false ->
  render_begun e Final = true -> draw_succeeds e Final = true ->
  let mixed := after_captures e s in
  (forall s0, negb (_have_final s0.2) && _have_base s0.2 = false ->
     capture_final e s0 = (Return tt, s0)) /\
  (forall h i b,
     capture_final e (h, set_have_input b i) =
       ((capture_final e (h, i)).1,
        ((capture_final e (h, i)).2.1, set_have_input b (capture_final e (h, i)).2.2))) /\
  (exists new, calls mixed.1 = new ++ calls s.1 /\
     In (effect_set_texture "pMaskInputA" (Some t) (_base_srgb s.2)) new /\
     In (effect_set_texture "pMaskInputB" (_input_tex s.2) (_input_srgb s.2)) new /\
     In effect_loop_mask new) /\
  (forall tf, rendertarget_texture e Final = Some tf ->
     _have_final mixed.2 = true /\ _final_tex mixed.2 = Some tf /\
     (_debug_texture s.2 <> 0 -> _debug_texture s.2 <> 1 ->
      _have_final (video_render e s).2.2 = true /\
      _final_tex (video_render e s).2.2 = Some tf)).
Proof.
  intros Hl Hg Hb Hi Hf Hfb Hrb Hdb Htb Hin Hrf Hdf mixed.
  split; [intros s0; apply capture_final_closed|].
  split; [apply capture_final_ignores_have_input|].
  (* the base stage *)
  pose proof (capture_base_outcome e s Hb) as Hbase.
  rewrite Hfb, Hrb, Hdb, Htb in Hbase. cbn in Hbase. destruct Hbase as [Hvb Hxb].
  destruct (capture_base_keeps e s)
    as (Hki & Hkt & Hks & Hkbs & Hkf & _ & Hkd & _).
  destruct (capture_base_frame e s) as (_ & _ & Hlb).
  set (sb := (capture_base e s).2) in *.
  (* the input stage *)
  assert (Hxi : _input_tex (capture_input e (Some src) sb).2.2 = _input_tex sb.2).
  { pose proof (capture_input_outcome e src sb) as Ho. cbv zeta in Ho.
    rewrite Hki in Ho. specialize (Ho Hi).
    destruct (render_begun e Input), (draw_succeeds e Input),
      (rendertarget_texture e Input) as [ti|]; cbn in Ho, Hin;
      solve [ discriminate Hin | apply Ho
            | rewrite bool_decide_eq_true_2 in Hin by eauto; discriminate Hin ]. }
  destruct (capture_input_keeps e (Some src) sb)
    as (Hib & Hit & Hif & _ & Hid & _).
  destruct (capture_input_log e src sb) as (Hli & His & Hibs).
  set (si := (capture_input e (Some src) sb).2) in *.
  (* the mixing pass *)
  assert (Hm : mixed = (capture_final e si).2).
  { subst mixed si sb. unfold after_captures. rewrite Hl. reflexivity. }
  destruct (capture_final_open e si) as (HA & HB & HL & Hv);
    [congruence|congruence|assumption|assumption|].
  rewrite <- Hm in HA, HB, HL, Hv.
  assert (Hlog : log_extends (fun _ => true) (calls s.1) (calls si.1)).
  { eapply log_extends_trans; [|exact Hli].
    eapply log_extends_weaken; [|exact Hlb]. reflexivity. }
  split.
  - apply (logged_since_earlier _ _ _ _ _ Hlog) in HA, HB, HL.
    apply logged_since_app in HA as (newA & HnA & HiA).
    apply logged_since_app in HB as (newB & HnB & HiB).
    apply logged_since_app in HL as (newL & HnL & HiL).
    assert (newB = newA) by (apply (app_inv_tail (calls s.1)); congruence).
    assert (newL = newA) by (apply (app_inv_tail (calls s.1)); congruence).
    subst newB newL. exists newA. split; [assumption|].
    rewrite Hit, Hxb, Hibs, Hkbs in HiA. rewrite Hxi, Hkt, His, Hks in HiB.
    repeat split; assumption.
  - intros tf Htf. destruct (Hv tf Htf) as [Hvf Hxf].
    split; [assumption|]. split; [assumption|]. intros Hd0 Hd1.
    assert (Hg' : nothing_to_render e (lock (render_alive e) (_input s.2)) = false)
      by (rewrite Hl; exact Hg).
    destruct (video_render_after_captures e s Hg') as (_ & -> & Hd).
    fold mixed in Hd |- *. rewrite <- Hd in Hd0, Hd1.
    destruct (debug_texture_override_spec mixed) as (_ & _ & _ & _ & Hn).
    destruct (Hn Hd0 Hd1) as [-> ->]. split; assumption.
Qed.

Lemma mixing_pass_gated_on_base_only_witness :
  (exists new,
     calls (after_captures input_draw_throws bound_state).1
       = new ++ calls bound_state.1 /\
     In (effect_set_texture "pMaskInputB" None false) new /\
     In effect_loop_mask new) /\
  _have_input (after_captures input_draw_throws bound_state).2 = false /\
  _have_final (video_render input_draw_throws bound_state).2.2 = true.
Proof.
  destruct (mixing_pass_gated_on_base_only input_draw_throws bound_state 7%nat 11)
    as (_ & _ & (new & Hn & _ & HB & HL) & Hv);
    try (vm_compute; reflexivity).
  split; [exists new; repeat split; assumption|].
  split; [vm_compute; reflexivity|].
  destruct (Hv 13) as (_ & _ & Hr); [reflexivity|].
  apply Hr; vm_compute; discriminate.
Defined.

(** ** No secondary source bound *)

Lemma video_tick_unbound te s :
  _input s.2 = None -> unbound_tick (video_tick te s).2.2.
Proof.
  open_state s. cbn [snd _input]. intros ->.
  cbv -[Z.land Z.eqb Z.leb OBS_SOURCE_SRGB GS_CS_SRGB_16F tick_alive
        target_color_space target_output_flags input_color_space input_output_flags].
  repeat match goal with
         | |- context [if ?b then _ else _] => destruct b
         end; (split; [reflexivity|split; [reflexivity|discriminate]]).
Qed.

(** No exception leaves a render call. *)
Lemma video_render_never_throws e s : (video_render e s).1 <> Throw.
Proof.
  destruct (nothing_to_render e (lock (render_alive e) (_input s.2))) eqn:Hg.
  - rewrite (video_render_guarded e s Hg). discriminate.
  - destruct (video_render_after_captures e s Hg) as (-> & _).
    unfold presented.
    repeat match goal with
           | |- context [if ?b then _ else _] => destruct b
           | |- context [match ?t with Some _ => _ | None => _ end] => destruct t
           end; discriminate.
Qed.

(** One render call of an unbound filter. *)
Lemma video_render_unbound e s :
  unbound_tick s.2 ->
  let s' := (video_render e s).2 in
  unbound_tick s'.2 /\
  log_extends no_input_pass (calls s.1) (calls s'.1) /\
  (nothing_to_render e None = false -> aliases_base s'.2).
Proof.
  intros (Hu & Hv & Ha). cbv zeta.
  assert (Hl : lock (render_alive e) (_input s.2) = None) by (rewrite Hu; reflexivity).
  destruct (nothing_to_render e None) eqn:Hg.
  - (* stopped by the guard *)
    rewrite <- Hl in Hg. rewrite (video_render_guarded e s Hg). cbn [fst snd].
    split; [exact (conj Hu (conj Hv Ha))|].
    split; [|discriminate]. apply log_more; [reflexivity|apply log_same].
  - rewrite <- Hl in Hg.
    rewrite (video_render_stages e s Hg). fold (after_captures e s).
    destruct (draw_final_spec e (debug_texture_override (after_captures e s)).2)
      as (_ & Hdi & Hdl).
    destruct (debug_texture_override_spec (after_captures e s)) as (Hoh & Hof & _).
    rewrite Hoh in Hdl. rewrite Hdi, Hof. clear Hdi Hof Hoh.
    unfold after_captures in *. rewrite Hl in *.
    (* the base stage, then the aliasing *)
    destruct (capture_base_frame e s) as (_ & Hbs & Hbl).
    destruct (capture_base_keeps e s)
      as (Hki & _ & _ & _ & _ & _ & _ & Hkin & _).
    set (sb := (capture_base e s).2) in *.
    assert (Hsi : exists si, (capture_input e None sb).2 = si /\
                    calls si.1 = calls sb.1 /\ unbound_tick si.2 /\ aliases_base si.2).
    { rewrite capture_input_alias. cbn [snd].
      destruct (_have_base s.2) eqn:Hb.
      - (* captured by an earlier call of the tick *)
        rewrite (Hbs eq_refl) in *. rewrite Hv. eexists. split; [reflexivity|].
        split; [reflexivity|]. split; [|apply Ha; reflexivity].
        split; [exact Hu|]. split; [rewrite Hv, Hb; reflexivity|].
        intros _. apply Ha; reflexivity.
      - rewrite Hki, Hv. eexists. split; [reflexivity|].
        split; [reflexivity|]. cbn [snd].
        split; [split; [exact (eq_trans Hkin Hu)|split; [reflexivity|]]|];
          repeat split; reflexivity. }
    destruct Hsi as (si & Hsi & Hsl & (Hju & Hjv & Hja) & (Hj1 & Hj2 & Hj3)).
    rewrite Hsi in *. clear Hsi.
    (* the mixing pass touches the final slot only *)
    destruct (capture_final_frame e si) as (Hff & Hfl).
    rewrite Hff.
    split; [|split].
    + split; [exact Hju|]. split; [exact Hjv|]. intros _. repeat split; assumption.
    + eapply log_extends_trans; [|exact Hdl].
      eapply log_extends_trans; [|exact Hfl]. rewrite Hsl. exact Hbl.
    + intros _. repeat split; assumption.
Qed.

Lemma render_calls_unbound es s :
  unbound_tick s.2 -> unbound_tick (render_calls es s).2.2.
Proof.
  revert s. induction es as [|e es IH]; intros s Hs; [exact Hs|].
  unfold render_calls. cbn [for_each]. fold (render_calls es).
  destruct (video_render_unbound e s Hs) as (Hs' & _).
  unfold mbind, M_bind, mret, M_ret.
  destruct (video_render e s) as [[r'| |] s1]; [apply IH|..]; exact Hs'.
Qed.

(** C6: in a tick with no secondary source bound, every render call --
    whatever render calls came before it in the tick -- makes no render pass
    for the secondary source; when it returns, the validity of the secondary
    slot equals that of the base slot, and, once the call has got past the
    size guard, the secondary slot's texture, colour space and colour format
    are those of the base slot. *)
Theorem unbound_secondary_aliases_base te es e s :
  _input s.2 = None ->
  let ticked := (video_tick te s).2 in
  let before := (render_calls es ticked).2 in
  let after := (video_render e before).2 in
  (exists new, calls after.1 = new ++ calls before.1 /\
               forallb no_input_pass new = true) /\
  _have_input after.2 = _have_base after.2 /\
  (nothing_to_render e None = false -> aliases_base after.2).
Proof.
  intros Hu ticked before after.
  assert (Hb : unbound_tick before.2).
  { apply render_calls_unbound. apply video_tick_unbound. exact Hu. }
  destruct (video_render_unbound e before Hb) as ((_ & Hv & _) & Hlog & Ha).
  split; [apply log_extends_app; exact Hlog|]. split; [exact Hv|exact Ha].
Qed.

Lemma unbound_secondary_aliases_base_witness :
  _input (initial_host, initial_instance).2 = None /\
  _have_input
    (video_render smooth_render
       (render_calls [smooth_render]
          (video_tick srgb_tick (initial_host, initial_instance)).2).2).2.2 =
  _have_base
    (video_render smooth_render
       (render_calls [smooth_render]
          (video_tick srgb_tick (initial_host, initial_instance)).2).2).2.2.
Proof.
  split; [reflexivity|].
  exact (proj1 (proj2 (unbound_secondary_aliases_base srgb_tick [smooth_render]
                         smooth_render (initial_host, initial_instance) eq_refl))).
Defined.

Example unbound_render_twice :
  let s := (video_render smooth_render
              (render_calls [smooth_render]
                 (video_tick srgb_tick (initial_host, initial_instance)).2).2).2 in
  _have_input s.2 = true /\ _input_tex s.2 = Some 11 /\ _base_tex s.2 = Some 11.
Proof. vm_compute. repeat split; reflexivity. Qed.

(** ** Secondary source binding *)

(** Unfold the binding code and the monad, leaving [lock], the counts and
    the maps folded. *)
Ltac binding_steps :=
  cbv beta iota zeta delta
    [release deactivate hide activate show acquire weak_source source_active_child
     drop_reference drop_active_child
     increment_active decrement_active increment_showing decrement_showing
     released_host released_instance dropped
     try_catch throw mbind M_bind mret M_ret get_inst get_host modify_inst modify_host
     fst snd
     _input _input_child _input_vs _input_ac _have_base _base_rt _base_tex
     _base_color_space _base_color_format _base_srgb _have_input _input_rt
     _input_tex _input_color_space _input_color_format _input_srgb _have_final
     _final_rt _final_tex _final_srgb _channels _precalc _debug_texture
     set_input set_input_child set_input_vs set_input_ac
     framebuffer_srgb linear_srgb showing_refs active_refs active_children calls
     set_showing_refs set_active_refs set_active_children].

Ltac binding_cases :=
  binding_steps;
  repeat (match goal with
          | |- context [lock ?a ?w] => destruct (lock a w)
          end; binding_steps).

Lemma release_spec e h i :
  release e (h, i) = (Return tt, (released_host e i h, released_instance i)).
Proof. destruct h, i. binding_cases; reflexivity. Qed.

Lemma release_returns e s : (release e s).1 = Return tt.
Proof. destruct s as [h i]. rewrite release_spec. reflexivity. Qed.

Lemma release_unbinds e s : unbound (release e s).2.2.
Proof. destruct s as [h i]. rewrite release_spec. repeat split. Qed.

Lemma release_unbound_noop e s : unbound s.2 -> release e s = (Return tt, s).
Proof.
  destruct s as [h i]. rewrite release_spec. destruct h, i. cbn [snd].
  intros (Hi & Hc & Hv & Ha). cbn in Hi, Hc, Hv, Ha. subst. reflexivity.
Qed.

(** [release] does not look at [_input] before clearing it. *)
Lemma release_ignores_input e h i w :
  release e (h, set_input w i) = release e (h, i).
Proof. rewrite !release_spec. reflexivity. Qed.

Lemma refs_dropped alive held m x :
  refs (dropped alive held m) x =
    refs m x - (if bool_decide (lock alive held = Some x) then 1 else 0).
Proof.
  unfold dropped. destruct (lock alive held) as [a|].
  - unfold refs. rewrite lookup_insert. destruct (decide (a = x)) as [->|Hne].
    + rewrite bool_decide_eq_true_2 by reflexivity. reflexivity.
    + rewrite bool_decide_eq_false_2 by congruence. cbn. lia.
  - rewrite bool_decide_eq_false_2 by discriminate. lia.
Qed.

(** A failed attempt ends in [release], applied to what was bound before. *)
Lemma acquire_failure e name s :
  acquisition_fails e name ->
  acquire e name s = (Return false, (release e s).2).
Proof.
  unfold acquisition_fails. destruct s as [h i]. intros Hf.
  unfold acquire, try_catch, weak_source.
  destruct (get_source_by_name e name) as [c|].
  - unfold mbind at 1. unfold M_bind at 1, mret at 1, M_ret at 1.
    unfold mbind at 1. unfold M_bind at 1, modify_inst at 1. cbn [fst snd].
    unfold mbind at 1. unfold M_bind at 1, get_inst at 1. cbn [fst snd].
    unfold mbind at 1. unfold M_bind at 1.
    replace (source_active_child e (lock (source_alive e) (_input (set_input (Some c) i)))
               (h, set_input (Some c) i))
      with (@Throw source, (h, set_input (Some c) i)).
    2:{ unfold source_active_child, lock, throw. cbn [_input set_input].
        destruct (source_alive e c); [|reflexivity].
        cbn in Hf. rewrite Hf. reflexivity. }
    unfold mbind, M_bind. rewrite release_ignores_input.
    rewrite release_spec. reflexivity.
  - unfold mbind, M_bind, throw. rewrite release_spec. reflexivity.
Qed.

Example camera_bound_holds :
  _input camera_bound.2 = Some 7%nat /\ _input_ac camera_bound.2 = Some 7%nat /\
  refs (active_refs camera_bound.1) 7%nat = 1 /\
  refs (showing_refs camera_bound.1) 7%nat = 1 /\
  active_children camera_bound.1 = [7%nat].
Proof. vm_compute. repeat split; reflexivity. Qed.

(** C8 as stated fails where the filter is already bound: an attempt that
    cannot be resolved ends in [release], which drops the references held
    on the source bound so far, so its counts do not return to their
    pre-attempt values. *)
Lemma failed_acquire_lowers_counts :
  acquisition_fails gone_env "Gone" /\
  (acquire gone_env "Gone" camera_bound).1 = Return false /\
  ~ (refs (active_refs (acquire gone_env "Gone" camera_bound).2.1) 7%nat
       = refs (active_refs camera_bound.1) 7%nat /\
     refs (showing_refs (acquire gone_env "Gone" camera_bound).2.1) 7%nat
       = refs (showing_refs camera_bound.1) 7%nat).
Proof.
  split; [exact I|]. split; [vm_compute; reflexivity|].
  vm_compute. intros [H _]. discriminate H.
Qed.

(** C8, amended: an acquisition attempt whose resolution fails, or which
    would create a render cycle, returns failure and leaves the binding
    unbound -- source reference, cycle-guard child and visibility/activity
    references all dropped.  It takes no reference on the source it tried to
    acquire and drops exactly those the binding held before the attempt: each
    count is its pre-attempt value less the reference held on that source, so
    when nothing was bound before the attempt the host is exactly as it was.
    [release] is idempotent: any number of calls, from any state, leaves the
    unbound state of the first. *)
Theorem failed_acquire_leaves_unbound e name s :
  acquisition_fails e name ->
  (acquire e name s).1 = Return false /\
  unbound (acquire e name s).2.2 /\
  (forall x,
     refs (active_refs (acquire e name s).2.1) x =
       refs (active_refs s.1) x
       - (if bool_decide (lock (source_alive e) (_input_ac s.2) = Some x) then 1 else 0) /\
     refs (showing_refs (acquire e name s).2.1) x =
       refs (showing_refs s.1) x
       - (if bool_decide (lock (source_alive e) (_input_vs s.2) = Some x) then 1 else 0)) /\
  active_children (acquire e name s).2.1 =
    match lock (source_alive e) (_input_child s.2) with
    | Some c => remove_child c (active_children s.1)
    | None => active_children s.1
    end /\
  (unbound s.2 -> (acquire e name s).2 = s) /\
  (forall s0 n,
     unbound (release e s0).2.2 /\
     Nat.iter (S n) (fun st => (release e st).2) s0 = (release e s0).2).
Proof.
  intros Hf. rewrite (acquire_failure e name s Hf). cbn [fst snd].
  split; [reflexivity|]. split; [apply release_unbinds|].
  split; [|split; [|split]].
  - intros x. destruct s as [h i]. rewrite release_spec. cbn [fst snd].
    unfold released_host. cbn [active_refs showing_refs].
    split; apply refs_dropped.
  - destruct s as [h i]. rewrite release_spec. reflexivity.
  - intros Hu. rewrite (release_unbound_noop e s Hu). reflexivity.
  - intros s0 n. split; [apply release_unbinds|].
    induction n as [|n IH]; [reflexivity|].
    change (Nat.iter (S (S n)) (fun st => (release e st).2) s0)
      with ((release e (Nat.iter (S n) (fun st => (release e st).2) s0)).2).
    rewrite IH. rewrite (release_unbound_noop e _ (release_unbinds e s0)). reflexivity.
Qed.

Lemma failed_acquire_leaves_unbound_witness :
  acquisition_fails gone_env "Gone" /\
  (acquire gone_env "Gone" camera_bound).1 = Return false /\
  unbound (acquire gone_env "Gone" camera_bound).2.2.
Proof.
  split; [exact I|].
  split; [exact (proj1 (failed_acquire_leaves_unbound gone_env "Gone" camera_bound I))|].
  exact (proj1 (proj2 (failed_acquire_leaves_unbound gone_env "Gone" camera_bound I))).
Defined.

(** ** Parameters: [update], [save], [get_defaults2] *)

Lemma alter_Some {K A} `{Countable K} (f : A -> A) (m : gmap K A) i x :
  m !! i = Some x -> alter f i m = <[i := f x]> m.
Proof.
  intros Hm. apply map_eq. intros j.
  rewrite lookup_alter, lookup_insert.
  destruct (decide (i = j)) as [->|]; [rewrite Hm|]; reflexivity.
Qed.

Lemma obs_data_get_set_double d k v k' :
  obs_data_get_double (obs_data_set_double d k v) k' =
    if decide (k = k') then v else obs_data_get_double d k'.
Proof.
  unfold obs_data_get_double, obs_data_set_double. cbn.
  rewrite lookup_insert. destruct (decide (k = k')); reflexivity.
Qed.

(** If every write stores [g key] under [key], then after all of them every
    written key reads [g key], whatever the order and however often a key
    occurs. *)
Lemma obs_data_get_set_doubles (g : string -> binary64) ws d k :
  (forall kv, kv ∈ ws -> kv.2 = g kv.1) ->
  k ∈ ws.*1 ->
  obs_data_get_double (obs_data_set_doubles ws d) k = g k.
Proof.
  unfold obs_data_set_doubles.
  induction ws as [|[k0 v0] ws IH] using rev_ind; intros Hg Hk.
  - inversion Hk.
  - rewrite fold_left_app. cbn [fold_left fst snd].
    rewrite obs_data_get_set_double.
    destruct (decide (k0 = k)) as [->|Hne].
    + apply (Hg (k, v0)). apply elem_of_app. right. apply list_elem_of_singleton.
      reflexivity.
    + apply IH.
      * intros kv Hkv. apply Hg. apply elem_of_app. left. exact Hkv.
      * rewrite fmap_app in Hk. apply elem_of_app in Hk as [Hk|Hk]; [exact Hk|].
        cbn in Hk. apply list_elem_of_singleton in Hk. congruence.
Qed.

Lemma obs_data_set_doubles_ints ws d :
  d_ints (obs_data_set_doubles ws d) = d_ints d.
Proof.
  unfold obs_data_set_doubles. revert d.
  induction ws as [|kv ws IH]; intros d; [reflexivity|].
  cbn [fold_left]. rewrite IH. reflexivity.
Qed.

(** The same for a run of default registrations, all of which agree on
    the key looked up. *)
Lemma lookup_after_inserts (ws : list (string * binary64)) (m : gmap string binary64) k v :
  (forall kv, kv ∈ ws -> kv.1 = k -> kv.2 = v) ->
  k ∈ ws.*1 ->
  fold_left (fun m kv => <[kv.1 := kv.2]> m) ws m !! k = Some v.
Proof.
  induction ws as [|[k0 v0] ws IH] using rev_ind; intros Hg Hk.
  - inversion Hk.
  - rewrite fold_left_app. cbn [fold_left fst snd].
    rewrite lookup_insert.
    destruct (decide (k0 = k)) as [->|Hne].
    + f_equal. apply (Hg (k, v0)); [|reflexivity].
      apply elem_of_app. right. apply list_elem_of_singleton. reflexivity.
    + apply IH.
      * intros kv Hkv. apply Hg. apply elem_of_app. left. exact Hkv.
      * rewrite fmap_app in Hk. apply elem_of_app in Hk as [Hk|Hk]; [exact Hk|].
        cbn in Hk. apply list_elem_of_singleton in Hk. congruence.
Qed.

(** The three families of keys differ in their 28th character. *)
Lemma chv_key_not_ab_key a b c : chv_key a <> ab_key b c.
Proof.
  intros H. apply (f_equal (String.get 27)) in H. cbv in H. discriminate H.
Qed.

Lemma chm_key_not_ab_key a b c : chm_key a <> ab_key b c.
Proof.
  intros H. apply (f_equal (String.get 27)) in H. cbv in H. discriminate H.
Qed.

Section ParameterFacts.
Variables S_CHANNEL_RED S_CHANNEL_GREEN S_CHANNEL_BLUE S_CHANNEL_ALPHA : string.
Variable channel_data_init : channel_data.

Local Abbreviation with_names f :=
  (f S_CHANNEL_RED S_CHANNEL_GREEN S_CHANNEL_BLUE S_CHANNEL_ALPHA) (only parsing).
Local Abbreviation translations := (with_names channel_translations).

Ltac update_steps :=
  cbv beta iota zeta delta
    [update_channel save_channel find_or_insert found_second update_found update_precalc
     for_each for_each_with channel_translations channel_index
     vec4_ptr vec4_ptr_set matrix_row set_matrix_row
     set_value set_scale set_values set_p_base set_p_scale set_p_matrix
     value scale values p_base p_scale p_matrix vx vy vz vw mx my mz mt
     read_channel precalc_channel
     mbind M_bind mret M_ret get_inst modify_inst throw fst snd
     default from_option id fmap option_fmap option_map
     _channels _precalc set_channels set_precalc
     _input _input_child _input_vs _input_ac _have_base _base_rt _base_tex
     _base_color_space _base_color_format _base_srgb _have_input _input_rt
     _input_tex _input_color_space _input_color_format _input_srgb _have_final
     _final_rt _final_tex _final_srgb _debug_texture].

Lemma update_channel_spec settings c name h i :
  update_channel S_CHANNEL_RED S_CHANNEL_GREEN S_CHANNEL_BLUE S_CHANNEL_ALPHA
      channel_data_init settings (c, name) (h, i) =
    (Return tt,
     (h, set_precalc (precalc_channel c (with_names read_channel settings name) (_precalc i))
           (set_channels (<[c := with_names read_channel settings name]> (_channels i)) i))).
Proof.
  destruct i. destruct _precalc0 as [[] [] [[] [] [] []]].
  destruct c; update_steps;
    (destruct (_channels0 !! _) as [d|] eqn:Hm;
     [| rewrite lookup_insert_eq ];
     repeat (update_steps; rewrite ?lookup_alter_eq, ?lookup_insert_eq, ?Hm);
     update_steps).
  all: rewrite ?(alter_Some _ _ _ _ Hm), ?alter_insert_eq, ?insert_insert_eq.
  all: update_steps; reflexivity.
Qed.

(** Rebinding the input returns normally and leaves the parameters alone. *)
Lemma update_source_spec e (v : string) s :
  exists s',
    (if negb (String.eqb v "") then
       acquired ← acquire e v;
       when (negb acquired) (call (log_error "Failed to acquire Input source."))
     else release e) s = (Return tt, s') /\
    _channels s'.2 = _channels s.2 /\ _precalc s'.2 = _precalc s.2.
Proof.
  destruct s as [h i]. destruct (negb (String.eqb v "")).
  - destruct h, i. unfold when, call. binding_steps.
    repeat (match goal with
            | |- context [get_source_by_name ?e ?n] => destruct (get_source_by_name e n)
            | |- context [lock ?a ?w] => destruct (lock a w)
            | |- context [add_active_child ?e ?c] => destruct (add_active_child e c)
            | |- context [self_active ?e] => destruct (self_active e)
            | |- context [parent_active ?e] => destruct (parent_active e)
            | |- context [self_showing ?e] => destruct (self_showing e)
            | |- context [parent_showing ?e] => destruct (parent_showing e)
            end; cbn [negb orb]; binding_steps).
    all: eexists; split; [reflexivity|split; reflexivity].
  - rewrite release_spec. eexists. split; [reflexivity|]. split; reflexivity.
Qed.

(** [update] never throws, and what it stores is a function of the
    settings alone: every channel entry and all of [_precalc] are
    overwritten. *)
Lemma update_spec e settings s :
  exists s',
    update S_CHANNEL_RED S_CHANNEL_GREEN S_CHANNEL_BLUE S_CHANNEL_ALPHA
      channel_data_init e settings s = (Return tt, s') /\
    _channels s'.2 = with_names stored_channels settings (_channels s.2) /\
    _precalc s'.2 = with_names stored_precalc settings /\
    _debug_texture s'.2 = obs_data_get_int settings ST_KEY_DEBUG_TEXTURE.
Proof.
  destruct (update_source_spec e (obs_data_get_string settings ST_KEY_INPUT) s)
    as ([h1 i1] & Hsrc & Hc & Hp).
  unfold update. cbv zeta.
  unfold mbind at 1. unfold M_bind at 1. rewrite Hsrc.
  unfold channel_translations. cbn [for_each].
  unfold mbind, M_bind, mret, M_ret, modify_inst.
  do 4 (rewrite update_channel_spec; cbv beta iota). cbn [fst snd].
  eexists. split; [reflexivity|]. cbn [snd] in Hc, Hp |- *.
  split; [|split].
  - cbn [_channels set_debug_texture set_precalc set_channels]. rewrite Hc. reflexivity.
  - cbn [_precalc set_debug_texture set_precalc set_channels]. rewrite Hp.
    destruct (_precalc s.2) as [[] [] [[] [] [] []]]. reflexivity.
  - reflexivity.
Qed.

Lemma save_channel_spec settings c name d h i :
  _channels i !! c = Some d ->
  save_channel S_CHANNEL_RED S_CHANNEL_GREEN S_CHANNEL_BLUE S_CHANNEL_ALPHA
      channel_data_init settings (c, name) (h, i) =
    (Return (obs_data_set_doubles (with_names channel_writes name d) settings), (h, i)).
Proof.
  destruct i. cbn [_channels]. intros Hm.
  unfold obs_data_set_doubles, channel_writes. cbn [fold_left].
  update_steps. rewrite Hm. update_steps. rewrite !Hm. update_steps. reflexivity.
Qed.

(** [save] on a filter whose four channel entries exist writes their
    contents and changes nothing in the filter. *)
Lemma save_spec e settings s dr dg db da :
  _channels s.2 !! Red = Some dr -> _channels s.2 !! Green = Some dg ->
  _channels s.2 !! Blue = Some db -> _channels s.2 !! Alpha = Some da ->
  exists settings0,
    save S_CHANNEL_RED S_CHANNEL_GREEN S_CHANNEL_BLUE S_CHANNEL_ALPHA
      channel_data_init e settings s =
      (Return (obs_data_set_doubles
                 (with_names channel_writes S_CHANNEL_RED dr ++ with_names channel_writes S_CHANNEL_GREEN dg ++
                  with_names channel_writes S_CHANNEL_BLUE db ++ with_names channel_writes S_CHANNEL_ALPHA da)
                 settings0), s) /\
    d_ints settings0 = d_ints settings.
Proof.
  destruct s as [h i]. cbn [snd]. intros Hr Hg Hb Ha.
  unfold save. unfold mbind at 1. unfold M_bind at 1, get_inst at 1. cbn [snd].
  exists (match lock (source_alive e) (_input i) with
          | Some source => obs_data_set_string settings ST_KEY_INPUT (source_name e source)
          | None => settings
          end).
  split; [|destruct (lock (source_alive e) (_input i)); reflexivity].
  unfold channel_translations. cbn [for_each_with].
  unfold mbind, M_bind, mret, M_ret.
  rewrite (save_channel_spec _ _ _ _ _ _ Hr); cbv beta iota.
  rewrite (save_channel_spec _ _ _ _ _ _ Hg); cbv beta iota.
  rewrite (save_channel_spec _ _ _ _ _ _ Hb); cbv beta iota.
  rewrite (save_channel_spec _ _ _ _ _ _ Ha); cbv beta iota.
  unfold obs_data_set_doubles. rewrite !fold_left_app. reflexivity.
Qed.

Lemma stored_channels_lookup settings m :
  with_names stored_channels settings m !! Red = Some (with_names read_channel settings S_CHANNEL_RED) /\
  with_names stored_channels settings m !! Green = Some (with_names read_channel settings S_CHANNEL_GREEN) /\
  with_names stored_channels settings m !! Blue = Some (with_names read_channel settings S_CHANNEL_BLUE) /\
  with_names stored_channels settings m !! Alpha = Some (with_names read_channel settings S_CHANNEL_ALPHA).
Proof.
  unfold stored_channels.
  repeat split;
    repeat first [ apply lookup_insert_eq | rewrite lookup_insert_ne by discriminate ].
Qed.

(** C3: when each of the sixteen weights, four offsets and four scales in
    the settings is a finite binary32 number -- inside the slider range or
    not -- [update] followed by [save] writes back, under every key
    [update] reads as a number, exactly the value the settings gave; no
    value is clamped on the way.  ([save] writes no integer item, so a
    settings object saved into keeps its debug selector.) *)
Theorem update_then_save_round_trips e e' settings out s :
  (forall k, k ∈ with_names numeric_keys ->
     exists f, is_finite32 f = true /\ obs_data_get_double settings k = to_double f) ->
  exists s1 out',
    update S_CHANNEL_RED S_CHANNEL_GREEN S_CHANNEL_BLUE S_CHANNEL_ALPHA
      channel_data_init e settings s = (Return tt, s1) /\
    save S_CHANNEL_RED S_CHANNEL_GREEN S_CHANNEL_BLUE S_CHANNEL_ALPHA
      channel_data_init e' out s1 = (Return out', s1) /\
    (forall k, k ∈ with_names numeric_keys ->
       obs_data_get_double out' k = obs_data_get_double settings k) /\
    d_ints out' = d_ints out.
Proof.
  intros Hfin.
  destruct (update_spec e settings s) as (s1 & Hu & Hc & _).
  destruct (stored_channels_lookup settings (_channels s.2)) as (Hr & Hg & Hb & Ha).
  rewrite <- Hc in Hr, Hg, Hb, Ha.
  destruct (save_spec e' out s1 _ _ _ _ Hr Hg Hb Ha) as (out0 & Hs & Hints).
  eexists s1, _. split; [exact Hu|]. split; [exact Hs|].
  split; [|rewrite obs_data_set_doubles_ints; exact Hints].
  intros k Hk.
  rewrite (obs_data_get_set_doubles
             (fun k => to_double (to_float (obs_data_get_double settings k)))).
  - destruct (Hfin k Hk) as (f & Hf & ->). rewrite (to_float_to_double f Hf).
    reflexivity.
  - intros kv Hkv. unfold channel_writes, read_channel in Hkv. cbn in Hkv.
    repeat (apply elem_of_cons in Hkv as [->|Hkv]; [reflexivity|]).
    inversion Hkv.
  - exact Hk.
Qed.

Lemma get_defaults2_doubles data :
  d_doubles (get_defaults2 S_CHANNEL_RED S_CHANNEL_GREEN S_CHANNEL_BLUE
               S_CHANNEL_ALPHA data) = d_doubles data /\
  d_default_doubles (get_defaults2 S_CHANNEL_RED S_CHANNEL_GREEN S_CHANNEL_BLUE
                       S_CHANNEL_ALPHA data) =
    fold_left (fun m kv => <[kv.1 := kv.2]> m) (with_names registered_defaults)
      (d_default_doubles data).
Proof. split; reflexivity. Qed.

Lemma registered_default_families kv :
  kv ∈ with_names registered_defaults ->
  (exists a, kv.1 = chv_key a /\ kv.2 = d_one) \/
  (exists a, kv.1 = chm_key a /\ kv.2 = d_one) \/
  (exists a b, kv.1 = ab_key a b /\ kv.2 = d_zero).
Proof.
  unfold registered_defaults, channel_defaults. cbn [app].
  intros Hkv.
  repeat (apply elem_of_cons in Hkv as [->|Hkv];
          [ first [ left; eexists; split; reflexivity
                  | right; left; eexists; split; reflexivity
                  | right; right; eexists _, _; split; reflexivity ] |]).
  inversion Hkv.
Qed.

(** A key the user's settings do not hold reads as its registered
    default: one for an offset or a scale, zero for a weight. *)
Lemma get_defaults2_absent data k v :
  k ∈ with_names numeric_keys -> d_doubles data !! k = None ->
  (forall kv, kv ∈ with_names registered_defaults -> kv.1 = k -> kv.2 = v) ->
  obs_data_get_double
    (get_defaults2 S_CHANNEL_RED S_CHANNEL_GREEN S_CHANNEL_BLUE S_CHANNEL_ALPHA data) k
  = v.
Proof.
  intros Hk Hnone Hv. unfold obs_data_get_double.
  destruct (get_defaults2_doubles data) as [-> ->]. rewrite Hnone.
  rewrite (lookup_after_inserts _ _ _ v Hv); [reflexivity|exact Hk].
Qed.

Lemma default_offset data name :
  chv_key name ∈ with_names numeric_keys -> d_doubles data !! chv_key name = None ->
  obs_data_get_double
    (get_defaults2 S_CHANNEL_RED S_CHANNEL_GREEN S_CHANNEL_BLUE S_CHANNEL_ALPHA data)
    (chv_key name) = d_one.
Proof.
  intros Hk Hn. apply get_defaults2_absent; [exact Hk|exact Hn|].
  intros kv Hkv Heq.
  destruct (registered_default_families kv Hkv)
    as [(a & _ & ->)|[(a & _ & ->)|(a & b & Hab & _)]]; [reflexivity|reflexivity|].
  rewrite Hab in Heq. symmetry in Heq. destruct (chv_key_not_ab_key _ _ _ Heq).
Qed.

Lemma default_scale data name :
  chm_key name ∈ with_names numeric_keys -> d_doubles data !! chm_key name = None ->
  obs_data_get_double
    (get_defaults2 S_CHANNEL_RED S_CHANNEL_GREEN S_CHANNEL_BLUE S_CHANNEL_ALPHA data)
    (chm_key name) = d_one.
Proof.
  intros Hk Hn. apply get_defaults2_absent; [exact Hk|exact Hn|].
  intros kv Hkv Heq.
  destruct (registered_default_families kv Hkv)
    as [(a & _ & ->)|[(a & _ & ->)|(a & b & Hab & _)]]; [reflexivity|reflexivity|].
  rewrite Hab in Heq. symmetry in Heq. destruct (chm_key_not_ab_key _ _ _ Heq).
Qed.

Lemma default_weight data name name2 :
  ab_key name name2 ∈ with_names numeric_keys -> d_doubles data !! ab_key name name2 = None ->
  obs_data_get_double
    (get_defaults2 S_CHANNEL_RED S_CHANNEL_GREEN S_CHANNEL_BLUE S_CHANNEL_ALPHA data)
    (ab_key name name2) = d_zero.
Proof.
  intros Hk Hn. apply get_defaults2_absent; [exact Hk|exact Hn|].
  intros kv Hkv Heq.
  destruct (registered_default_families kv Hkv)
    as [(a & Ha & _)|[(a & Ha & _)|(a & b & _ & ->)]]; [| |reflexivity].
  - rewrite Ha in Heq. destruct (chv_key_not_ab_key _ _ _ Heq).
  - rewrite Ha in Heq. destruct (chm_key_not_ab_key _ _ _ Heq).
Qed.

Lemma translations_cases c name :
  (c, name) ∈ translations ->
  (c = Red /\ name = S_CHANNEL_RED) \/ (c = Green /\ name = S_CHANNEL_GREEN) \/
  (c = Blue /\ name = S_CHANNEL_BLUE) \/ (c = Alpha /\ name = S_CHANNEL_ALPHA).
Proof.
  unfold channel_translations. rewrite !elem_of_cons.
  intros [H|[H|[H|[H|H]]]]; [..|inversion H]; inversion H; auto.
Qed.

(** C2, amended: [update] is total -- from every state and for every
    settings object it returns, without throwing -- and a key that is
    absent from the settings takes the default [get_defaults2] registers
    for it: zero for each of a channel's four weights, and 1.0 for the
    channel's scale and for the channel's offset. *)
Theorem update_total_with_defaults e data s c name :
  (c, name) ∈ translations ->
  exists s' d,
    update S_CHANNEL_RED S_CHANNEL_GREEN S_CHANNEL_BLUE S_CHANNEL_ALPHA
      channel_data_init e
      (get_defaults2 S_CHANNEL_RED S_CHANNEL_GREEN S_CHANNEL_BLUE S_CHANNEL_ALPHA data) s
      = (Return tt, s') /\
    _channels s'.2 !! c = Some d /\
    (d_doubles data !! chv_key name = None -> value d = to_float d_one) /\
    (d_doubles data !! chm_key name = None -> scale d = to_float d_one) /\
    (forall c2 name2, (c2, name2) ∈ translations ->
       d_doubles data !! ab_key name name2 = None ->
       vec4_ptr (values d) (channel_index c2) = to_float d_zero).
Proof.
  intros Hc.
  set (settings := get_defaults2 S_CHANNEL_RED S_CHANNEL_GREEN S_CHANNEL_BLUE
                     S_CHANNEL_ALPHA data).
  destruct (update_spec e settings s) as (s' & Hu & Hch & _).
  destruct (stored_channels_lookup settings (_channels s.2)) as (Hr & Hg & Hb & Ha).
  rewrite <- Hch in Hr, Hg, Hb, Ha.
  exists s', (with_names read_channel settings name). split; [exact Hu|].
  assert (Hkeys : forall k, k ∈ with_names channel_keys name -> k ∈ with_names numeric_keys).
  { intros k Hk. unfold numeric_keys. rewrite !elem_of_app.
    destruct (translations_cases c name Hc) as [[_ ->]|[[_ ->]|[[_ ->]|[_ ->]]]];
      tauto. }
  split.
  { destruct (translations_cases c name Hc) as [[-> ->]|[[-> ->]|[[-> ->]|[-> ->]]]];
      assumption. }
  split; [|split].
  - intros Hn. cbn [value read_channel]. f_equal.
    apply default_offset; [|exact Hn]. apply Hkeys.
    unfold channel_keys. rewrite !elem_of_cons. tauto.
  - intros Hn. cbn [scale read_channel]. f_equal.
    apply default_scale; [|exact Hn]. apply Hkeys.
    unfold channel_keys. rewrite !elem_of_cons. tauto.
  - intros c2 name2 Hc2 Hn.
    assert (Hd : obs_data_get_double settings (ab_key name name2) = d_zero).
    { apply default_weight; [|exact Hn]. apply Hkeys.
      unfold channel_keys. rewrite !elem_of_cons.
      destruct (translations_cases c2 name2 Hc2) as [[_ ->]|[[_ ->]|[[_ ->]|[_ ->]]]];
        tauto. }
    destruct (translations_cases c2 name2 Hc2) as [[-> ->]|[[-> ->]|[[-> ->]|[-> ->]]]];
      cbn; rewrite Hd; reflexivity.
Qed.
End ParameterFacts.

(** ** The parameters on concrete channel names *)

(** C2 as stated fails for the offset: with no key set by the user, the
    offset [update] stores for the red channel is the registered default
    1.0, not zero. *)
Lemma update_absent_offset_is_one :
  d_doubles (get_defaults2_named empty_data) !! chv_key "Red" = None /\
  value <$> (_channels
               (update_named gone_env (get_defaults2_named empty_data)
                  (initial_host, initial_instance)).2.2 !! Red)
    = Some (B32 false 127 0) /\
  to_float d_zero = B32 false 0 0 /\
  ~ (value <$> (_channels
                  (update_named gone_env (get_defaults2_named empty_data)
                     (initial_host, initial_instance)).2.2 !! Red)
       = Some (to_float d_zero)).
Proof.
  split; [reflexivity|]. split; [vm_compute; reflexivity|].
  split; [reflexivity|]. vm_compute. discriminate.
Qed.

Lemma update_total_with_defaults_witness :
  (Red, "Red"%string) ∈ channel_translations "Red" "Green" "Blue" "Alpha" /\
  d_doubles empty_data !! chv_key "Red" = None /\
  exists s' d,
    update_named gone_env (get_defaults2_named empty_data)
      (initial_host, initial_instance) = (Return tt, s') /\
    _channels s'.2 !! Red = Some d /\ value d = to_float d_one.
Proof.
  split; [apply list_elem_of_here|]. split; [reflexivity|].
  destruct (update_total_with_defaults "Red" "Green" "Blue" "Alpha" fresh_channel_data
              gone_env empty_data (initial_host, initial_instance) Red "Red"
              (list_elem_of_here _ _))
    as (s' & d & Hu & Hd & Hv & _).
  exists s', d. split; [exact Hu|]. split; [exact Hd|]. apply Hv. reflexivity.
Defined.

Example offset_1000_is_float :
  B64 false 1032 4292493394837504 = to_double (B32 false 136 7995392).
Proof. vm_compute. reflexivity. Qed.

Lemma update_then_save_round_trips_witness :
  (forall k, k ∈ numeric_keys "Red" "Green" "Blue" "Alpha" ->
     exists f, is_finite32 f = true /\ obs_data_get_double offset_1000 k = to_double f) /\
  exists s1 out',
    update_named gone_env offset_1000 (initial_host, initial_instance) = (Return tt, s1) /\
    save_named gone_env empty_data s1 = (Return out', s1) /\
    obs_data_get_double out' (chv_key "Red") = B64 false 1032 4292493394837504.
Proof.
  assert (Hfin : forall k, k ∈ numeric_keys "Red" "Green" "Blue" "Alpha" ->
            exists f, is_finite32 f = true /\
                      obs_data_get_double offset_1000 k = to_double f).
  { intros k Hk. exists (to_float (obs_data_get_double offset_1000 k)).
    unfold numeric_keys, channel_keys in Hk. cbn [app] in Hk.
    repeat (apply elem_of_cons in Hk as [->|Hk]; [vm_compute; split; reflexivity|]).
    inversion Hk. }
  split; [exact Hfin|].
  destruct (update_then_save_round_trips "Red" "Green" "Blue" "Alpha" fresh_channel_data
              gone_env gone_env offset_1000 empty_data (initial_host, initial_instance)
              Hfin) as (s1 & out' & Hu & Hs & Hget & _).
  exists s1, out'. split; [exact Hu|]. split; [exact Hs|].
  rewrite Hget; [reflexivity|].
  unfold numeric_keys, channel_keys. cbn [app]. apply list_elem_of_here.
Defined.

(** ** Rendering: what every call leaves as it found it *)

Lemma same_configuration_refl i : same_configuration i i.
Proof. repeat split. Qed.

Lemma same_configuration_trans i1 i2 i3 :
  same_configuration i1 i2 -> same_configuration i2 i3 -> same_configuration i1 i3.
Proof.
  unfold same_configuration. intros H12 H23.
  repeat match goal with H : _ /\ _ |- _ => destruct H end.
  repeat split; congruence.
Qed.

Lemma capture_base_configuration e s :
  same_configuration s.2 (capture_base e s).2.2.
Proof.
  destruct (capture_base_frame e s) as [Hf _]. rewrite Hf. repeat split.
Qed.

Lemma capture_input_configuration e input s :
  same_configuration s.2 (capture_input e input s).2.2.
Proof.
  destruct input as [src|].
  - destruct (capture_input_frame e src s) as [Hf _]. rewrite Hf. repeat split.
  - rewrite capture_input_alias. destruct (_have_input s.2); repeat split.
Qed.

Lemma capture_final_configuration e s :
  same_configuration s.2 (capture_final e s).2.2.
Proof.
  destruct (capture_final_frame e s) as [Hf _]. rewrite Hf. repeat split.
Qed.

Lemma debug_texture_override_configuration s :
  same_configuration s.2 (debug_texture_override s).2.2.
Proof.
  destruct (debug_texture_override_spec s) as (_ & Hf & _). rewrite Hf. repeat split.
Qed.

(** A render call changes the three captured frames and nothing else in the
    filter. *)
Lemma video_render_configuration e s :
  same_configuration s.2 (video_render e s).2.2.
Proof.
  destruct (nothing_to_render e (lock (render_alive e) (_input s.2))) eqn:Hg.
  - rewrite (video_render_guarded e s Hg). apply same_configuration_refl.
  - destruct (video_render_after_captures e s Hg) as (_ & -> & _).
    eapply same_configuration_trans; [|apply debug_texture_override_configuration].
    unfold after_captures.
    eapply same_configuration_trans; [|apply capture_final_configuration].
    eapply same_configuration_trans; [|apply capture_input_configuration].
    apply capture_base_configuration.
Qed.

(** ** Per-tick negotiation, continued *)

Ltac tick_steps :=
  cbv -[Z.land Z.eqb Z.leb lock OBS_SOURCE_SRGB GS_CS_SRGB_16F GS_CS_SRGB
        GS_CS_709_EXTENDED GS_CS_709_SCRGB tick_alive
        target_color_space target_output_flags input_color_space input_output_flags].

(** The format the [switch] of [video_tick] picks for a colour space. *)
Lemma tick_format_cases (cs : gs_color_space) :
  let f := if cs =? GS_CS_SRGB then GS_RGBA
           else if (cs =? GS_CS_SRGB_16F) || (cs =? GS_CS_709_EXTENDED)
                   || (cs =? GS_CS_709_SCRGB) then GS_RGBA16F
           else GS_RGBA_UNORM in
  (f = GS_RGBA <-> cs = GS_CS_SRGB) /\
  (f = GS_RGBA16F <->
     cs = GS_CS_SRGB_16F \/ cs = GS_CS_709_EXTENDED \/ cs = GS_CS_709_SCRGB) /\
  (f = GS_RGBA_UNORM <-> (cs < GS_CS_SRGB \/ GS_CS_709_SCRGB < cs)).
Proof.
  unfold GS_CS_SRGB, GS_CS_SRGB_16F, GS_CS_709_EXTENDED, GS_CS_709_SCRGB. cbv zeta.
  destruct (Z.eqb_spec cs 0); [repeat split; intros; try discriminate; lia|].
  destruct (Z.eqb_spec cs 1); [repeat split; intros; try discriminate; auto; lia|].
  destruct (Z.eqb_spec cs 2); [repeat split; intros; try discriminate; auto; lia|].
  destruct (Z.eqb_spec cs 3); [repeat split; intros; try discriminate; auto; lia|].
  cbn. repeat split; intros; try discriminate; try lia.
Qed.

Lemma video_tick_formats_eq e s :
  let i' := (video_tick e s).2.2 in
  _base_color_format i' =
    (if target_color_space e =? GS_CS_SRGB then GS_RGBA
     else if (target_color_space e =? GS_CS_SRGB_16F)
             || (target_color_space e =? GS_CS_709_EXTENDED)
             || (target_color_space e =? GS_CS_709_SCRGB) then GS_RGBA16F
     else GS_RGBA_UNORM) /\
  forall src, lock (tick_alive e) (_input s.2) = Some src ->
    _input_color_format i' =
      (if input_color_space e src =? GS_CS_SRGB then GS_RGBA
       else if (input_color_space e src =? GS_CS_SRGB_16F)
               || (input_color_space e src =? GS_CS_709_EXTENDED)
               || (input_color_space e src =? GS_CS_709_SCRGB) then GS_RGBA16F
       else GS_RGBA_UNORM).
Proof.
  destruct s as [h i]; destruct i.
  split.
  - tick_steps.
    match goal with |- context [lock ?a ?w] => destruct (lock a w) end;
      repeat match goal with
             | |- context [if Z.land ?a ?b =? ?c then _ else _] =>
                 destruct (Z.land a b =? c)
             end; reflexivity.
  - intros src Hl. simpl in Hl. tick_steps. rewrite Hl.
    repeat match goal with
           | |- context [if Z.land ?a ?b =? ?c then _ else _] =>
               destruct (Z.land a b =? c)
           end; reflexivity.
Qed.

(** What a tick leaves alone, and the two flags the mixing pass waits
    for. *)
Lemma video_tick_keeps e s :
  let s' := (video_tick e s).2 in
  (video_tick e s).1 = Return tt /\ s'.1 = s.1 /\
  (_input s'.2 = _input s.2 /\ _input_child s'.2 = _input_child s.2 /\
   _input_vs s'.2 = _input_vs s.2 /\ _input_ac s'.2 = _input_ac s.2) /\
  (_channels s'.2 = _channels s.2 /\ _precalc s'.2 = _precalc s.2 /\
   _debug_texture s'.2 = _debug_texture s.2) /\
  (_have_base s'.2 = false /\ _have_final s'.2 = false) /\
  (lock (tick_alive e) (_input s.2) = None -> _input_srgb s'.2 = _input_srgb s.2).
Proof.
  destruct s as [h i]; destruct i.
  tick_steps.
  match goal with |- context [lock ?a ?w] => destruct (lock a w) end;
    repeat match goal with
           | |- context [if Z.land ?a ?b =? ?c then _ else _] =>
               destruct (Z.land a b =? c)
           end;
    repeat split; try reflexivity; intros; discriminate.
Qed.

(** X1: the colour-space to format table is total and unambiguous, for the base
    and for a bound input alike: the plain 8-bit format exactly for
    [GS_CS_SRGB], the 16-bit float format exactly for the three other known
    spaces, the non-colour-managed 8-bit format exactly for anything else. *)
Theorem video_tick_format_table e s :
  let i' := (video_tick e s).2.2 in
  ((_base_color_format i' = GS_RGBA <-> target_color_space e = GS_CS_SRGB) /\
   (_base_color_format i' = GS_RGBA16F <->
      target_color_space e = GS_CS_SRGB_16F \/
      target_color_space e = GS_CS_709_EXTENDED \/
      target_color_space e = GS_CS_709_SCRGB) /\
   (_base_color_format i' = GS_RGBA_UNORM <->
      (target_color_space e < GS_CS_SRGB \/ GS_CS_709_SCRGB < target_color_space e))) /\
  forall src, lock (tick_alive e) (_input s.2) = Some src ->
    (_input_color_format i' = GS_RGBA <-> input_color_space e src = GS_CS_SRGB) /\
    (_input_color_format i' = GS_RGBA16F <->
       input_color_space e src = GS_CS_SRGB_16F \/
       input_color_space e src = GS_CS_709_EXTENDED \/
       input_color_space e src = GS_CS_709_SCRGB) /\
    (_input_color_format i' = GS_RGBA_UNORM <->
       (input_color_space e src < GS_CS_SRGB \/ GS_CS_709_SCRGB < input_color_space e src)).
Proof.
  destruct (video_tick_formats_eq e s) as [Hb Hi]. cbv zeta in *.
  split.
  - rewrite Hb. apply tick_format_cases.
  - intros src Hl. rewrite (Hi src Hl). apply tick_format_cases.
Qed.

(** X2: a tick clears the validity of all three captured frames, copies the
    base's sRGB choice to the final frame, and keeps everything else the
    filter caches: textures, render targets, parameters, debug selector and
    binding; the host is not touched.  With no input bound, what was
    negotiated for the input earlier stays as it is. *)
Theorem video_tick_invalidates e s :
  let s' := (video_tick e s).2 in
  (video_tick e s).1 = Return tt /\ s'.1 = s.1 /\
  (_have_base s'.2 = false /\ _have_input s'.2 = false /\ _have_final s'.2 = false) /\
  _final_srgb s'.2 = _base_srgb s'.2 /\
  (_base_rt s'.2 = _base_rt s.2 /\ _base_tex s'.2 = _base_tex s.2 /\
   _input_rt s'.2 = _input_rt s.2 /\ _input_tex s'.2 = _input_tex s.2 /\
   _final_rt s'.2 = _final_rt s.2 /\ _final_tex s'.2 = _final_tex s.2) /\
  (_channels s'.2 = _channels s.2 /\ _precalc s'.2 = _precalc s.2 /\
   _debug_texture s'.2 = _debug_texture s.2) /\
  (_input s'.2 = _input s.2 /\ _input_child s'.2 = _input_child s.2 /\
   _input_vs s'.2 = _input_vs s.2 /\ _input_ac s'.2 = _input_ac s.2) /\
  (lock (tick_alive e) (_input s.2) = None ->
   _input_color_space s'.2 = _input_color_space s.2 /\
   _input_color_format s'.2 = _input_color_format s.2 /\
   _input_srgb s'.2 = _input_srgb s.2).
Proof.
  destruct s as [h i]; destruct i.
  tick_steps.
  match goal with |- context [lock ?a ?w] => destruct (lock a w) end;
    repeat match goal with
           | |- context [if Z.land ?a ?b =? ?c then _ else _] =>
               destruct (Z.land a b =? c)
           end;
    repeat split; try reflexivity; intros; discriminate.
Qed.

(** ** Rendering: the host and the log *)

Lemma log_sum_trans w l1 l2 l3 n m :
  log_sum w l1 l2 n -> log_sum w l2 l3 m -> log_sum w l1 l3 (m + n).
Proof.
  intros H12 H23. induction H23 as [|c l k k' H IH E].
  - exact H12.
  - eapply sum_more; [exact IH|]. subst k'. ring.
Qed.

Lemma log_sum_app w old l n :
  log_sum w old l n <-> exists new, l = new ++ old /\ net w new = n.
Proof.
  split.
  - induction 1 as [|c l k k' H (new & -> & Hn) E].
    + exists []. split; reflexivity.
    + exists (c :: new). split; [reflexivity|]. cbn. subst. reflexivity.
  - intros (new & -> & Hn). revert n Hn.
    induction new as [|c new IH]; cbn; intros n Hn.
    + subst. apply sum_same.
    + eapply sum_more; [apply IH; reflexivity|]. subst. reflexivity.
Qed.

Ltac sum_steps :=
  first [ apply sum_same | eapply sum_more; [sum_steps | reflexivity] ].

Lemma render_step_refl P s : render_step P s s.
Proof.
  destruct s as [[] i]. repeat split; first [apply log_same | apply sum_same].
Qed.

Lemma render_step_host P s s' : s'.1 = s.1 -> render_step P s s'.
Proof.
  destruct s as [h i], s' as [h' i']. cbn. intros ->. apply (render_step_refl P (h, i)).
Qed.

Lemma render_step_trans P s1 s2 s3 :
  render_step P s1 s2 -> render_step P s2 s3 -> render_step P s1 s3.
Proof.
  intros (Hh & Hl & Hb & Hr) (Hh' & Hl' & Hb' & Hr').
  repeat split.
  - rewrite Hh', Hh. reflexivity.
  - eapply log_extends_trans; eassumption.
  - apply (log_sum_trans _ _ _ _ _ _ Hb Hb').
  - apply (log_sum_trans _ _ _ _ _ _ Hr Hr').
Qed.

Lemma render_step_weaken (P Q : gs_call -> bool) s s' :
  (forall c, P c = true -> Q c = true) -> render_step P s s' -> render_step Q s s'.
Proof.
  intros HPQ (Hh & Hl & Hb & Hr). repeat split; try assumption.
  eapply log_extends_weaken; eassumption.
Qed.

Ltac step_cases :=
  vm_compute; (split; [reflexivity|split; [log_steps|split; sum_steps]]).

Lemma capture_base_step e s :
  render_step (fun c => leaves_alone Input c && leaves_alone Final c)
    s (capture_base e s).2.
Proof.
  unfold render_step, capture_base, render_into, isolated, process_filter_end_default,
    foreign.
  destruct (filter_begin e); fix_slot e Base; open_state s; fix_base_slot; step_cases.
Qed.

Lemma capture_input_step e input s :
  render_step (fun c => leaves_alone Base c && leaves_alone Final c)
    s (capture_input e input s).2.
Proof.
  unfold render_step, capture_input, render_into, isolated, foreign.
  destruct input; fix_slot e Input; open_state s; fix_input_slot; step_cases.
Qed.

Lemma capture_final_step e s :
  render_step (fun c => leaves_alone Base c && leaves_alone Input c)
    s (capture_final e s).2.
Proof.
  unfold render_step, capture_final, render_into, isolated, foreign.
  fix_slot e Final; open_state s;
    match goal with |- context [ {| _have_base := ?b |} ] => destruct b end;
    match goal with |- context [ {| _base_color_format := ?f |} ] => destruct f end;
    fix_final_slot; step_cases.
Qed.

Lemma draw_final_step e s :
  render_step
    (fun c => leaves_alone Base c && leaves_alone Input c && leaves_alone Final c)
    s (draw_final e s).2.
Proof.
  unfold render_step, draw_final. destruct (image_param e); open_state s.
  all: match goal with |- context [ {| _have_final := ?b |} ] => destruct b end.
  all: match goal with |- context [ {| _final_tex := ?t |} ] => destruct t end.
  all: cbv -[Z.eqb width height].
  all: try match goal with |- context [?x =? 0] => destruct (x =? 0) end.
  all: (split; [reflexivity|split; [log_steps|split; sum_steps]]).
Qed.

(** ** Rendering: whole calls *)

(** A render call is a chain of steps; what holds of the captures holds of
    the call, the guard and the final draw adding nothing that belongs to a
    capture. *)
Lemma video_render_steps e s (P : gs_call -> bool) :
  P skip_video_filter = true ->
  (forall c, leaves_alone Base c && leaves_alone Input c && leaves_alone Final c = true ->
             P c = true) ->
  (let input := lock (render_alive e) (_input s.2) in
   let s1 := (capture_base e s).2 in
   let s2 := (capture_input e input s1).2 in
   render_step P s s1 /\ render_step P s1 s2 /\ render_step P s2 (capture_final e s2).2) ->
  render_step P s (video_render e s).2.
Proof.
  intros Hskip Hdraw (H1 & H2 & H3).
  destruct (nothing_to_render e (lock (render_alive e) (_input s.2))) eqn:Hg.
  - rewrite (video_render_guarded e s Hg). destruct s as [[] i].
    unfold render_step; cbn. repeat split.
    + apply log_more; [exact Hskip|apply log_same].
    + sum_steps.
    + sum_steps.
  - rewrite (video_render_stages e s Hg).
    eapply render_step_trans; [exact H1|]. eapply render_step_trans; [exact H2|].
    eapply render_step_trans; [exact H3|].
    eapply render_step_trans;
      [apply render_step_host; exact (proj1 (debug_texture_override_spec _))|].
    eapply render_step_weaken; [exact Hdraw|apply draw_final_step].
Qed.

Lemma video_render_step_any e s : render_step (fun _ => true) s (video_render e s).2.
Proof.
  apply video_render_steps; [reflexivity|reflexivity|].
  split; [|split]; (eapply render_step_weaken; [intros; reflexivity|]);
    [apply capture_base_step|apply capture_input_step|apply capture_final_step].
Qed.

(** X3: whatever path a render call takes -- the guard, a capture that fails
    half way, a missing effect parameter -- the host has both sRGB flags back
    as they were when the call returns, and its reference counts and child
    registrations are never touched. *)
Theorem video_render_leaves_host e s :
  let h' := (video_render e s).2.1 in
  framebuffer_srgb h' = framebuffer_srgb s.1 /\
  linear_srgb h' = linear_srgb s.1 /\
  showing_refs h' = showing_refs s.1 /\
  active_refs h' = active_refs s.1 /\
  active_children h' = active_children s.1.
Proof.
  destruct (video_render_step_any e s) as (Hh & _). cbv zeta. rewrite Hh.
  repeat split.
Qed.

(** X4: in every render call, failing or not, each blend-state push is matched
    by a pop and each texture render begun is ended: over the calls added to
    the log both depths come out as they went in. *)
Theorem video_render_balanced e s :
  exists new,
    calls (video_render e s).2.1 = new ++ calls s.1 /\
    net blend_depth new = 0 /\ net render_depth new = 0.
Proof.
  destruct (video_render_step_any e s) as (_ & _ & Hb & Hr).
  apply log_sum_app in Hb, Hr.
  destruct Hb as (new & E & Hn), Hr as (new' & E' & Hn').
  rewrite E in E'. apply app_inv_tail in E'. subst new'. eauto.
Qed.

Lemma base_slot_eq i i' :
  base_slot i = base_slot i' ->
  _have_base i = _have_base i' /\ _base_rt i = _base_rt i' /\ _base_tex i = _base_tex i'.
Proof. unfold base_slot. intros [= -> -> ->]. repeat split. Qed.

Lemma input_slot_eq i i' :
  input_slot i = input_slot i' ->
  _have_input i = _have_input i' /\ _input_rt i = _input_rt i' /\
  _input_tex i = _input_tex i'.
Proof. unfold input_slot. intros [= -> -> ->]. repeat split. Qed.

Lemma final_slot_eq i i' :
  final_slot i = final_slot i' ->
  _have_final i = _have_final i' /\ _final_rt i = _final_rt i' /\
  _final_tex i = _final_tex i'.
Proof. unfold final_slot. intros [= -> -> ->]. repeat split. Qed.

Lemma capture_base_others e s :
  let s' := (capture_base e s).2 in
  input_slot s'.2 = input_slot s.2 /\ final_slot s'.2 = final_slot s.2.
Proof.
  destruct (capture_base_frame e s) as [Hf _]. cbv zeta. rewrite Hf. split; reflexivity.
Qed.

Lemma capture_input_others e input s :
  let s' := (capture_input e input s).2 in
  base_slot s'.2 = base_slot s.2 /\ final_slot s'.2 = final_slot s.2.
Proof.
  destruct input as [src|].
  - destruct (capture_input_frame e src s) as [Hf _]. cbv zeta. rewrite Hf.
    split; reflexivity.
  - rewrite capture_input_alias. destruct (_have_input s.2); split; reflexivity.
Qed.

Lemma capture_final_others e s :
  let s' := (capture_final e s).2 in
  base_slot s'.2 = base_slot s.2 /\ input_slot s'.2 = input_slot s.2.
Proof.
  destruct (capture_final_frame e s) as [Hf _]. cbv zeta. rewrite Hf. split; reflexivity.
Qed.

Lemma debug_texture_override_others s :
  let s' := (debug_texture_override s).2 in
  base_slot s'.2 = base_slot s.2 /\ input_slot s'.2 = input_slot s.2 /\
  _final_rt s'.2 = _final_rt s.2.
Proof.
  destruct (debug_texture_override_spec s) as (_ & Hf & _). cbv zeta. rewrite Hf.
  repeat split.
Qed.

Lemma capture_input_valid e input s :
  _have_input s.2 = true -> (capture_input e input s).2 = s.
Proof.
  intros Hv. destruct input as [src|].
  - apply (capture_input_frame e src s). exact Hv.
  - rewrite capture_input_alias, Hv. reflexivity.
Qed.

(** The members of a render call past the guard, slot by slot. *)
Lemma video_render_slots e s :
  nothing_to_render e (lock (render_alive e) (_input s.2)) = false ->
  let input := lock (render_alive e) (_input s.2) in
  let s1 := (capture_base e s).2 in
  let s2 := (capture_input e input s1).2 in
  let s3 := (capture_final e s2).2 in
  let i' := (video_render e s).2.2 in
  base_slot i' = base_slot s2.2 /\ input_slot i' = input_slot s2.2 /\
  _final_rt i' = _final_rt s3.2 /\
  (_debug_texture s.2 <> 0 -> _debug_texture s.2 <> 1 -> final_slot i' = final_slot s3.2).
Proof.
  intros Hg. cbv zeta.
  destruct (video_render_after_captures e s Hg) as (_ & -> & Hd).
  unfold after_captures in *.
  set (s3 := (capture_final e _).2) in *.
  destruct (debug_texture_override_others s3) as (Hb & Hi & Hrt).
  destruct (debug_texture_override_spec s3) as (_ & _ & _ & _ & Hk).
  subst s3.
  rewrite Hb, Hi, Hrt.
  destruct (capture_final_others e
              (capture_input e (lock (render_alive e) (_input s.2)) (capture_base e s).2).2)
    as (-> & ->).
  repeat split.
  intros H0 H1. rewrite <- Hd in H0, H1. destruct (Hk H0 H1) as (Hv & Ht).
  unfold final_slot. rewrite Hv, Ht, Hrt. reflexivity.
Qed.

Lemma render_step_log P s s' : render_step P s s' -> log_extends P (calls s.1) (calls s'.1).
Proof. intros (_ & H & _). exact H. Qed.

(** X5: a frame that is valid when a render call starts is not rendered again:
    the call adds nothing to the log that belongs to the capture of that
    frame, and the slot keeps its validity, render target and texture.  For
    the final frame this holds of the mixing pass; what the slot presents
    can still be replaced by the debug selector. *)
Theorem video_render_reuses_valid_frames e s :
  let s' := (video_render e s).2 in
  (_have_base s.2 = true ->
     base_slot s'.2 = base_slot s.2 /\
     log_extends (leaves_alone Base) (calls s.1) (calls s'.1)) /\
  (_have_input s.2 = true ->
     input_slot s'.2 = input_slot s.2 /\
     log_extends (leaves_alone Input) (calls s.1) (calls s'.1)) /\
  (_have_final s.2 = true ->
     _final_rt s'.2 = _final_rt s.2 /\
     log_extends (leaves_alone Final) (calls s.1) (calls s'.1) /\
     (_debug_texture s.2 <> 0 -> _debug_texture s.2 <> 1 ->
      final_slot s'.2 = final_slot s.2)).
Proof.
  cbv zeta.
  assert (Hbase : _have_base s.2 = true -> (capture_base e s).2 = s)
    by apply (capture_base_frame e s).
  destruct (capture_base_others e s) as (Hbi & Hbf).
  destruct (capture_input_others e (lock (render_alive e) (_input s.2)) (capture_base e s).2)
    as (Hib & Hif).
  destruct (nothing_to_render e (lock (render_alive e) (_input s.2))) eqn:Hg.
  { rewrite (video_render_guarded e s Hg). cbn [fst snd].
    assert (Hl : forall sl, log_extends (leaves_alone sl) (calls s.1)
                              (calls (set_calls (skip_video_filter :: calls s.1) s.1))).
    { intros sl. destruct s as [[] i]. cbn. apply log_more; [reflexivity|apply log_same]. }
    split; [|split]; intros H; repeat split; auto. }
  destruct (video_render_slots e s Hg) as (Hb & Hi & Hrt & Hf).
  assert (Hvi : _have_input (capture_base e s).2.2 = _have_input s.2)
    by apply (input_slot_eq _ _ Hbi).
  destruct (final_slot_eq _ _ Hif) as (Hfv & Hfr & _).
  destruct (final_slot_eq _ _ Hbf) as (Hfv' & Hfr' & _).
  assert (Hclosed : _have_final s.2 = true ->
            capture_final e
              (capture_input e (lock (render_alive e) (_input s.2)) (capture_base e s).2).2
            = (Return tt,
               (capture_input e (lock (render_alive e) (_input s.2)) (capture_base e s).2).2)).
  { intros H. apply capture_final_closed. rewrite Hfv, Hfv', H. reflexivity. }
  split; [|split].
  - intros H. split.
    + rewrite Hb, Hib, (Hbase H). reflexivity.
    + apply render_step_log, video_render_steps; [reflexivity| |].
      { intros c Hc. apply andb_prop in Hc as [Hc _]. apply andb_prop in Hc as [Hc _].
        exact Hc. }
      rewrite (Hbase H). split; [|split].
      * apply render_step_refl.
      * eapply render_step_weaken; [|apply capture_input_step].
        intros c Hc. apply andb_prop in Hc as [Hc _]. exact Hc.
      * eapply render_step_weaken; [|apply capture_final_step].
        intros c Hc. apply andb_prop in Hc as [Hc _]. exact Hc.
  - intros H. split.
    + rewrite Hi, capture_input_valid; [exact Hbi|]. rewrite Hvi. exact H.
    + apply render_step_log, video_render_steps; [reflexivity| |].
      { intros c Hc. apply andb_prop in Hc as [Hc _]. apply andb_prop in Hc as [_ Hc].
        exact Hc. }
      split; [|split].
      * eapply render_step_weaken; [|apply capture_base_step].
        intros c Hc. apply andb_prop in Hc as [Hc _]. exact Hc.
      * rewrite capture_input_valid; [apply render_step_refl|]. rewrite Hvi. exact H.
      * eapply render_step_weaken; [|apply capture_final_step].
        intros c Hc. apply andb_prop in Hc as [_ Hc]. exact Hc.
  - intros H. split; [|split].
    + rewrite Hrt, (Hclosed H). cbn [snd]. congruence.
    + apply render_step_log, video_render_steps; [reflexivity| |].
      { intros c Hc. apply andb_prop in Hc as [_ Hc]. exact Hc. }
      split; [|split].
      * eapply render_step_weaken; [|apply capture_base_step].
        intros c Hc. apply andb_prop in Hc as [_ Hc]. exact Hc.
      * eapply render_step_weaken; [|apply capture_input_step].
        intros c Hc. apply andb_prop in Hc as [_ Hc]. exact Hc.
      * rewrite (Hclosed H). apply render_step_refl.
    + intros H0 H1. rewrite (Hf H0 H1), (Hclosed H). cbn [snd]. congruence.
Qed.

(** ** Rendering: the paths of a call *)

(** Once the upstream chain has been captured, the mixing pass finds the
    base valid and the final frame still to do, whatever became of the
    input. *)
Lemma captures_ready e input s :
  _have_base s.2 = false -> _have_final s.2 = false ->
  filter_begin e = true -> render_begun e Base = true -> draw_succeeds e Base = true ->
  let s2 := (capture_input e input (capture_base e s).2).2 in
  _have_base s2.2 = true /\ _have_final s2.2 = false /\
  _base_tex s2.2 = match rendertarget_texture e Base with
                   | Some t => Some t
                   | None => _base_tex s.2
                   end /\
  same_configuration s.2 s2.2 /\
  render_step (fun _ => true) s s2.
Proof.
  intros Hb Hf Hfb Hrb Hdb. cbv zeta.
  pose proof (capture_base_outcome e s Hb) as Ho.
  rewrite Hfb, Hrb, Hdb in Ho. cbn in Ho. destruct Ho as [Hvb Hxb].
  destruct (capture_base_others e s) as (_ & Hbf).
  destruct (capture_input_others e input (capture_base e s).2) as (Hib & Hif).
  destruct (base_slot_eq _ _ Hib) as (Hv & _ & Ht).
  destruct (final_slot_eq _ _ Hif) as (Hv' & _). destruct (final_slot_eq _ _ Hbf) as (Hv'' & _).
  split; [congruence|]. split; [congruence|]. split; [congruence|]. split.
  - eapply same_configuration_trans;
      [apply capture_base_configuration|apply capture_input_configuration].
  - eapply render_step_trans.
    + eapply render_step_weaken; [|apply capture_base_step]. reflexivity.
    + eapply render_step_weaken; [|apply capture_input_step]. reflexivity.
Qed.

(** The parameters the mixing pass hands to the effect are the
    precomputed ones. *)
Lemma capture_final_parameters e s :
  _have_final s.2 = false -> _have_base s.2 = true ->
  render_begun e Final = true -> draw_succeeds e Final = true ->
  let s' := (capture_final e s).2 in
  logged_since (calls s.1)
    (effect_set_float4 "pMaskBase" (p_base (_precalc s.2))) (calls s'.1) /\
  logged_since (calls s.1)
    (effect_set_matrix "pMaskMatrix" (p_matrix (_precalc s.2))) (calls s'.1) /\
  logged_since (calls s.1)
    (effect_set_float4 "pMaskMultiplier" (p_scale (_precalc s.2))) (calls s'.1).
Proof.
  intros Hf Hb Hr Hd.
  unfold capture_final, render_into, isolated, foreign. rewrite Hr, Hd.
  destruct (rendertarget_texture e Final); open_state s;
    simpl in Hf, Hb; subst;
    match goal with |- context [ {| _base_color_format := ?f |} ] => destruct f end;
    match goal with |- context [ {| _final_rt := ?r |} ] => destruct r as [[[]]|] end;
    vm_compute;
    (split; [logged_steps|split; logged_steps]).
Qed.



(** ** Binding: taking and dropping references *)

Lemma refs_taken c m x :
  refs (taken c m) x = refs m x + (if bool_decide (c = x) then 1 else 0).
Proof.
  unfold taken, refs. rewrite lookup_insert. destruct (decide (c = x)) as [->|Hne].
  - rewrite bool_decide_eq_true_2 by reflexivity. reflexivity.
  - rewrite bool_decide_eq_false_2 by congruence. cbn. lia.
Qed.

Lemma lock_Some alive c : alive c = true -> lock alive (Some c) = Some c.
Proof. intros H. unfold lock. rewrite H. reflexivity. Qed.

Lemma lock_alive alive w c : lock alive w = Some c -> w = Some c /\ alive c = true.
Proof.
  unfold lock. destruct w as [s|]; [|discriminate].
  destruct (alive s) eqn:E; [|discriminate]. intros [= <-]. split; [reflexivity|exact E].
Qed.

Lemma same_references_refl h : same_references h h.
Proof. repeat split. Qed.

Lemma same_references_trans h1 h2 h3 :
  same_references h1 h2 -> same_references h2 h3 -> same_references h1 h3.
Proof.
  intros (Ha & Hs & Hc) (Ha' & Hs' & Hc'). repeat split.
  - intros x. rewrite Ha', Ha. reflexivity.
  - intros x. rewrite Hs', Hs. reflexivity.
  - congruence.
Qed.

Lemma deactivate_spec e h i :
  deactivate e (h, i) =
    (Return tt,
     (set_active_refs (dropped (source_alive e) (_input_ac i) (active_refs h)) h,
      set_input_ac None i)).
Proof. destruct h, i. binding_cases; reflexivity. Qed.

Lemma hide_spec e h i :
  hide e (h, i) =
    (Return tt,
     (set_showing_refs (dropped (source_alive e) (_input_vs i) (showing_refs h)) h,
      set_input_vs None i)).
Proof. destruct h, i. binding_cases; reflexivity. Qed.

Lemma activate_spec e h i :
  activate e (h, i) =
    (Return tt,
     match lock (source_alive e) (_input i) with
     | Some c =>
         if forwards_active e
         then (set_active_refs
                 (dropped (source_alive e) (_input_ac i) (taken c (active_refs h))) h,
               set_input_ac (Some c) i)
         else (h, i)
     | None => (h, i)
     end).
Proof.
  unfold activate, forwards_active, taken.
  destruct h, i, (self_active e), (parent_active e);
    cbn [negb orb andb]; binding_cases; reflexivity.
Qed.

Lemma show_spec e h i :
  show e (h, i) =
    (Return tt,
     match lock (source_alive e) (_input i) with
     | Some c =>
         if forwards_showing e
         then (set_showing_refs
                 (dropped (source_alive e) (_input_vs i) (taken c (showing_refs h))) h,
               set_input_vs (Some c) i)
         else (h, i)
     | None => (h, i)
     end).
Proof.
  unfold show, forwards_showing, taken.
  destruct h, i, (self_showing e), (parent_showing e);
    cbn [negb orb andb]; binding_cases; reflexivity.
Qed.

Lemma acquire_success e name c h i :
  acquisition_succeeds e name c ->
  acquire e name (h, i) =
    (Return true, (acquired_host e c i h, acquired_instance e c i)).
Proof.
  intros (Hn & Ha & Hc).
  unfold acquire, weak_source, activate, show, acquired_host, acquired_instance,
    forwards_active, forwards_showing, taken.
  rewrite Hn.
  destruct h, i, (self_active e), (parent_active e), (self_showing e), (parent_showing e);
    cbn [negb orb andb];
    binding_steps;
    repeat (first [ progress (rewrite ?(lock_Some _ _ Ha), ?Hc)
                  | match goal with
                    | |- context [lock ?a ?w] => destruct (lock a w)
                    end ];
            binding_steps);
    reflexivity.
Qed.

Lemma remove_child_twice c o l :
  remove_child c (remove_child o (c :: l)) = remove_child o l.
Proof.
  cbn [remove_child]. destruct (decide (c = o)) as [->|Hne].
  - reflexivity.
  - cbn [remove_child]. rewrite decide_True by reflexivity. reflexivity.
Qed.

Lemma remove_child_head c l : remove_child c (c :: l) = l.
Proof. cbn [remove_child]. rewrite decide_True by reflexivity. reflexivity. Qed.

Ltac count_refs :=
  repeat first [ rewrite refs_dropped | rewrite refs_taken ];
  rewrite ?lock_Some by assumption;
  repeat match goal with
         | |- context [@bool_decide ?P ?d] => destruct (@bool_decide_reflect P d)
         end;
  try congruence; try lia.

(** X8: a successful [acquire]: the new source is bound and registered as a
    child; the filter's activity and visibility are forwarded to it when the
    filter and its parent are active, or showing, and only then is the
    reference held before given up. *)
Theorem acquire_binds e name c s :
  acquisition_succeeds e name c ->
  let s' := (acquire e name s).2 in
  (acquire e name s).1 = Return true /\
  (_input s'.2 = Some c /\ _input_child s'.2 = Some c) /\
  _input_ac s'.2 = (if forwards_active e then Some c else _input_ac s.2) /\
  _input_vs s'.2 = (if forwards_showing e then Some c else _input_vs s.2) /\
  (forall x,
     refs (active_refs s'.1) x =
       refs (active_refs s.1) x +
       (if forwards_active e
        then (if bool_decide (c = x) then 1 else 0)
             - (if bool_decide (lock (source_alive e) (_input_ac s.2) = Some x)
                then 1 else 0)
        else 0)) /\
  (forall x,
     refs (showing_refs s'.1) x =
       refs (showing_refs s.1) x +
       (if forwards_showing e
        then (if bool_decide (c = x) then 1 else 0)
             - (if bool_decide (lock (source_alive e) (_input_vs s.2) = Some x)
                then 1 else 0)
        else 0)) /\
  active_children s'.1 =
    match lock (source_alive e) (_input_child s.2) with
    | Some o => remove_child o (c :: active_children s.1)
    | None => c :: active_children s.1
    end.
Proof.
  intros Hs. destruct s as [h i]. rewrite (acquire_success e name c h i Hs).
  cbn [fst snd]. unfold acquired_host, acquired_instance.
  cbn [active_refs showing_refs active_children].
  split; [reflexivity|].
  destruct (forwards_active e), (forwards_showing e).
  all: (split; [split; reflexivity|]); (split; [reflexivity|]); (split; [reflexivity|]).
  all: (split; [|split; [|reflexivity]]); intros x; count_refs.
Qed.

(** X9: changing a setting runs [acquire] on the source that is bound already.
    When the references the filter holds are the ones it is entitled to, this
    changes nothing: not the binding, not a count, not the child
    registrations. *)
Theorem reacquire_is_neutral e name c s :
  acquisition_succeeds e name c ->
  _input s.2 = Some c -> _input_child s.2 = Some c ->
  (forwards_active e = true -> _input_ac s.2 = Some c) ->
  (forwards_showing e = true -> _input_vs s.2 = Some c) ->
  (acquire e name s).1 = Return true /\
  (acquire e name s).2.2 = s.2 /\
  same_references s.1 (acquire e name s).2.1.
Proof.
  intros Hs Hi Hc Hac Hvs. pose proof Hs as (_ & Ha & _).
  destruct s as [h i]. rewrite (acquire_success e name c h i Hs).
  cbn [fst snd] in *. unfold acquired_host, acquired_instance, same_references.
  cbn [active_refs showing_refs active_children].
  rewrite Hc, (lock_Some _ _ Ha), remove_child_head.
  split; [reflexivity|].
  destruct (forwards_active e), (forwards_showing e);
    rewrite ?(Hac eq_refl), ?(Hvs eq_refl), ?(lock_Some _ _ Ha).
  all: split;
    [ destruct i; simpl in *; subst;
      rewrite ?(Hac eq_refl), ?(Hvs eq_refl); reflexivity
    | split; [|split; [|reflexivity]]; intros x; count_refs ].
Qed.

(** X10: whatever [acquire] did, [release] afterwards leaves the counts and the
    child registrations as [release] alone would have: nothing taken for the
    new source outlives it. *)
Theorem release_undoes_acquire e name s :
  same_references (release e s).2.1 (release e (acquire e name s).2).2.1 /\
  unbound (release e (acquire e name s).2).2.2.
Proof.
  split; [|apply release_unbinds].
  destruct (get_source_by_name e name) as [c|] eqn:Hn.
  2:{ rewrite acquire_failure by (unfold acquisition_fails; rewrite Hn; exact I).
      cbn [snd]. rewrite (release_unbound_noop e _ (release_unbinds e s)).
      apply same_references_refl. }
  destruct (source_alive e c && add_active_child e c) eqn:Hok.
  2:{ rewrite acquire_failure by (unfold acquisition_fails; rewrite Hn; exact Hok).
      cbn [snd]. rewrite (release_unbound_noop e _ (release_unbinds e s)).
      apply same_references_refl. }
  apply andb_prop in Hok as [Ha Hc].
  destruct s as [h i].
  rewrite (acquire_success e name c h i (conj Hn (conj Ha Hc))).
  cbn [snd]. rewrite !release_spec. cbn [fst snd].
  unfold released_host, acquired_host, acquired_instance, same_references.
  cbn [active_refs showing_refs active_children].
  destruct (forwards_active e), (forwards_showing e);
    cbn [_input_ac _input_vs _input_child set_input_vs set_input_ac set_input_child
         set_input];
    rewrite ?(lock_Some _ _ Ha).
  all: split; [|split]; [intros x; count_refs|intros x; count_refs|].
  all: destruct (lock (source_alive e) (_input_child i));
    [apply remove_child_twice|apply remove_child_head].
Qed.

(** X11: [hide] after [show], and [deactivate] after [activate], come to the
    same as [hide], or [deactivate], alone: the reference taken is given
    back, together with the one held before. *)
Theorem hide_undoes_show e s :
  ((hide e (show e s).2).2.2 = (hide e s).2.2 /\
   same_references (hide e s).2.1 (hide e (show e s).2).2.1) /\
  ((deactivate e (activate e s).2).2.2 = (deactivate e s).2.2 /\
   same_references (deactivate e s).2.1 (deactivate e (activate e s).2).2.1).
Proof.
  destruct s as [h i]. rewrite show_spec, activate_spec. cbn [snd].
  destruct (lock (source_alive e) (_input i)) as [c|] eqn:Hl.
  2:{ repeat split. }
  apply lock_alive in Hl as [_ Ha].
  destruct (forwards_showing e), (forwards_active e);
    rewrite !hide_spec, !deactivate_spec; cbn [fst snd];
    unfold same_references;
    cbn [active_refs showing_refs active_children set_showing_refs set_active_refs
         _input_vs _input_ac set_input_vs set_input_ac].
  all: repeat match goal with
              | |- _ /\ _ => split
              | |- forall x : source, _ => intros x
              end; try reflexivity; count_refs.
Qed.

(** X12: showing, or activating, twice is the same as doing it once: the second
    call takes a reference and gives up the one the first call took. *)
Theorem forwarding_is_idempotent e s :
  ((show e (show e s).2).2.2 = (show e s).2.2 /\
   same_references (show e s).2.1 (show e (show e s).2).2.1) /\
  ((activate e (activate e s).2).2.2 = (activate e s).2.2 /\
   same_references (activate e s).2.1 (activate e (activate e s).2).2.1).
Proof.
  destruct s as [h i]. rewrite (show_spec e h i), (activate_spec e h i). cbn [snd].
  destruct (lock (source_alive e) (_input i)) as [c|] eqn:Hl.
  2:{ rewrite show_spec, activate_spec, Hl. repeat split. }
  pose proof (lock_alive _ _ _ Hl) as [_ Ha].
  destruct (forwards_showing e) eqn:Hfs, (forwards_active e) eqn:Hfa;
    rewrite show_spec, activate_spec;
    cbn [_input set_input_vs set_input_ac]; rewrite Hl, ?Hfs, ?Hfa; cbn [fst snd];
    unfold same_references;
    cbn [active_refs showing_refs active_children set_showing_refs set_active_refs
         _input_vs _input_ac set_input_vs set_input_ac].
  all: repeat match goal with
              | |- _ /\ _ => split
              | |- forall x : source, _ => intros x
              end; try reflexivity; count_refs.
Qed.

Lemma acquire_binds_witness :
  acquisition_succeeds camera_env "Camera" 7%nat /\
  (acquire camera_env "Camera" (initial_host, initial_instance)).1 = Return true /\
  _input (acquire camera_env "Camera" (initial_host, initial_instance)).2.2 = Some 7%nat.
Proof.
  split; [repeat split|].
  split.
  - exact (proj1 (acquire_binds camera_env "Camera" 7%nat (initial_host, initial_instance)
                    (conj eq_refl (conj eq_refl eq_refl)))).
  - exact (proj1 (proj1 (proj2 (acquire_binds camera_env "Camera" 7%nat
                                  (initial_host, initial_instance)
                                  (conj eq_refl (conj eq_refl eq_refl)))))).
Defined.

Lemma reacquire_is_neutral_witness :
  acquisition_succeeds camera_env "Camera" 7%nat /\
  _input camera_bound.2 = Some 7%nat /\ _input_child camera_bound.2 = Some 7%nat /\
  (acquire camera_env "Camera" camera_bound).2.2 = camera_bound.2.
Proof.
  split; [repeat split|]. split; [reflexivity|]. split; [reflexivity|].
  exact (proj1 (proj2 (reacquire_is_neutral camera_env "Camera" 7%nat camera_bound
                         (conj eq_refl (conj eq_refl eq_refl)) eq_refl eq_refl
                         (fun _ => eq_refl) (fun _ => eq_refl)))).
Defined.

(** ** Rendering: what the calls of a tick add up to *)

Lemma render_calls_configuration es s :
  same_configuration s.2 (render_calls es s).2.2.
Proof.
  revert s. induction es as [|e es IH]; intros s; [apply same_configuration_refl|].
  unfold render_calls. cbn [for_each]. fold (render_calls es).
  pose proof (video_render_configuration e s) as Hc.
  unfold mbind, M_bind, mret, M_ret.
  destruct (video_render e s) as [[r'| |] s1]; [|exact Hc|exact Hc].
  eapply same_configuration_trans; [exact Hc|apply IH].
Qed.

(** X13: no exception leaves a render call, and in the filter the call changes
    the three captured frames only: the binding, the parameters, the debug
    selector and what the tick negotiated for the base stay as they are, and
    so does what it negotiated for a bound input. *)
Theorem video_render_changes_frames_only e s :
  (video_render e s).1 <> Throw /\
  same_configuration s.2 (video_render e s).2.2 /\
  (is_Some (lock (render_alive e) (_input s.2)) ->
   _input_color_space (video_render e s).2.2 = _input_color_space s.2 /\
   _input_color_format (video_render e s).2.2 = _input_color_format s.2).
Proof.
  split; [apply video_render_never_throws|]. split; [apply video_render_configuration|].
  intros [src Hl].
  destruct (nothing_to_render e (lock (render_alive e) (_input s.2))) eqn:Hg.
  { rewrite (video_render_guarded e s Hg). split; reflexivity. }
  destruct (video_render_after_captures e s Hg) as (_ & -> & _).
  destruct (debug_texture_override_spec (after_captures e s)) as (_ & -> & _).
  unfold after_captures. rewrite Hl.
  destruct (capture_final_frame e (capture_input e (Some src) (capture_base e s).2).2)
    as [-> _].
  destruct (capture_input_frame e src (capture_base e s).2) as [-> _].
  destruct (capture_base_frame e s) as [-> _].
  split; reflexivity.
Qed.

(** X14: what the filter reports as its colour space is the space of the render
    target the last tick saw, however many render calls came in between and
    whatever the host says it prefers. *)
Theorem video_get_color_space_follows_tick te es count preferred_spaces s :
  let s' := (render_calls es (video_tick te s).2).2 in
  video_get_color_space count preferred_spaces s' = (Return (target_color_space te), s').
Proof.
  cbv zeta.
  pose proof (render_calls_configuration es (video_tick te s).2) as (_ & _ & _ & _ & Hc & _).
  destruct (video_tick_base te s) as [Hb _].
  unfold video_get_color_space, mbind, M_bind, get_inst, mret, M_ret.
  rewrite Hc, Hb. reflexivity.
Qed.



(** ** Rendering: when a call is defined *)

Lemma capture_final_sound e s :
  final_sound s.2 -> final_sound (capture_final e s).2.2.
Proof.
  unfold final_sound, capture_final, render_into, isolated, foreign.
  fix_slot e Final; open_state s;
    match goal with |- context [ {| _have_base := ?b |} ] => destruct b end;
    match goal with |- context [ {| _base_color_format := ?f |} ] => destruct f end;
    fix_final_slot;
    match goal with |- context [ {| _final_tex := ?t |} ] => destruct t end;
    vm_compute; intros H0 H1;
    first [ discriminate H1 | eexists; reflexivity | exact (H0 eq_refl) ].
Qed.

Lemma final_sound_slot i i' : final_slot i' = final_slot i -> final_sound i -> final_sound i'.
Proof.
  intros E. destruct (final_slot_eq _ _ E) as (Hv & _ & Ht).
  unfold final_sound. rewrite Hv, Ht. exact id.
Qed.

(** With the debug selector off, a render call that starts with a sound
    final slot returns, and leaves the slot sound. *)
Lemma video_render_defined e s :
  _debug_texture s.2 <> 0 -> _debug_texture s.2 <> 1 -> final_sound s.2 ->
  (exists r, (video_render e s).1 = Return r) /\ final_sound (video_render e s).2.2.
Proof.
  intros H0 H1 Hs.
  destruct (nothing_to_render e (lock (render_alive e) (_input s.2))) eqn:Hg.
  { rewrite (video_render_guarded e s Hg). split; [eexists; reflexivity|exact Hs]. }
  destruct (video_render_slots e s Hg) as (_ & _ & _ & Hf).
  specialize (Hf H0 H1).
  assert (Hsound : final_sound (video_render e s).2.2).
  { apply (final_sound_slot _ _ Hf). apply capture_final_sound.
    apply (final_sound_slot s.2); [|exact Hs].
    destruct (capture_base_others e s) as (_ & Hb).
    destruct (capture_input_others e (lock (render_alive e) (_input s.2)) (capture_base e s).2)
      as (_ & Hi).
    congruence. }
  split; [|exact Hsound].
  destruct (video_render_after_captures e s Hg) as (Hr & Hi & _).
  rewrite Hr, <- Hi. unfold presented. unfold final_sound in Hsound.
  destruct (_have_final (video_render e s).2.2); [|eexists; reflexivity].
  destruct (Hsound eq_refl) as [o ->].
  destruct ((o =? 0) || negb (image_param e)); eexists; reflexivity.
Qed.

(** X15: with the debug selector off, no render call of a tick runs into the
    empty pointer, whatever fails in the captures: every call returns. *)
Theorem render_calls_defined_without_debug te es s :
  _debug_texture s.2 <> 0 -> _debug_texture s.2 <> 1 ->
  (render_calls es (video_tick te s).2).1 = Return tt.
Proof.
  intros H0 H1.
  destruct (video_tick_keeps te s) as (_ & _ & _ & (_ & _ & Hd) & (_ & Hf) & _).
  assert (Hs : final_sound (video_tick te s).2.2)
    by (unfold final_sound; rewrite Hf; discriminate).
  rewrite <- Hd in H0, H1. clear Hd Hf.
  revert Hs H0 H1. generalize (video_tick te s).2. clear s.
  induction es as [|e es IH]; intros s Hs H0 H1; [reflexivity|].
  unfold render_calls. cbn [for_each]. fold (render_calls es).
  destruct (video_render_defined e s H0 H1 Hs) as ([r Hr] & Hs').
  destruct (video_render_configuration e s) as (_ & _ & _ & _ & _ & _ & _ & _ & _ & _ & _ & Hd).
  unfold mbind, M_bind, mret, M_ret.
  destruct (video_render e s) as [[r'| |] s1]; try discriminate Hr.
  cbn [fst snd] in *. apply IH; [exact Hs'|rewrite Hd; exact H0|rewrite Hd; exact H1].
Qed.

Lemma render_calls_defined_without_debug_witness :
  (render_calls [get_texture_throws; smooth_render]
     (video_tick srgb_tick (initial_host, initial_instance)).2).1 = Return tt.
Proof.
  apply (render_calls_defined_without_debug srgb_tick [get_texture_throws; smooth_render]
           (initial_host, initial_instance)); discriminate.
Defined.

(** ** Parameters and lifetime: [update], [load], [save], constructor and destructor *)

Lemma acquire_outcome e name :
  (exists c, acquisition_succeeds e name c) \/ acquisition_fails e name.
Proof.
  unfold acquisition_succeeds, acquisition_fails.
  destruct (get_source_by_name e name) as [c|]; [|right; exact I].
  destruct (source_alive e c) eqn:Ha, (add_active_child e c) eqn:Hc;
    first [ left; exists c; repeat split; assumption | right; reflexivity ].
Qed.

(** The binding step of [update] returns, possibly after logging that the
    name could not be bound. *)
Lemma update_source_effect e settings s :
  exists l,
    (let v := obs_data_get_string settings ST_KEY_INPUT in
     if negb (String.eqb v "") then
       acquired ← acquire e v;
       when (negb acquired) (call (log_error "Failed to acquire Input source."))
     else release e) s
    = (Return tt, (set_calls l (rebound e settings s).1, (rebound e settings s).2)) /\
    log_extends (fun _ => true) (calls (rebound e settings s).1) l.
Proof.
  unfold rebound. cbv zeta.
  destruct (negb (String.eqb (obs_data_get_string settings ST_KEY_INPUT) "")).
  - destruct (acquire_outcome e (obs_data_get_string settings ST_KEY_INPUT))
      as [[c Hs]|Hf].
    + destruct s as [h i]. unfold mbind, M_bind.
      rewrite (acquire_success _ _ _ _ _ Hs). cbn [negb when snd fst].
      exists (calls (acquired_host e c i h)). split; [reflexivity|apply log_same].
    + unfold mbind, M_bind. rewrite (acquire_failure _ _ _ Hf). cbn [negb when snd fst].
      destruct (release e s).2 as [h' i'] eqn:E.
      exists (log_error "Failed to acquire Input source." :: calls h').
      split; [destruct h'; reflexivity|]. apply log_more; [reflexivity|apply log_same].
  - destruct s as [h i]. rewrite release_spec. cbn [fst snd].
    exists (calls (released_host e i h)). split; [reflexivity|apply log_same].
Qed.

Section LifecycleFacts.
Variables S_CHANNEL_RED S_CHANNEL_GREEN S_CHANNEL_BLUE S_CHANNEL_ALPHA : string.
Variable channel_data_init : channel_data.

Local Abbreviation with_names f :=
  (f S_CHANNEL_RED S_CHANNEL_GREEN S_CHANNEL_BLUE S_CHANNEL_ALPHA) (only parsing).

Lemma precalc_channel_all settings p :
  precalc_channel Alpha (with_names read_channel settings S_CHANNEL_ALPHA)
    (precalc_channel Blue (with_names read_channel settings S_CHANNEL_BLUE)
       (precalc_channel Green (with_names read_channel settings S_CHANNEL_GREEN)
          (precalc_channel Red (with_names read_channel settings S_CHANNEL_RED) p)))
  = with_names stored_precalc settings.
Proof. destruct p as [[] [] [[] [] [] []]]. reflexivity. Qed.

(** [update] as a whole: the binding step, then every channel entry and
    all of [_precalc] overwritten from the settings, then the debug
    selector. *)
Lemma update_effect e settings s :
  exists l,
    update S_CHANNEL_RED S_CHANNEL_GREEN
          S_CHANNEL_BLUE S_CHANNEL_ALPHA channel_data_init e settings s =
      (Return tt,
       (set_calls l (rebound e settings s).1,
        set_debug_texture (obs_data_get_int settings ST_KEY_DEBUG_TEXTURE)
          (set_precalc (with_names stored_precalc settings)
             (set_channels
                (with_names stored_channels settings (_channels (rebound e settings s).2))
                (rebound e settings s).2)))) /\
    log_extends (fun _ => true) (calls (rebound e settings s).1) l.
Proof.
  destruct (update_source_effect e settings s) as (l & Hsrc & Hl).
  exists l. split; [|exact Hl].
  unfold update. cbv zeta in Hsrc |- *.
  unfold mbind at 1. unfold M_bind at 1. rewrite Hsrc.
  unfold channel_translations. cbn [for_each].
  unfold mbind, M_bind, mret, M_ret, modify_inst.
  do 4 (rewrite update_channel_spec; cbv beta iota). cbn [fst snd].
  cbn [_precalc _channels set_precalc set_channels].
  rewrite precalc_channel_all. reflexivity.
Qed.
End LifecycleFacts.

(** ** References over the life of a filter *)

Lemma lock_ext alive alive' w :
  (forall x, alive x = alive' x) -> lock alive w = lock alive' w.
Proof. intros H. unfold lock. destruct w as [s|]; [rewrite H|]; reflexivity. Qed.

Lemma accounted_frame alive h0 s s' :
  active_refs s'.1 = active_refs s.1 -> showing_refs s'.1 = showing_refs s.1 ->
  active_children s'.1 = active_children s.1 ->
  _input_ac s'.2 = _input_ac s.2 -> _input_vs s'.2 = _input_vs s.2 ->
  _input_child s'.2 = _input_child s.2 ->
  references_accounted alive h0 s -> references_accounted alive h0 s'.
Proof.
  unfold references_accounted. intros -> -> -> -> -> ->. exact id.
Qed.

Ltac count_holds :=
  unfold holds;
  repeat first [ rewrite refs_dropped | rewrite refs_taken ];
  rewrite ?lock_Some by assumption;
  repeat match goal with
         | |- context [@bool_decide ?P ?d] => destruct (@bool_decide_reflect P d)
         end;
  cbn [lock] in *; try congruence; try lia.

Lemma accounted_release alive e h0 s :
  (forall x, source_alive e x = alive x) ->
  references_accounted alive h0 s -> references_accounted alive h0 (release e s).2.
Proof.
  intros He (Ha & Hs & Hc). destruct s as [h i]. rewrite release_spec.
  unfold references_accounted, released_host, released_instance in *.
  cbn [fst snd active_refs showing_refs active_children
       _input_ac _input_vs _input_child set_input set_input_child set_input_vs
       set_input_ac lock] in *.
  rewrite !(lock_ext (source_alive e) alive _ He) in *.
  split; [|split].
  - intros x. rewrite refs_dropped, !(lock_ext (source_alive e) alive _ He), Ha. count_holds.
  - intros x. rewrite refs_dropped, !(lock_ext (source_alive e) alive _ He), Hs. count_holds.
  - rewrite Hc. destruct (lock alive (_input_child i)); [apply remove_child_head|reflexivity].
Qed.

Lemma accounted_deactivate alive e h0 s :
  (forall x, source_alive e x = alive x) ->
  references_accounted alive h0 s -> references_accounted alive h0 (deactivate e s).2.
Proof.
  intros He (Ha & Hs & Hc). destruct s as [h i]. rewrite deactivate_spec.
  unfold references_accounted in *.
  cbn [fst snd active_refs showing_refs active_children set_active_refs
       _input_ac _input_vs _input_child set_input_ac lock] in *.
  split; [|split; assumption].
  intros x. rewrite refs_dropped, !(lock_ext (source_alive e) alive _ He), Ha. count_holds.
Qed.

Lemma accounted_hide alive e h0 s :
  (forall x, source_alive e x = alive x) ->
  references_accounted alive h0 s -> references_accounted alive h0 (hide e s).2.
Proof.
  intros He (Ha & Hs & Hc). destruct s as [h i]. rewrite hide_spec.
  unfold references_accounted in *.
  cbn [fst snd active_refs showing_refs active_children set_showing_refs
       _input_ac _input_vs _input_child set_input_vs lock] in *.
  split; [assumption|split; [|assumption]].
  intros x. rewrite refs_dropped, !(lock_ext (source_alive e) alive _ He), Hs. count_holds.
Qed.

Lemma accounted_activate alive e h0 s :
  (forall x, source_alive e x = alive x) ->
  references_accounted alive h0 s -> references_accounted alive h0 (activate e s).2.
Proof.
  intros He (Ha & Hs & Hc). destruct s as [h i]. rewrite activate_spec. cbn [snd].
  destruct (lock (source_alive e) (_input i)) as [c|] eqn:Hl; [|repeat split; assumption].
  destruct (forwards_active e); [|repeat split; assumption].
  apply lock_alive in Hl as [_ Hal]. rewrite He in Hal.
  unfold references_accounted in *.
  cbn [fst snd active_refs showing_refs active_children set_active_refs
       _input_ac _input_vs _input_child set_input_ac] in *.
  split; [|split; assumption].
  intros x.
  rewrite refs_dropped, refs_taken, !(lock_ext (source_alive e) alive _ He), Ha. count_holds.
Qed.

Lemma accounted_show alive e h0 s :
  (forall x, source_alive e x = alive x) ->
  references_accounted alive h0 s -> references_accounted alive h0 (show e s).2.
Proof.
  intros He (Ha & Hs & Hc). destruct s as [h i]. rewrite show_spec. cbn [snd].
  destruct (lock (source_alive e) (_input i)) as [c|] eqn:Hl; [|repeat split; assumption].
  destruct (forwards_showing e); [|repeat split; assumption].
  apply lock_alive in Hl as [_ Hal]. rewrite He in Hal.
  unfold references_accounted in *.
  cbn [fst snd active_refs showing_refs active_children set_showing_refs
       _input_ac _input_vs _input_child set_input_vs] in *.
  split; [assumption|split; [|assumption]].
  intros x.
  rewrite refs_dropped, refs_taken, !(lock_ext (source_alive e) alive _ He), Hs. count_holds.
Qed.

Lemma remove_child_second c o l :
  remove_child o (c :: o :: l) = c :: l.
Proof.
  cbn [remove_child]. destruct (decide (c = o)) as [->|Hne]; [reflexivity|].
  rewrite decide_True by reflexivity. reflexivity.
Qed.

Lemma accounted_acquire alive e h0 name s :
  (forall x, source_alive e x = alive x) ->
  references_accounted alive h0 s -> references_accounted alive h0 (acquire e name s).2.
Proof.
  intros He Hacc. destruct (acquire_outcome e name) as [[c Hs]|Hf].
  2:{ rewrite (acquire_failure _ _ _ Hf). apply accounted_release; assumption. }
  destruct Hacc as (Ha & Hsh & Hc). destruct s as [h i].
  rewrite (acquire_success _ _ _ _ _ Hs). destruct Hs as (_ & Hal & _). rewrite He in Hal.
  unfold references_accounted, acquired_host, acquired_instance in *.
  cbn [fst snd active_refs showing_refs active_children] in *.
  destruct (forwards_active e), (forwards_showing e);
    cbn [_input_ac _input_vs _input_child set_input set_input_child set_input_vs
         set_input_ac].
  all: rewrite ?(lock_ext (source_alive e) alive _ He), (lock_Some _ _ Hal).
  all: split; [|split].
  all: try (intros x;
            rewrite ?refs_dropped, ?refs_taken, ?(lock_ext (source_alive e) alive _ He),
              ?Ha, ?Hsh;
            count_holds).
  all: rewrite Hc; destruct (lock alive (_input_child i));
    [apply remove_child_second|reflexivity].
Qed.

Lemma accounted_tick alive h0 e s :
  references_accounted alive h0 s -> references_accounted alive h0 (video_tick e s).2.
Proof.
  destruct (video_tick_keeps e s) as (_ & Hh & (_ & Hc & Hv & Ha) & _).
  apply accounted_frame; try assumption; rewrite Hh; reflexivity.
Qed.

Lemma accounted_render alive h0 e s :
  references_accounted alive h0 s -> references_accounted alive h0 (video_render e s).2.
Proof.
  destruct (video_render_step_any e s) as (Hh & _).
  destruct (video_render_configuration e s) as (_ & Hc & Hv & Ha & _).
  apply accounted_frame; try assumption; rewrite Hh; reflexivity.
Qed.

Lemma accounted_unbound alive h0 s :
  references_accounted alive h0 s -> unbound s.2 -> same_references h0 s.1.
Proof.
  intros (Ha & Hs & Hc) (_ & Hch & Hvs & Hac).
  rewrite Hch in Hc. rewrite Hvs in Hs. rewrite Hac in Ha.
  unfold holds in *. cbn [lock] in *.
  repeat split; [intros x; rewrite Ha|intros x; rewrite Hs|exact Hc];
    rewrite bool_decide_eq_false_2 by discriminate; lia.
Qed.

Lemma logged_since_later P old c l l' :
  logged_since old c l -> log_extends P l l' -> logged_since old c l'.
Proof.
  intros Hl He. induction He as [|c' l' Hc He IH]; [exact Hl|].
  apply logged_earlier. exact IH.
Qed.

Section LifetimeFacts.
Variables S_CHANNEL_RED S_CHANNEL_GREEN S_CHANNEL_BLUE S_CHANNEL_ALPHA : string.
Variable channel_data_init : channel_data.

Local Abbreviation with_names f :=
  (f S_CHANNEL_RED S_CHANNEL_GREEN S_CHANNEL_BLUE S_CHANNEL_ALPHA) (only parsing).

Lemma accounted_update alive h0 e settings s :
  (forall x, source_alive e x = alive x) ->
  references_accounted alive h0 s ->
  references_accounted alive h0 (update S_CHANNEL_RED S_CHANNEL_GREEN
        S_CHANNEL_BLUE S_CHANNEL_ALPHA channel_data_init e settings s).2.
Proof.
  intros He Hacc.
  destruct (update_effect S_CHANNEL_RED S_CHANNEL_GREEN S_CHANNEL_BLUE S_CHANNEL_ALPHA
              channel_data_init e settings s) as (l & -> & _).
  assert (Hr : references_accounted alive h0 (rebound e settings s)).
  { unfold rebound. destruct (negb _).
    - apply accounted_acquire; assumption.
    - apply accounted_release; assumption. }
  revert Hr. apply accounted_frame; destruct (rebound e settings s) as [[] i']; reflexivity.
Qed.

Lemma accounted_call alive h0 c s :
  sources_stay alive c ->
  references_accounted alive h0 s ->
  references_accounted alive h0 (run_call S_CHANNEL_RED S_CHANNEL_GREEN
        S_CHANNEL_BLUE S_CHANNEL_ALPHA channel_data_init c s).2.
Proof.
  destruct c; unfold sources_stay; cbn [call_alive run_call]; intros He Hacc.
  - apply accounted_update; assumption.
  - apply accounted_update; assumption.
  - exact Hacc.
  - apply accounted_show; assumption.
  - apply accounted_hide; assumption.
  - apply accounted_activate; assumption.
  - apply accounted_deactivate; assumption.
  - apply accounted_tick; assumption.
  - pose proof (accounted_render alive h0 e s Hacc) as Hr.
    unfold mbind, M_bind, mret, M_ret.
    destruct (video_render e s) as [[r| |] s1]; exact Hr.
Qed.

Lemma accounted_calls alive h0 cs s :
  Forall (sources_stay alive) cs ->
  references_accounted alive h0 s ->
  references_accounted alive h0 (for_each cs (run_call S_CHANNEL_RED S_CHANNEL_GREEN
        S_CHANNEL_BLUE S_CHANNEL_ALPHA channel_data_init) s).2.
Proof.
  intros Hcs. revert s. induction Hcs as [|c cs Hc Hcs IH]; intros s Hacc; [exact Hacc|].
  cbn [for_each]. pose proof (accounted_call alive h0 c s Hc Hacc) as H1.
  unfold mbind, M_bind.
  destruct (run_call S_CHANNEL_RED S_CHANNEL_GREEN
        S_CHANNEL_BLUE S_CHANNEL_ALPHA channel_data_init c s) as [[[]| |] s1];
    [apply IH|..]; exact H1.
Qed.

(** X16: over the whole life of a filter -- construction, then whatever the
    host calls, in any order and with any answers, as long as no source
    disappears -- every count the filter has added to a source, and every
    child registration, is backed by a reference it still holds.  The
    destructor therefore leaves the counts and registrations of the host as
    they were before the filter was made. *)
Theorem lifetime_references_balanced alive e settings cs e' h0 i0 :
  (forall x, source_alive e x = alive x) ->
  Forall (sources_stay alive) cs ->
  (forall x, source_alive e' x = alive x) ->
  let made := (dynamic_mask_instance_ctor S_CHANNEL_RED S_CHANNEL_GREEN
        S_CHANNEL_BLUE S_CHANNEL_ALPHA channel_data_init e settings (h0, i0)).2 in
  let used := (for_each cs (run_call S_CHANNEL_RED S_CHANNEL_GREEN
        S_CHANNEL_BLUE S_CHANNEL_ALPHA channel_data_init) made).2 in
  let gone := (dynamic_mask_instance_dtor e' used).2 in
  references_accounted alive h0 used /\
  same_references h0 gone.1 /\ unbound gone.2.
Proof.
  intros He Hcs He'. cbv zeta.
  assert (Hm : references_accounted alive h0
                 (dynamic_mask_instance_ctor S_CHANNEL_RED S_CHANNEL_GREEN
                    S_CHANNEL_BLUE S_CHANNEL_ALPHA channel_data_init e settings (h0, i0)).2).
  { unfold dynamic_mask_instance_ctor, mbind, M_bind, modify_inst. cbn [fst snd].
    apply accounted_update; [exact He|].
    unfold references_accounted, holds, members_initialised.
    cbn [fst snd _input_ac _input_vs _input_child lock].
    repeat split; intros; rewrite bool_decide_eq_false_2 by discriminate; lia. }
  pose proof (accounted_calls alive h0 cs _ Hcs Hm) as Hu.
  split; [exact Hu|].
  unfold dynamic_mask_instance_dtor.
  split; [|apply release_unbinds].
  apply (accounted_unbound alive); [|apply release_unbinds].
  apply accounted_release; assumption.
Qed.

(** X17: the configured transform reaches the effect: after [update], a tick
    and a render call in which the upstream chain is captured and the mixing
    pass drawn, the effect has been given the offsets, the matrix of weights
    and the scales that were read from the settings. *)
Theorem settings_reach_the_effect be settings te e s :
  let s1 := (update S_CHANNEL_RED S_CHANNEL_GREEN
        S_CHANNEL_BLUE S_CHANNEL_ALPHA channel_data_init be settings s).2 in
  let s2 := (video_tick te s1).2 in
  nothing_to_render e (lock (render_alive e) (_input s2.2)) = false ->
  filter_begin e = true -> render_begun e Base = true -> draw_succeeds e Base = true ->
  render_begun e Final = true -> draw_succeeds e Final = true ->
  exists new,
    calls (video_render e s2).2.1 = new ++ calls s2.1 /\
    In (effect_set_float4 "pMaskBase" (p_base (with_names stored_precalc settings))) new /\
    In (effect_set_matrix "pMaskMatrix" (p_matrix (with_names stored_precalc settings)))
       new /\
    In (effect_set_float4 "pMaskMultiplier" (p_scale (with_names stored_precalc settings)))
       new.
Proof.
  cbv zeta.
  destruct (update_spec S_CHANNEL_RED S_CHANNEL_GREEN S_CHANNEL_BLUE S_CHANNEL_ALPHA
              channel_data_init be settings s) as (s1 & -> & _ & Hp & _).
  cbn [snd] in *. intros Hg Hfb Hrb Hdb Hrf Hdf.
  destruct (video_tick_keeps te s1) as (_ & _ & _ & (_ & Hpt & _) & (Hvb & Hvf) & _).
  set (s2 := (video_tick te s1).2) in *.
  destruct (captures_ready e (lock (render_alive e) (_input s2.2)) s2 Hvb Hvf Hfb Hrb Hdb)
    as (Hb' & Hf' & _ & Hcfg & Hstep).
  set (s3 := (capture_input e (lock (render_alive e) (_input s2.2)) (capture_base e s2).2).2)
    in *.
  destruct (capture_final_parameters e s3 Hf' Hb' Hrf Hdf) as (HB & HM & HS).
  assert (Hpre : _precalc s3.2 = with_names stored_precalc settings).
  { destruct Hcfg as (_ & _ & _ & _ & _ & _ & _ & _ & _ & _ & -> & _).
    rewrite Hpt. exact Hp. }
  rewrite Hpre in HB, HM, HS.
  assert (Hvr : video_render e s2 =
                draw_final e (debug_texture_override (capture_final e s3).2).2)
    by apply (video_render_stages e s2 Hg).
  rewrite Hvr.
  assert (Hlate : log_extends (fun _ => true) (calls (capture_final e s3).2.1)
                    (calls (draw_final e (debug_texture_override (capture_final e s3).2).2).2.1)).
  { destruct (draw_final_spec e (debug_texture_override (capture_final e s3).2).2)
      as (_ & _ & Hl).
    rewrite (proj1 (debug_texture_override_spec (capture_final e s3).2)) in Hl.
    eapply log_extends_weaken; [|exact Hl]. reflexivity. }
  assert (Hearly : log_extends (fun _ => true) (calls s2.1) (calls s3.1))
    by apply Hstep.
  apply (fun H => logged_since_later _ _ _ _ _ H Hlate) in HB, HM, HS.
  apply (logged_since_earlier _ _ _ _ _ Hearly) in HB, HM, HS.
  apply logged_since_app in HB as (nB & EB & IB).
  apply logged_since_app in HM as (nM & EM & IM).
  apply logged_since_app in HS as (nS & ES & IS).
  assert (nM = nB) by (apply (app_inv_tail (calls s2.1)); congruence).
  assert (nS = nB) by (apply (app_inv_tail (calls s2.1)); congruence).
  subst nM nS. exists nB. repeat split; assumption.
Qed.

(** X18: with no input selected, nothing between construction and rendering
    assigns [_input_srgb]: the constructor does not initialise it, [update]
    does not touch it, the tick sets it for a bound input only, and no
    render call writes it.  The flag the mixing pass passes along with input
    B is then the one the member had before the constructor body ran. *)
Theorem unbound_input_srgb_is_never_assigned e settings te es h0 i0 :
  obs_data_get_string settings ST_KEY_INPUT = "" ->
  let made := (dynamic_mask_instance_ctor S_CHANNEL_RED S_CHANNEL_GREEN
        S_CHANNEL_BLUE S_CHANNEL_ALPHA channel_data_init e settings (h0, i0)).2 in
  let s := (render_calls es (video_tick te made).2).2 in
  _input s.2 = None /\ _input_srgb s.2 = _input_srgb i0.
Proof.
  intros Hname. cbv zeta.
  unfold dynamic_mask_instance_ctor, mbind, M_bind, modify_inst. cbn [fst snd].
  destruct (update_effect S_CHANNEL_RED S_CHANNEL_GREEN S_CHANNEL_BLUE S_CHANNEL_ALPHA
              channel_data_init e settings (h0, members_initialised i0)) as (l & -> & _).
  unfold rebound. rewrite Hname. cbn [String.eqb negb]. rewrite release_spec.
  cbn [fst snd].
  match goal with |- context [video_tick te ?s0] => set (made := s0) end.
  assert (Hi : _input made.2 = None) by reflexivity.
  assert (Hs : _input_srgb made.2 = _input_srgb i0) by reflexivity.
  destruct (video_tick_keeps te made) as (_ & _ & (Hti & _) & _ & _ & Hts).
  rewrite Hi in Hts. specialize (Hts eq_refl).
  destruct (render_calls_configuration es (video_tick te made).2)
    as (Hri & _ & _ & _ & _ & _ & _ & Hrs & _).
  rewrite Hri, Hrs, Hti, Hts. split; [exact Hi|exact Hs].
Qed.
End LifetimeFacts.

(** ** Parameters: more about [update], [get_defaults2], [save] and [load] *)

Section StoredParameters.
Variables S_CHANNEL_RED S_CHANNEL_GREEN S_CHANNEL_BLUE S_CHANNEL_ALPHA : string.
Variable channel_data_init : channel_data.

Local Abbreviation with_names f :=
  (f S_CHANNEL_RED S_CHANNEL_GREEN S_CHANNEL_BLUE S_CHANNEL_ALPHA) (only parsing).

Lemma stored_channels_any settings m m' :
  with_names stored_channels settings m = with_names stored_channels settings m'.
Proof.
  apply map_eq. intros c.
  destruct (stored_channels_lookup S_CHANNEL_RED S_CHANNEL_GREEN S_CHANNEL_BLUE
              S_CHANNEL_ALPHA settings m) as (Hr & Hg & Hb & Ha).
  destruct (stored_channels_lookup S_CHANNEL_RED S_CHANNEL_GREEN S_CHANNEL_BLUE
              S_CHANNEL_ALPHA settings m') as (Hr' & Hg' & Hb' & Ha').
  destruct c; congruence.
Qed.

(** X19: the parameters [update] stores depend on the settings and on nothing
    else: not on what the filter held before, not on the binding, not on what
    the host answers. *)
Theorem update_overwrites_parameters e e' settings s s' :
  let i := (update S_CHANNEL_RED S_CHANNEL_GREEN
        S_CHANNEL_BLUE S_CHANNEL_ALPHA channel_data_init e settings s).2.2 in
  let i' := (update S_CHANNEL_RED S_CHANNEL_GREEN
        S_CHANNEL_BLUE S_CHANNEL_ALPHA channel_data_init e' settings s').2.2 in
  _channels i = _channels i' /\ _precalc i = _precalc i' /\
  _debug_texture i = _debug_texture i'.
Proof.
  cbv zeta.
  destruct (update_spec S_CHANNEL_RED S_CHANNEL_GREEN S_CHANNEL_BLUE S_CHANNEL_ALPHA
              channel_data_init e settings s) as (s1 & -> & Hc & Hp & Hd).
  destruct (update_spec S_CHANNEL_RED S_CHANNEL_GREEN S_CHANNEL_BLUE S_CHANNEL_ALPHA
              channel_data_init e' settings s') as (s1' & -> & Hc' & Hp' & Hd').
  cbn [snd]. rewrite Hc, Hc', Hp, Hp', Hd, Hd'.
  split; [apply stored_channels_any|split; reflexivity].
Qed.

(** X20: the debug selector a filter gets when the user never set one is the
    registered default, and with it the override of a render call does
    nothing. *)
Theorem debug_selector_defaults_to_none e data s :
  d_ints data !! ST_KEY_DEBUG_TEXTURE = None ->
  let s' := (update S_CHANNEL_RED S_CHANNEL_GREEN
        S_CHANNEL_BLUE S_CHANNEL_ALPHA channel_data_init e
        (with_names get_defaults2 data) s).2 in
  _debug_texture s'.2 = -1 /\ debug_texture_override s' = (Return tt, s').
Proof.
  intros Hn. cbv zeta.
  destruct (update_spec S_CHANNEL_RED S_CHANNEL_GREEN S_CHANNEL_BLUE S_CHANNEL_ALPHA
              channel_data_init e (with_names get_defaults2 data) s)
    as (s1 & -> & _ & _ & Hd).
  cbn [snd].
  assert (Hv : _debug_texture s1.2 = -1).
  { rewrite Hd. unfold obs_data_get_int.
    replace (d_ints (with_names get_defaults2 data)) with (d_ints data) by reflexivity.
    rewrite Hn. unfold get_defaults2. cbn [d_default_ints obs_data_set_default_int].
    rewrite lookup_insert_eq. reflexivity. }
  split; [exact Hv|].
  destruct s1 as [h1 i1]. cbn [snd] in Hv.
  unfold debug_texture_override, mbind, M_bind, get_inst. cbn [snd].
  rewrite Hv. reflexivity.
Qed.
End StoredParameters.

Lemma debug_selector_defaults_to_none_witness :
  _debug_texture
    (update_named camera_env (get_defaults2_named empty_data)
       (initial_host, initial_instance)).2.2 = -1.
Proof.
  exact (proj1 (debug_selector_defaults_to_none "Red" "Green" "Blue" "Alpha"
                  fresh_channel_data camera_env empty_data
                  (initial_host, initial_instance) eq_refl)).
Defined.

(** ** Parameters: what [save] writes, and reading it back *)

Ltac save_steps :=
  cbv beta iota zeta delta
    [save_channel find_or_insert found_second
     for_each for_each_with channel_translations channel_index
     vec4_ptr value scale values vx vy vz vw
     mbind M_bind mret M_ret get_inst modify_inst throw fst snd
     default from_option id
     _channels _precalc set_channels
     _input _input_child _input_vs _input_ac _have_base _base_rt _base_tex
     _base_color_space _base_color_format _base_srgb _have_input _input_rt
     _input_tex _input_color_space _input_color_format _input_srgb _have_final
     _final_rt _final_tex _final_srgb _debug_texture].

Ltac channel_steps :=
  cbn [_channels set_channels default];
  repeat first [rewrite lookup_insert_eq | rewrite lookup_insert_ne by discriminate].

Lemma obs_data_set_doubles_others ws d :
  d_strings (obs_data_set_doubles ws d) = d_strings d /\
  d_default_doubles (obs_data_set_doubles ws d) = d_default_doubles d /\
  d_default_ints (obs_data_set_doubles ws d) = d_default_ints d.
Proof.
  unfold obs_data_set_doubles. revert d.
  induction ws as [|kv ws IH]; intros d; [repeat split|].
  cbn [fold_left]. destruct (IH (obs_data_set_double d kv.1 kv.2)) as (-> & -> & ->).
  repeat split.
Qed.

Lemma obs_data_set_doubles_lookup_ne ws d k :
  k ∉ ws.*1 ->
  d_doubles (obs_data_set_doubles ws d) !! k = d_doubles d !! k.
Proof.
  unfold obs_data_set_doubles. revert d.
  induction ws as [|kv ws IH]; intros d Hk; [reflexivity|].
  cbn [fold_left]. rewrite fmap_cons, not_elem_of_cons in Hk. destruct Hk as [Hne Hk].
  rewrite (IH _ Hk). cbn [d_doubles obs_data_set_double].
  apply lookup_insert_ne. congruence.
Qed.

Lemma obs_data_set_doubles_lookup_in ws d k :
  k ∈ ws.*1 -> is_Some (d_doubles (obs_data_set_doubles ws d) !! k).
Proof.
  unfold obs_data_set_doubles. revert d.
  induction ws as [|kv ws IH]; intros d Hk; [inversion Hk|].
  cbn [fold_left]. destruct (decide (k ∈ ws.*1)) as [Hin|Hnot]; [apply IH; exact Hin|].
  rewrite fmap_cons, elem_of_cons in Hk. destruct Hk as [->|Hk]; [|contradiction].
  pose proof (obs_data_set_doubles_lookup_ne ws (obs_data_set_double d kv.1 kv.2) _ Hnot)
    as E.
  unfold obs_data_set_doubles in E. rewrite E.
  cbn [d_doubles obs_data_set_double]. rewrite lookup_insert_eq. eauto.
Qed.

(** Reading back a run of writes to pairwise different keys. *)
Lemma obs_data_get_set_doubles_nodup ws d k v :
  NoDup ws.*1 -> (k, v) ∈ ws ->
  obs_data_get_double (obs_data_set_doubles ws d) k = v.
Proof.
  unfold obs_data_set_doubles. revert d.
  induction ws as [|kv ws IH]; intros d Hnd Hin; [inversion Hin|].
  cbn [fold_left]. rewrite fmap_cons in Hnd. apply NoDup_cons in Hnd as [Hnot Hnd].
  apply elem_of_cons in Hin as [<-|Hin]; [|apply IH; assumption].
  unfold obs_data_get_double.
  pose proof (obs_data_set_doubles_lookup_ne ws (obs_data_set_double d k v) k Hnot) as E.
  unfold obs_data_set_doubles in E. cbn [fst snd] in *. rewrite E.
  cbn [d_doubles obs_data_set_double]. rewrite lookup_insert_eq. reflexivity.
Qed.

Section SavedParameters.
Variables S_CHANNEL_RED S_CHANNEL_GREEN S_CHANNEL_BLUE S_CHANNEL_ALPHA : string.
Variable channel_data_init : channel_data.

Local Abbreviation with_names f :=
  (f S_CHANNEL_RED S_CHANNEL_GREEN S_CHANNEL_BLUE S_CHANNEL_ALPHA) (only parsing).

(** The body of the loop in [save], entry present or not: a missing entry
    is created, default-constructed, and then written out. *)
Lemma save_channel_effect settings c name h i :
  with_names save_channel channel_data_init settings (c, name) (h, i) =
    (Return (obs_data_set_doubles
               (with_names channel_writes name (default channel_data_init (_channels i !! c)))
               settings),
     (h, match _channels i !! c with
         | Some _ => i
         | None => set_channels (<[c := channel_data_init]> (_channels i)) i
         end)).
Proof.
  destruct (_channels i !! c) as [d|] eqn:Hm.
  { apply save_channel_spec. exact Hm. }
  destruct i. simpl in Hm.
  unfold obs_data_set_doubles, channel_writes. cbn [fold_left].
  save_steps. rewrite Hm. save_steps. rewrite !lookup_insert_eq. save_steps. reflexivity.
Qed.

(** [save] as a whole, from any state. *)
Lemma save_effect e settings h i :
  exists i',
    save S_CHANNEL_RED S_CHANNEL_GREEN
          S_CHANNEL_BLUE S_CHANNEL_ALPHA channel_data_init e settings (h, i) =
      (Return (obs_data_set_doubles
                 (with_names channel_writes S_CHANNEL_RED
                    (default channel_data_init (_channels i !! Red)) ++
                  with_names channel_writes S_CHANNEL_GREEN
                    (default channel_data_init (_channels i !! Green)) ++
                  with_names channel_writes S_CHANNEL_BLUE
                    (default channel_data_init (_channels i !! Blue)) ++
                  with_names channel_writes S_CHANNEL_ALPHA
                    (default channel_data_init (_channels i !! Alpha)))
                 (match lock (source_alive e) (_input i) with
                  | Some source =>
                      obs_data_set_string settings ST_KEY_INPUT (source_name e source)
                  | None => settings
                  end)),
       (h, i')) /\
    i' = set_channels (_channels i') i /\
    forall c, _channels i' !! c = Some (default channel_data_init (_channels i !! c)).
Proof.
  unfold save. unfold mbind at 1. unfold M_bind at 1, get_inst at 1. cbn [snd].
  generalize (match lock (source_alive e) (_input i) with
              | Some source =>
                  obs_data_set_string settings ST_KEY_INPUT (source_name e source)
              | None => settings
              end).
  intros settings0.
  unfold channel_translations. cbn [for_each_with].
  unfold mbind, M_bind, mret, M_ret.
  do 4 (rewrite save_channel_effect; cbv beta iota).
  unfold obs_data_set_doubles. rewrite !fold_left_app.
  destruct i.
  match goal with |- context [ {| _channels := ?m |} ] => set (chans := m) end.
  channel_steps.
  destruct (chans !! Red) as [dr|] eqn:HR; channel_steps.
  all: destruct (chans !! Green) as [dg|] eqn:HG; channel_steps.
  all: destruct (chans !! Blue) as [db|] eqn:HB; channel_steps.
  all: destruct (chans !! Alpha) as [da|] eqn:HA; channel_steps.
  all: eexists; split; [reflexivity|]; split; [reflexivity|].
  all: intros c; destruct c; channel_steps; rewrite ?HR, ?HG, ?HB, ?HA; reflexivity.
Qed.

Lemma channel_writes_keys name d :
  (with_names channel_writes name d).*1 = with_names channel_keys name.
Proof. reflexivity. Qed.

Lemma all_writes_keys dr dg db da :
  (with_names channel_writes S_CHANNEL_RED dr ++
   with_names channel_writes S_CHANNEL_GREEN dg ++
   with_names channel_writes S_CHANNEL_BLUE db ++
   with_names channel_writes S_CHANNEL_ALPHA da).*1 = with_names numeric_keys.
Proof. reflexivity. Qed.

(** X21: [save] returns from every state.  In the filter it does no more than
    create the channel entries that are missing; in the settings it writes
    the twenty-four numbers and, when an input is bound and still there, its
    name -- it touches no other item, no integer, and no default. *)
Theorem save_writes_own_keys_only e settings s :
  exists out i',
    save S_CHANNEL_RED S_CHANNEL_GREEN
          S_CHANNEL_BLUE S_CHANNEL_ALPHA channel_data_init e settings s
      = (Return out, (s.1, i')) /\
    (i' = set_channels (_channels i') s.2 /\
     forall c, _channels i' !! c = Some (default channel_data_init (_channels s.2 !! c))) /\
    d_strings out =
      match lock (source_alive e) (_input s.2) with
      | Some source => <[ST_KEY_INPUT := source_name e source]> (d_strings settings)
      | None => d_strings settings
      end /\
    (d_ints out = d_ints settings /\
     d_default_doubles out = d_default_doubles settings /\
     d_default_ints out = d_default_ints settings) /\
    (forall k, k ∉ with_names numeric_keys -> d_doubles out !! k = d_doubles settings !! k) /\
    (forall k, k ∈ with_names numeric_keys -> is_Some (d_doubles out !! k)).
Proof.
  destruct s as [h i]. destruct (save_effect e settings h i) as (i' & Hs & Hi & Hc).
  eexists. exists i'. split; [exact Hs|]. split; [split; [exact Hi|exact Hc]|].
  cbn [fst snd].
  match goal with |- context [obs_data_set_doubles ?ws ?d0] =>
    destruct (obs_data_set_doubles_others ws d0) as (Hst & Hdd & Hdi);
    pose proof (obs_data_set_doubles_ints ws d0) as Hin;
    pose proof (obs_data_set_doubles_lookup_ne ws d0) as Hne;
    pose proof (obs_data_set_doubles_lookup_in ws d0) as Hsome
  end.
  rewrite all_writes_keys in Hne, Hsome.
  rewrite Hst, Hin, Hdd, Hdi.
  split; [destruct (lock (source_alive e) (_input i)); reflexivity|].
  split; [destruct (lock (source_alive e) (_input i)); repeat split|].
  split; [|exact Hsome].
  intros k Hk. rewrite (Hne k Hk).
  destruct (lock (source_alive e) (_input i)); reflexivity.
Qed.

(** What [update] reads back for a channel from settings that hold what
    [save] wrote for it. *)
Lemma read_channel_saved ws settings0 name d :
  NoDup ws.*1 ->
  (forall kv, kv ∈ with_names channel_writes name d -> kv ∈ ws) ->
  finite_channel d = true ->
  with_names read_channel (obs_data_set_doubles ws settings0) name = d.
Proof.
  intros Hnd Hin Hfin. unfold finite_channel in Hfin.
  do 5 (apply andb_prop in Hfin as [Hfin ?]).
  unfold read_channel.
  rewrite !(obs_data_get_set_doubles_nodup ws settings0 _ _ Hnd)
    by (apply Hin; unfold channel_writes; rewrite !elem_of_cons; tauto).
  rewrite !to_float_to_double by assumption.
  destruct d as [? ? []]. reflexivity.
Qed.

(** X22: saving a filter and loading what was saved gives the parameters back:
    when the keys are pairwise different and the stored numbers finite, the
    channel entries after [load] are the ones that were saved, and the
    precomputed transform holds their offsets, scales and weights. *)
Theorem save_then_load_restores_parameters e e' out s dr dg db da :
  NoDup (with_names numeric_keys) ->
  _channels s.2 !! Red = Some dr -> _channels s.2 !! Green = Some dg ->
  _channels s.2 !! Blue = Some db -> _channels s.2 !! Alpha = Some da ->
  finite_channel dr && finite_channel dg && finite_channel db && finite_channel da = true ->
  exists out' s',
    save S_CHANNEL_RED S_CHANNEL_GREEN
          S_CHANNEL_BLUE S_CHANNEL_ALPHA channel_data_init e out s = (Return out', s) /\
    load S_CHANNEL_RED S_CHANNEL_GREEN
          S_CHANNEL_BLUE S_CHANNEL_ALPHA channel_data_init e' out' s = (Return tt, s') /\
    _channels s'.2 = _channels s.2 /\
    p_base (_precalc s'.2) =
      {| vx := value dr; vy := value dg; vz := value db; vw := value da |} /\
    p_scale (_precalc s'.2) =
      {| vx := scale dr; vy := scale dg; vz := scale db; vw := scale da |} /\
    p_matrix (_precalc s'.2) =
      {| mx := values dr; my := values dg; mz := values db; mt := values da |}.
Proof.
  intros Hnd Hr Hg Hb Ha Hfin.
  apply andb_prop in Hfin as [Hfin Hfa]. apply andb_prop in Hfin as [Hfin Hfb].
  apply andb_prop in Hfin as [Hfr Hfg].
  destruct (save_spec S_CHANNEL_RED S_CHANNEL_GREEN S_CHANNEL_BLUE S_CHANNEL_ALPHA
              channel_data_init e out s dr dg db da Hr Hg Hb Ha) as (out0 & Hsave & _).
  rewrite <- all_writes_keys with (dr := dr) (dg := dg) (db := db) (da := da) in Hnd.
  set (ws := with_names channel_writes S_CHANNEL_RED dr ++
             with_names channel_writes S_CHANNEL_GREEN dg ++
             with_names channel_writes S_CHANNEL_BLUE db ++
             with_names channel_writes S_CHANNEL_ALPHA da) in *.
  destruct (update_spec S_CHANNEL_RED S_CHANNEL_GREEN S_CHANNEL_BLUE S_CHANNEL_ALPHA
              channel_data_init e' (obs_data_set_doubles ws out0) s)
    as (s' & Hload & Hc & Hp & _).
  assert (Rr : with_names read_channel (obs_data_set_doubles ws out0) S_CHANNEL_RED = dr).
  { apply read_channel_saved; [exact Hnd| |exact Hfr].
    intros kv Hkv. subst ws. rewrite !elem_of_app. tauto. }
  assert (Rg : with_names read_channel (obs_data_set_doubles ws out0) S_CHANNEL_GREEN = dg).
  { apply read_channel_saved; [exact Hnd| |exact Hfg].
    intros kv Hkv. subst ws. rewrite !elem_of_app. tauto. }
  assert (Rb : with_names read_channel (obs_data_set_doubles ws out0) S_CHANNEL_BLUE = db).
  { apply read_channel_saved; [exact Hnd| |exact Hfb].
    intros kv Hkv. subst ws. rewrite !elem_of_app. tauto. }
  assert (Ra : with_names read_channel (obs_data_set_doubles ws out0) S_CHANNEL_ALPHA = da).
  { apply read_channel_saved; [exact Hnd| |exact Hfa].
    intros kv Hkv. subst ws. rewrite !elem_of_app. tauto. }
  exists (obs_data_set_doubles ws out0), s'.
  split; [exact Hsave|]. split; [exact Hload|].
  rewrite Hc, Hp. unfold stored_channels, stored_precalc. rewrite Rr, Rg, Rb, Ra.
  split; [|repeat split].
  rewrite (insert_id _ Red dr Hr), (insert_id _ Green dg Hg), (insert_id _ Blue db Hb).
  apply insert_id. exact Ha.
Qed.
End SavedParameters.

Lemma save_then_load_restores_parameters_witness :
  NoDup (numeric_keys "Red" "Green" "Blue" "Alpha") /\
  exists out' s',
    save_named camera_env empty_data offset_1000_state = (Return out', offset_1000_state) /\
    load "Red" "Green" "Blue" "Alpha" fresh_channel_data gone_env out' offset_1000_state
      = (Return tt, s') /\
    _channels s'.2 = _channels offset_1000_state.2.
Proof.
  assert (Hnd : NoDup (numeric_keys "Red" "Green" "Blue" "Alpha"))
    by (apply (bool_decide_unpack _); vm_compute; exact I).
  assert (Hr : _channels offset_1000_state.2 !! Red =
               Some (read_channel "Red" "Green" "Blue" "Alpha" offset_1000 "Red"))
    by (vm_compute; reflexivity).
  assert (Hg : _channels offset_1000_state.2 !! Green =
               Some (read_channel "Red" "Green" "Blue" "Alpha" offset_1000 "Green"))
    by (vm_compute; reflexivity).
  assert (Hb : _channels offset_1000_state.2 !! Blue =
               Some (read_channel "Red" "Green" "Blue" "Alpha" offset_1000 "Blue"))
    by (vm_compute; reflexivity).
  assert (Ha : _channels offset_1000_state.2 !! Alpha =
               Some (read_channel "Red" "Green" "Blue" "Alpha" offset_1000 "Alpha"))
    by (vm_compute; reflexivity).
  assert (Hfin : finite_channel (read_channel "Red" "Green" "Blue" "Alpha" offset_1000 "Red")
                 && finite_channel (read_channel "Red" "Green" "Blue" "Alpha" offset_1000 "Green")
                 && finite_channel (read_channel "Red" "Green" "Blue" "Alpha" offset_1000 "Blue")
                 && finite_channel (read_channel "Red" "Green" "Blue" "Alpha" offset_1000 "Alpha")
                 = true)
    by (vm_compute; reflexivity).
  split; [exact Hnd|].
  destruct (save_then_load_restores_parameters "Red" "Green" "Blue" "Alpha"
              fresh_channel_data camera_env gone_env empty_data offset_1000_state
              _ _ _ _ Hnd Hr Hg Hb Ha Hfin)
    as (out' & s' & Hs & Hl & Hc & _).
  exists out', s'. split; [exact Hs|]. split; [exact Hl|exact Hc].
Defined.

(** ** The lifetime facts on concrete channel names *)

Lemma lifetime_references_balanced_witness :
  same_references initial_host
    (dynamic_mask_instance_dtor camera_env
       (for_each camera_calls (run_call "Red" "Green" "Blue" "Alpha" fresh_channel_data)
          (dynamic_mask_instance_ctor "Red" "Green" "Blue" "Alpha" fresh_channel_data
             camera_env camera_settings (initial_host, initial_instance)).2).2).2.1.
Proof.
  refine (proj1 (proj2 (lifetime_references_balanced "Red" "Green" "Blue" "Alpha"
                          fresh_channel_data (fun _ => true) camera_env camera_settings
                          camera_calls camera_env initial_host initial_instance _ _ _))).
  - intros x. reflexivity.
  - repeat constructor; intros x; reflexivity.
  - intros x. reflexivity.
Defined.

Lemma settings_reach_the_effect_witness :
  exists new,
    calls (video_render smooth_render
             (video_tick srgb_tick
                (update_named gone_env offset_1000 (initial_host, initial_instance)).2).2).2.1
    = new ++ calls (video_tick srgb_tick
                      (update_named gone_env offset_1000
                         (initial_host, initial_instance)).2).2.1 /\
    In (effect_set_float4 "pMaskBase"
          (p_base (stored_precalc "Red" "Green" "Blue" "Alpha" offset_1000))) new.
Proof.
  assert (Hg : nothing_to_render smooth_render
                 (lock (render_alive smooth_render)
                    (_input (video_tick srgb_tick
                               (update_named gone_env offset_1000
                                  (initial_host, initial_instance)).2).2.2)) = false)
    by (vm_compute; reflexivity).
  destruct (settings_reach_the_effect "Red" "Green" "Blue" "Alpha" fresh_channel_data
              gone_env offset_1000 srgb_tick smooth_render (initial_host, initial_instance)
              Hg eq_refl eq_refl eq_refl eq_refl eq_refl)
    as (new & E & HB & _).
  exists new. split; [exact E|exact HB].
Defined.

Lemma unbound_input_srgb_is_never_assigned_witness :
  _input_srgb
    (render_calls [smooth_render]
       (video_tick srgb_tick
          (dynamic_mask_instance_ctor "Red" "Green" "Blue" "Alpha" fresh_channel_data
             gone_env empty_data
             (initial_host, set_input_srgb true initial_instance)).2).2).2.2 = true.
Proof.
  exact (proj2 (unbound_input_srgb_is_never_assigned "Red" "Green" "Blue" "Alpha"
                  fresh_channel_data gone_env empty_data srgb_tick [smooth_render]
                  initial_host (set_input_srgb true initial_instance) eq_refl)).
Defined.
